(** * pymatgen.io.abinitio.workflow: tasks, status, dependencies and works

    A shallow embedding of the task/workflow engine of
    [pymatgen/io/abinitio/workflow.py]: the classes [File], [AbinitTask],
    [Status], [TaskDependencies] and [Work], together with the part of
    [os.path] they call.  Methods that only compute are Rocq functions into
    [result]; methods that touch the file system, the lock files or the
    task objects are written in a state-and-exception monad [Py]. *)

From Stdlib Require Import ZArith Ascii.
From stdpp Require Import base option list strings gmap fin_maps pretty.

Local Open Scope Z_scope.

(** ** Python exceptions and the two monads *)

(** The exceptions that can cross the modelled code.  [Exception_] stands
    for whatever a user hook or an external program raises. *)
Inductive PyExc : Type :=
| NameError (name : string)
| NotImplementedError (msg : string)
| TypeError (msg : string)
| AttributeError (attr : string)
| IndexError
| KeyError (key : string)
| ValueError (msg : string)
| OSError (msg : string)
| IOError (msg : string)
| FileLockException (lockfile : string)
| Exception_ (msg : string).

#[global] Instance PyExc_eq_dec : EqDecision PyExc.
Proof. solve_decision. Defined.

(** A computation that reads but does not write. *)
Inductive result (A : Type) : Type :=
| Ok (a : A)
| Error (e : PyExc).
Arguments Ok {A} a.
Arguments Error {A} e.

Definition result_bind {A B} (m : result A) (k : A -> result B) : result B :=
  match m with
  | Ok a => k a
  | Error e => Error e
  end.

(** A computation over a mutable state [S]: it returns a value or raises,
    and in both cases leaves a state behind. *)
Inductive outcome (S A : Type) : Type :=
| Returns (a : A) (s : S)
| Raises (e : PyExc) (s : S).
Arguments Returns {S A} a s.
Arguments Raises {S A} e s.

Definition Py (S A : Type) : Type := S -> outcome S A.

Definition ret {S A} (a : A) : Py S A := fun s => Returns a s.
Definition raise {S A} (e : PyExc) : Py S A := fun s => Raises e s.
Definition bind {S A B} (m : Py S A) (k : A -> Py S B) : Py S B :=
  fun s => match m s with
           | Returns a s' => k a s'
           | Raises e s' => Raises e s'
           end.
Definition get {S} : Py S S := fun s => Returns s s.
Definition gets {S A} (f : S -> A) : Py S A := fun s => Returns (f s) s.
Definition put {S} (s : S) : Py S unit := fun _ => Returns tt s.
Definition observe {S A} (f : S -> result A) : Py S A :=
  fun s => match f s with
           | Ok a => Returns a s
           | Error e => Raises e s
           end.

(** The state a computation leaves behind, however it ends. *)
Definition final_state {S A} (o : outcome S A) : S :=
  match o with
  | Returns _ s => s
  | Raises _ s => s
  end.

(** A call that waits for other threads can also wait for ever, in a state
    that no longer changes. *)
Inductive completion (S A : Type) : Type :=
| Completes (o : outcome S A)
| Waits (s : S).
Arguments Completes {S A} o.
Arguments Waits {S A} s.

Definition Waiting (S A : Type) : Type := S -> completion S A.

Definition lift {S A} (m : Py S A) : Waiting S A := fun s => Completes (m s).
Definition wbind {S A B} (m : Waiting S A) (k : A -> Waiting S B) : Waiting S B :=
  fun s => match m s with
           | Completes (Returns a s') => k a s'
           | Completes (Raises e s') => Completes (Raises e s')
           | Waits s' => Waits s'
           end.

(** The state a call is in when it is over, or waits. *)
Definition last_state {S A} (c : completion S A) : S :=
  match c with
  | Completes o => final_state o
  | Waits s => s
  end.

Declare Scope py_scope.
Delimit Scope py_scope with py.
Notation "'let+' x ':=' m 'in' k" := (wbind m (fun x => k))
  (at level 10, x name, m at level 100, k at level 200) : py_scope.
Notation "'let*' x ':=' m 'in' k" := (bind m (fun x => k))
  (at level 10, x name, m at level 100, k at level 200) : py_scope.
Notation "'let?' x ':=' m 'in' k" := (result_bind m (fun x => k))
  (at level 10, x name, m at level 100, k at level 200) : py_scope.
Local Open Scope py_scope.

(** [when b m] is [if b: m]. *)
Definition when {S} (b : bool) (m : Py S unit) : Py S unit :=
  if b then m else ret tt.

(** The builtin [max] over a non-empty sequence, with the comparison [gt]
    the elements define ([__gt__]): the first maximal element wins. *)
Definition py_max {A} (gt : A -> A -> bool) (l : list A) : result A :=
  match l with
  | [] => Error (ValueError "max() arg is an empty sequence")
  | x :: rest =>
      Ok (fold_left (fun maxitem item => if gt item maxitem then item else maxitem)
                    rest x)
  end.

(** ** Name resolution of the module

    [raise Name(msg)] first evaluates [Name]: a global of the module, then
    a builtin; an unbound name raises [NameError]. *)
Module Namespace.

(** Names bound at the top level of [workflow.py]. *)
Definition module_globals : list string :=
  [ "sys"; "os"; "collections"; "subprocess"; "np";
    "Lattice"; "Structure"; "Enum"; "Bohr2Ang"; "Ang2Bohr"; "Ha2eV";
    "MSONable"; "PMGJSONDecoder"; "read_structure"; "stream_has_colours";
    "FileLock"; "GSR_Reader"; "Pseudo"; "PseudoDatabase"; "PseudoTable";
    "PseudoExtraInfo"; "get_abinit_psp_dir"; "Input"; "Electrons";
    "System"; "Control"; "Kpoints"; "parse_ewc";
    "abinit_output_iscomplete"; "JobFile";
    "AbinitTask"; "Status"; "TaskDependencies"; "WorkError"; "Work";
    "PseudoEcutTest"; "BandStructure"; "Relaxation"; "DeltaTest"; "PvsV";
    "G0W0"; "test_abinitio"; "EcutTest"; "_remove_tree"; "File" ].

(** The builtin exception classes the module names. *)
Definition builtins (name : string) : option (string -> PyExc) :=
  if decide (name = "NotImplementedError") then Some NotImplementedError
  else if decide (name = "ValueError") then Some ValueError
  else if decide (name = "TypeError") then Some TypeError
  else if decide (name = "OSError") then Some OSError
  else if decide (name = "IOError") then Some IOError
  else None.

(** The exception that [raise name(msg)] ends with. *)
Definition raise_named (name msg : string) : PyExc :=
  if decide (name ∈ module_globals)
  then TypeError "exceptions must derive from BaseException"
  else match builtins name with
       | Some cls => cls msg
       | None => NameError name
       end.

End Namespace.

(** ** os.path (posixpath) *)
Module posixpath.

(** [p.startswith(prefix)] *)
Fixpoint startswith (p prefix : string) : bool :=
  match prefix with
  | EmptyString => true
  | String c prefix =>
      match p with
      | String d p => Ascii.eqb d c && startswith p prefix
      | EmptyString => false
      end
  end.

Definition startswith_slash (p : string) : bool :=
  match p with
  | String c _ => Ascii.eqb c "/"
  | EmptyString => false
  end.

Fixpoint endswith_slash (p : string) : bool :=
  match p with
  | EmptyString => false
  | String c EmptyString => Ascii.eqb c "/"
  | String _ rest => endswith_slash rest
  end.

Definition isabs (p : string) : bool := startswith_slash p.

(** [join(a, b)]: an absolute [b] replaces [a]; otherwise exactly one
    separator is put between them unless [a] is empty or ends with one. *)
Definition join (a b : string) : string :=
  if startswith_slash b then b
  else if bool_decide (a = "") || endswith_slash a then a +:+ b
  else a +:+ "/" +:+ b.

(** [(p[:i], p[i:])] for [i = p.rfind('/') + 1]. *)
Fixpoint cut_at_last_slash (p : string) : string * string :=
  match p with
  | EmptyString => ("", "")
  | String c rest =>
      let '(h, t) := cut_at_last_slash rest in
      match h with
      | EmptyString =>
          if Ascii.eqb c "/" then (String c "", t) else ("", String c t)
      | _ => (String c h, t)
      end
  end.

Fixpoint all_slashes (p : string) : bool :=
  match p with
  | EmptyString => true
  | String c rest => Ascii.eqb c "/" && all_slashes rest
  end.

(** [p.rstrip('/')] *)
Fixpoint rstrip_slash (p : string) : string :=
  match p with
  | EmptyString => ""
  | String c rest =>
      match rstrip_slash rest with
      | EmptyString => if Ascii.eqb c "/" then "" else String c ""
      | r => String c r
      end
  end.

(** [split(p)]: head and tail around the last separator; trailing
    separators are stripped from a head that is not all separators. *)
Definition split (p : string) : string * string :=
  let '(head, tail) := cut_at_last_slash p in
  if negb (bool_decide (head = "")) && negb (all_slashes head)
  then (rstrip_slash head, tail)
  else (head, tail).

Definition basename (p : string) : string := snd (cut_at_last_slash p).

(** [p.split('/')] *)
Fixpoint str_split_slash (p : string) : list string :=
  match p with
  | EmptyString => [""]
  | String c rest =>
      if Ascii.eqb c "/" then "" :: str_split_slash rest
      else match str_split_slash rest with
           | h :: t => String c h :: t
           | [] => [String c ""]
           end
  end.

(** ['/'.join(comps)] *)
Fixpoint str_join_slash (comps : list string) : string :=
  match comps with
  | [] => ""
  | [c] => c
  | c :: rest => c +:+ "/" +:+ str_join_slash rest
  end.

(** One turn of the loop of [normpath]; [new_comps] is kept reversed, so
    that its head is [new_comps[-1]]. *)
Definition normpath_step (initial_slashes : nat)
    (new_comps : list string) (comp : string) : list string :=
  if bool_decide (comp = "") || bool_decide (comp = ".") then new_comps
  else if negb (bool_decide (comp = ".."))
          || (bool_decide (initial_slashes = 0%nat) && bool_decide (new_comps = []))
          || (match new_comps with
              | last :: _ => bool_decide (last = "..")
              | [] => false
              end)
  then comp :: new_comps
  else match new_comps with
       | _ :: popped => popped
       | [] => []
       end.

(** POSIX allows one or two initial slashes, but treats three or more as
    a single slash. *)
Definition initial_slashes (path : string) : nat :=
  if startswith_slash path then
    if startswith path "//" && negb (startswith path "///") then 2%nat else 1%nat
  else 0%nat.

(** [slash * n] *)
Fixpoint slashes (n : nat) : string :=
  match n with
  | O => ""
  | S n => String "/" (slashes n)
  end.

Definition normpath (path : string) : string :=
  if bool_decide (path = "") then "."
  else
    let initial_slashes := initial_slashes path in
    let comps := str_split_slash path in
    let new_comps := rev (fold_left (normpath_step initial_slashes) comps []) in
    let path := str_join_slash new_comps in
    let path :=
      match initial_slashes with
      | O => path
      | _ => slashes initial_slashes +:+ path
      end in
    if bool_decide (path = "") then "." else path.

(** [abspath(path)] in a process whose current directory is [cwd]. *)
Definition abspath (cwd path : string) : string :=
  normpath (if isabs path then path else join cwd path).

End posixpath.

(** ** The operating system and the external collaborators *)

(** What a path names. *)
Inductive node : Type :=
| Directory
| Regular (content : string).

#[global] Instance node_eq_dec : EqDecision node.
Proof. solve_decision. Defined.

(** The file-system calls the module makes, over a store [F]. *)
Class FileSystem (F : Type) : Type := {
  (* what [path] names, if anything *)
  stat : string -> F -> option node;
  (* [os.makedirs(path)] *)
  makedirs : string -> Py F unit;
  (* [with open(path, "w") as f: f.write(text)] *)
  write_file : string -> string -> Py F unit;
  (* [with open(path, "r") as f: f.readlines()] *)
  read_lines : string -> F -> result (list string);
}.

(** [os.path.exists(path)] *)
Definition os_path_exists {F} {FS : FileSystem F} (path : string) (s : F) : bool :=
  bool_decide (is_Some (stat path s)).

(** [if not os.path.exists(path): create] *)
Definition unless_exists {F} {FS : FileSystem F} (path : string)
    (create : Py F unit) : Py F unit :=
  let* there := gets (os_path_exists path) in
  when (negb there) create.

(** What the calls promise: a directory or file that was asked for is there
    afterwards, nothing else that was there is touched, and a call that
    raises leaves the store as it found it. *)
Class FileSystemLaws (F : Type) {FS : FileSystem F} : Prop := {
  makedirs_creates : forall p s u s',
    makedirs p s = Returns u s' -> stat p s' = Some Directory;
  makedirs_frame : forall p s u s' q n,
    makedirs p s = Returns u s' -> stat q s = Some n -> stat q s' = Some n;
  makedirs_raises : forall p s e s',
    makedirs p s = Raises e s' -> s' = s;
  write_file_creates : forall p text s u s',
    write_file p text s = Returns u s' -> stat p s' = Some (Regular text);
  write_file_frame : forall p text s u s' q,
    write_file p text s = Returns u s' -> q <> p -> stat q s' = stat q s;
  write_file_raises : forall p text s e s',
    write_file p text s = Raises e s' -> s' = s;
}.

(** The store together with the lock files that are currently held. *)
Record World (F : Type) : Type := mkWorld {
  fs : F;
  held : gset string;
}.
Arguments mkWorld {F} fs held.
Arguments fs {F} w.
Arguments held {F} w.

(** [subprocess.call((shell, script), cwd=cwd)]: the exit code of the
    child, or the exception of a launch that failed. *)
Class Subprocess (F : Type) : Type := {
  subprocess_call : string -> string -> string -> Py (World F) Z;
}.

(** The thread scheduler of the interpreter: [schedule n] picks, among the
    threads that can make a move, the one that makes move number [n]. *)
Class Scheduler : Type := {
  schedule : nat -> nat;
}.

(** What a caller may pass for a keyword that is meant to be a number. *)
Inductive KwVal : Type :=
| KInt (n : Z)
| KBool (b : bool)
| KNone.

(** The builtin [int]. *)
Definition int (v : KwVal) : result Z :=
  match v with
  | KInt n => Ok n
  | KBool b => Ok (if b then 1 else 0)
  | KNone =>
      Error (TypeError "int() argument must be a string or a number, not 'NoneType'")
  end.

(** [pymatgen.io.abinitio.utils]. *)
Record EWC : Type := mkEWC {
  errors : list string;
  warnings : list string;
  comments : list string;
}.

Class AbinitUtils (F : Type) : Type := {
  abinit_output_iscomplete : string -> F -> result bool;
  parse_ewc : string -> nat -> F -> result EWC;
}.

(** [GSR_Reader] of [pymatgen.io.abinitio.netcdf] and numpy's [inf], over
    the type [V] of floating-point values.  [GSR_get_value path name] is
    the whole of [with GSR_Reader(path) as ncdata: ncdata.get_value(name)]:
    the value read, or the exception that leaves the block (the reader is
    taken to close the file without raising or swallowing anything). *)
Class NetCDF (F V : Type) : Type := {
  GSR_get_value : string -> string -> F -> result V;
  np_inf : V;
}.

(** [os.listdir(path)]: the names in a directory, in the order the
    system gives them, or the exception of a directory that cannot be
    read. *)
Class DirectoryListing (F : Type) : Type := {
  listdir : string -> F -> result (list string);
}.

(** What an expression of [Status.show] evaluates to: a string, or a type
    object such as the builtin [str]. *)
Inductive PyVal : Type :=
| VStr (s : string)
| VType (name : string).

(** [a + b]: strings concatenate, a string and a type object do not. *)
Definition py_add (a b : PyVal) : result PyVal :=
  match a, b with
  | VStr x, VStr y => Ok (VStr (x +:+ y))
  | VStr _, VType name =>
      Error (TypeError ("cannot concatenate 'str' and 'type' objects"))
  | VType _, _ =>
      Error (TypeError ("unsupported operand type(s) for +"))
  end.

(** The input object: anything that can be copied, printed and extended
    with path variables, and that lists its pseudopotential files. *)
Module Input.
Class API (I : Type) : Type := {
  copy : I -> I;
  add_vars_to_control : I -> gmap string string -> I;
  str : I -> string;
  (* [[pseudo.path for pseudo in input.pseudos]] *)
  pseudos : I -> list string;
}.
End Input.

(** [pymatgen.io.abinitio.jobfile.JobFile] *)
Module JobFile.
Class API (J : Type) : Type := {
  (* [JobFile(name=..., input=..., log=..., stderr=...)] *)
  new : string -> string -> string -> string -> J;
  shell : J -> string;
  path : J -> string;
  str : J -> string;
}.
End JobFile.

(** [pymatgen.util.filelock.FileLock], the lock keyed by a fixed path. *)
Module FileLock.
Section Methods.
Context {F : Type}.

(** Modelled from the spec: [FileLock.acquire] is not among the sources.
    Acquiring a lock that is already held fails with the lock's own
    exception, a lock that is free becomes held. *)
Definition acquire (lockfile : string) : Py (World F) unit :=
  fun w =>
    if decide (lockfile ∈ held w)
    then Raises (FileLockException lockfile) w
    else Returns tt (mkWorld (fs w) ({[lockfile]} ∪ held w)).

(** Modelled from the spec: [FileLock.release] is not among the sources.
    Releasing gives the path back. *)
Definition release (lockfile : string) : Py (World F) unit :=
  fun w => Returns tt (mkWorld (fs w) (held w ∖ {[lockfile]})).

End Methods.
End FileLock.

(** ** File *)
Module File.

Record t : Type := mk {
  basename : string;
  dirname : string;
  path : string;
}.

Definition __init__ (cwd : string) (basename dirname : string) : t :=
  let dirname := posixpath.abspath cwd dirname in
  {| basename := basename;
     dirname := dirname;
     path := posixpath.join dirname basename |}.

Section Methods.
Context {F : Type} {FS : FileSystem F}.

(** True if file exists. *)
Definition exists_ (self : t) : F -> bool := os_path_exists (path self).

Definition write (self : t) (text : string) : Py F unit :=
  write_file (path self) text.

Definition readlines (self : t) : F -> result (list string) :=
  read_lines (path self).

Definition read (self : t) (s : F) : result string :=
  let? lines := read_lines (path self) s in
  Ok (String.concat "" lines).

(** [with open(self.path, "w") as f: return f.writelines()]: the file is
    opened for writing, which empties it, and [writelines] is then called
    without its argument. *)
Definition writelines (self : t) (lines : list string) : Py F unit :=
  let* _ := write_file (path self) "" in
  raise (TypeError "writelines() takes exactly one argument (0 given)").

End Methods.

End File.

(** ** AbinitTask *)
Module AbinitTask.

(** Prefixes for Abinit (input, output, temporary) files. *)
Module Prefix.
Record t : Type := mk { idata : string; odata : string; tdata : string }.
End Prefix.

Definition prefix : Prefix.t :=
  Prefix.mk "in" (posixpath.join "output" "out") (posixpath.join "temporary" "tmp").

(** Basenames for Abinit input and output files. *)
Module Basename.
Record t : Type := mk {
  input : string;
  output : string;
  files_file : string;
  log_file : string;
  stderr_file : string;
  jobfile : string;
  lockfile : string;
}.
End Basename.

Definition basename : Basename.t :=
  Basename.mk "run.input" "run.output" "run.files" "log" "stderr" "job.sh" "__lock__".

(** The attributes of a task.  [_return_code] is unset until [run] has
    stored the exit code of the job. *)
Record Task (I J : Type) : Type := mkTask {
  workdir : string;
  input : I;
  need_files : list string;
  input_file : File.t;
  output_file : File.t;
  files_file : File.t;
  log_file : File.t;
  stderr_file : File.t;
  jobfile : J;
  _return_code : option Z;
}.
Arguments mkTask {I J}.
Arguments workdir {I J} self : rename.
Arguments input {I J} self : rename.
Arguments need_files {I J} self : rename.
Arguments input_file {I J} self : rename.
Arguments output_file {I J} self : rename.
Arguments files_file {I J} self : rename.
Arguments log_file {I J} self : rename.
Arguments stderr_file {I J} self : rename.
Arguments jobfile {I J} self : rename.
Arguments _return_code {I J} self : rename.

(** What a subclass may override: the two hooks around the job. *)
Record Hooks (I J F : Type) : Type := mkHooks {
  setup : Task I J -> Py (World F) unit;
  teardown : Task I J -> Py (World F) unit;
}.
Arguments mkHooks {I J F}.
Arguments setup {I J F} hooks self : rename.
Arguments teardown {I J F} hooks self : rename.

Section Methods.
Context {I J : Type} {InputI : Input.API I} {JobFileJ : JobFile.API J}.

(** [cwd] is the current directory of the process, which
    [os.path.abspath] consults for a relative path. *)
Definition __init__ (cwd : string) (input : I) (workdir : string)
    (varpaths : option (gmap string string)) : Task I J :=
  let workdir := posixpath.abspath cwd workdir in
  let input := Input.copy input in
  let '(need_files, input) :=
    match varpaths with
    | Some varpaths =>
        ((map_to_list varpaths).*2, Input.add_vars_to_control input varpaths)
    | None => ([], input)
    end in
  let input_file := File.__init__ cwd (Basename.input basename) workdir in
  let output_file := File.__init__ cwd (Basename.output basename) workdir in
  let files_file := File.__init__ cwd (Basename.files_file basename) workdir in
  let log_file := File.__init__ cwd (Basename.log_file basename) workdir in
  let stderr_file := File.__init__ cwd (Basename.stderr_file basename) workdir in
  let jobfile_path := posixpath.join workdir (Basename.jobfile basename) in
  let jobfile :=
    JobFile.new jobfile_path (File.path files_file) (File.path log_file)
                (File.path stderr_file) in
  mkTask workdir input need_files input_file output_file files_file
         log_file stderr_file jobfile None.

Definition name (self : Task I J) : string := File.basename (input_file self).

Definition return_code (self : Task I J) : Z :=
  match _return_code self with
  | Some code => code
  | None => 666
  end.

Definition jobfile_path (self : Task I J) : string :=
  posixpath.join (workdir self) (Basename.jobfile basename).

Definition outfiles_dir (self : Task I J) : string :=
  let '(head, tail) := posixpath.split (Prefix.odata prefix) in
  posixpath.join (workdir self) head.

Definition tmpfiles_dir (self : Task I J) : string :=
  let '(head, tail) := posixpath.split (Prefix.tdata prefix) in
  posixpath.join (workdir self) head.

(** [ext[0]] raises [IndexError] on the empty string. *)
Definition odata_path_from_ext (self : Task I J) (ext : string) : result string :=
  match ext with
  | EmptyString => Error IndexError
  | String c _ =>
      let ext := if negb (Ascii.eqb c "_") then "_" +:+ ext else ext in
      Ok (posixpath.join (workdir self) (Prefix.odata prefix +:+ ext))
  end.

Definition pseudos (self : Task I J) : list string := Input.pseudos (input self).

Definition filesfile_string (self : Task I J) : string :=
  let pj := posixpath.join in
  let lines :=
    [ File.path (input_file self);
      File.path (output_file self);
      pj (workdir self) (Prefix.idata prefix);
      pj (workdir self) (Prefix.odata prefix);
      pj (workdir self) (Prefix.tdata prefix) ]
    ++ pseudos self in
  String.concat (String "010" "") lines.

(** Both stop at their first statement, [raise NotimplementedError("")]. *)
Definition to_dict (self : Task I J) : result (gmap string string) :=
  Error (Namespace.raise_named "NotimplementedError" "").

Definition from_dict (d : gmap string string) : result (Task I J) :=
  Error (Namespace.raise_named "NotimplementedError" "").

Definition get_runhints (self : Task I J) (max_numproc : nat) : result unit :=
  Error (Namespace.raise_named "NotImplementedError" "").

Definition path_in_workdir (self : Task I J) (filename : string) : string :=
  posixpath.join (workdir self) filename.

Section OnDisk.
Context {F : Type} {FS : FileSystem F}.

Definition iscomplete {AU : AbinitUtils F} (self : Task I J) : F -> result bool :=
  abinit_output_iscomplete (File.path (output_file self)).

Definition read_mainlog_ewc {AU : AbinitUtils F} (self : Task I J) (nafter : nat)
    (s : F) : result (EWC * EWC) :=
  let? main := parse_ewc (File.path (output_file self)) nafter s in
  let? log := parse_ewc (File.path (log_file self)) nafter s in
  Ok (main, log).

(** Writes Abinit input files and directory.
    Do not overwrite files if they already exist. *)
Definition build (self : Task I J) : Py F unit :=
  let* _ := unless_exists (workdir self) (makedirs (workdir self)) in
  let* _ := unless_exists (outfiles_dir self) (makedirs (outfiles_dir self)) in
  let* _ := unless_exists (tmpfiles_dir self) (makedirs (tmpfiles_dir self)) in
  let* _ := unless_exists (File.path (input_file self))
              (File.write (input_file self) (Input.str (input self))) in
  let* _ := unless_exists (File.path (files_file self))
              (File.write (files_file self) (filesfile_string self)) in
  unless_exists (jobfile_path self)
    (write_file (jobfile_path self) (JobFile.str (jobfile self))).

(** The loop of [outfiles] and [tmpfiles]: the names that start with the
    basename of the prefix, joined to the directory. *)
Definition scan (directory prefix : string) (names : list string) : list string :=
  foldl (fun files file =>
           if posixpath.startswith file (posixpath.basename prefix)
           then files ++ [posixpath.join directory file]
           else files)
        [] names.

(** Return all the output data files produced. *)
Definition outfiles {DL : DirectoryListing F} (self : Task I J) (s : F)
    : result (list string) :=
  let? names := listdir (outfiles_dir self) s in
  Ok (scan (outfiles_dir self) (Prefix.odata prefix) names).

(** Return all the temporary data files produced. *)
Definition tmpfiles {DL : DirectoryListing F} (self : Task I J) (s : F)
    : result (list string) :=
  let? names := listdir (tmpfiles_dir self) s in
  Ok (scan (tmpfiles_dir self) (Prefix.tdata prefix) names).

(** The state of [run]: the task object and the world around it. *)
Definition in_world {A} (m : Py (World F) A) : Py (Task I J * World F) A :=
  fun '(self, w) =>
    match m w with
    | Returns a w' => Returns a (self, w')
    | Raises e w' => Raises e (self, w')
    end.

(** Reading [self._return_code] itself, not the property. *)
Definition getattr_return_code : Py (Task I J * World F) Z :=
  fun '(self, w) =>
    match _return_code self with
    | Some code => Returns code (self, w)
    | None => Raises (AttributeError "_return_code") (self, w)
    end.

Definition set_return_code (code : Z) : Py (Task I J * World F) unit :=
  fun '(self, w) =>
    Returns tt
      (mkTask (workdir self) (input self) (need_files self)
              (input_file self) (output_file self) (files_file self)
              (log_file self) (stderr_file self) (jobfile self)
              (Some code), w).

(** Run the calculation by executing the job file from the shell.
    With [verbose] the first statement reads [self.input_path], an
    attribute no task has. *)
Definition run {SP : Subprocess F} (hooks : Hooks I J F) (verbose : bool)
    : Py (Task I J * World F) Z :=
  let* self := gets fst in
  let* _ := when verbose (raise (AttributeError "input_path")) in
  let lock := path_in_workdir self (Basename.lockfile basename) in
  let* _ := in_world (FileLock.acquire lock) in
  let* _ := in_world (setup hooks self) in
  let* code := in_world (subprocess_call (JobFile.shell (jobfile self))
                                         (JobFile.path (jobfile self))
                                         (workdir self)) in
  let* _ := set_return_code code in
  let* code := getattr_return_code in
  let* self := gets fst in
  let* _ := when (code =? 0) (in_world (teardown hooks self)) in
  let* _ := in_world (FileLock.release lock) in
  getattr_return_code.

(** [run] as another thread sees it.  Between two calls to the outside
    (the lock, a hook, the job) [run] touches nothing but its own task, so
    these calls are where threads take turns: [run_step at_] is [run] from
    the point [at_] up to and including the next such call, and gives the
    point reached, or the value [run] returns. *)
Inductive Point : Type :=
| AtAcquire
| AtSetup
| AtCall
| AtTeardown
| AtRelease.

Definition run_step {SP : Subprocess F} (hooks : Hooks I J F) (verbose : bool)
    (at_ : Point) : Py (Task I J * World F) (Point + Z) :=
  let* self := gets fst in
  let lock := path_in_workdir self (Basename.lockfile basename) in
  match at_ with
  | AtAcquire =>
      let* _ := when verbose (raise (AttributeError "input_path")) in
      let* _ := in_world (FileLock.acquire lock) in
      ret (inl AtSetup)
  | AtSetup =>
      let* _ := in_world (setup hooks self) in
      ret (inl AtCall)
  | AtCall =>
      let* code := in_world (subprocess_call (JobFile.shell (jobfile self))
                                             (JobFile.path (jobfile self))
                                             (workdir self)) in
      let* _ := set_return_code code in
      let* code := getattr_return_code in
      ret (inl (if code =? 0 then AtTeardown else AtRelease))
  | AtTeardown =>
      let* _ := in_world (teardown hooks self) in
      ret (inl AtRelease)
  | AtRelease =>
      let* _ := in_world (FileLock.release lock) in
      let* code := getattr_return_code in
      ret (inr code)
  end.

(** The steps one after the other, with no other thread in between;
    [n] bounds their number. *)
Fixpoint run_from {SP : Subprocess F} (n : nat) (hooks : Hooks I J F)
    (verbose : bool) (at_ : Point) : Py (Task I J * World F) Z :=
  let* next := run_step hooks verbose at_ in
  match next, n with
  | inr code, _ => ret code
  | inl at_, S n => run_from n hooks verbose at_
  | inl _, O => raise (Exception_ "run_from")
  end.

(** The calls to the outside that [run] still has to make from a point. *)
Definition steps_left (at_ : Point) : nat :=
  match at_ with
  | AtAcquire => 5
  | AtSetup => 4
  | AtCall => 3
  | AtTeardown => 2
  | AtRelease => 1
  end.

End OnDisk.

(** The hooks of the class itself do nothing. *)
Definition default_hooks {F : Type} : Hooks I J F :=
  mkHooks (fun _ => ret tt) (fun _ => ret tt).

End Methods.

End AbinitTask.

(** ** Status *)
Module Status.

(** [Status.levels]: the keys of [_level2rank]. *)
Inductive Level : Type := completed | unstarted | running | error.

#[global] Instance Level_eq_dec : EqDecision Level.
Proof. solve_decision. Defined.

Definition level_name (l : Level) : string :=
  match l with
  | completed => "completed"
  | unstarted => "unstarted"
  | running => "running"
  | error => "error"
  end.

Definition S_OK : Z := 1.
Definition S_WAIT : Z := 2.
Definition S_RUN : Z := 4.
Definition S_ERR : Z := 8.

(** Rank associated to the different status (in order of increasing
    priority). *)
Definition _level2rank (l : Level) : Z :=
  match l with
  | completed => S_OK
  | unstarted => S_WAIT
  | running => S_RUN
  | error => S_ERR
  end.

Record t (I J : Type) : Type := mk {
  _task : AbinitTask.Task I J;
  _level_str : Level;
}.
Arguments mk {I J}.
Arguments _task {I J} self : rename.
Arguments _level_str {I J} self : rename.

Section Methods.
Context {I J : Type}.

Definition rank (self : t I J) : Z := _level2rank (_level_str self).

Definition is_completed (self : t I J) : bool :=
  bool_decide (_level_str self = completed).
Definition is_unstarted (self : t I J) : bool :=
  bool_decide (_level_str self = unstarted).
Definition is_running (self : t I J) : bool :=
  bool_decide (_level_str self = running).
Definition is_error (self : t I J) : bool :=
  bool_decide (_level_str self = error).

(** Rich comparison support. *)
Definition __lt__ (self other : t I J) : bool := rank self <? rank other.
Definition __le__ (self other : t I J) : bool := rank self <=? rank other.
Definition __eq__ (self other : t I J) : bool := rank self =? rank other.
Definition __ne__ (self other : t I J) : bool := negb (__eq__ self other).
Definition __gt__ (self other : t I J) : bool := rank self >? rank other.
Definition __ge__ (self other : t I J) : bool := rank self >=? rank other.

(** [_status2txtcolor]: the colour of each level. *)
Definition _status2txtcolor (l : Level) : string :=
  match l with
  | completed => "green"
  | error => "red"
  | running => "blue"
  | unstarted => "cyan"
  end.

(** [show(stream)]: the text written to the stream.  [has_colours] is
    [stream_has_colours(stream)] and [str_colorizer] the [StringColorizer]
    of the stream.  Without colours, [color] is [lambda stat : str], which
    returns the builtin [str] itself. *)
Definition show (has_colours : bool) (str_colorizer : string -> string -> string)
    (self : t I J) : result string :=
  let color (stat : Level) : PyVal :=
    if has_colours
    then VStr (str_colorizer (level_name stat) (_status2txtcolor stat))
    else VType "str" in
  let? line := py_add (VStr (AbinitTask.name (_task self))) (VStr ": ") in
  let? line := py_add line (color (_level_str self)) in
  let? line := py_add line (VStr (String "010" "")) in
  match line with
  | VStr text => Ok text
  | VType _ => Error (TypeError "expected a character buffer object")
  end.

Context {F : Type} {FS : FileSystem F} {AU : AbinitUtils F}.

Definition __init__ (task : AbinitTask.Task I J) (s : F) : result (t I J) :=
  let? complete := AbinitTask.iscomplete task s in
  if complete then
    (* The main output file seems completed. *)
    Ok (mk task completed)
  else if File.exists_ (AbinitTask.output_file task) s
          && File.exists_ (AbinitTask.log_file task) s then
    (* Inspect the main output and the log file for ERROR messages. *)
    let? main_log := AbinitTask.read_mainlog_ewc task 5 s in
    let level_str := running in
    let level_str :=
      if negb (bool_decide (errors (fst main_log) = []))
         || negb (bool_decide (errors (snd main_log) = []))
      then error else level_str in
    let? lines := read_lines (File.path (AbinitTask.stderr_file task)) s in
    let level_str :=
      if negb (bool_decide (lines = [])) then error else level_str in
    Ok (mk task level_str)
  else
    Ok (mk task unstarted).

End Methods.

End Status.

(** ** TaskDependencies *)
Module TaskDependencies.

Definition _ext2getvars : gmap string string :=
  list_to_map
    [ ("DEN", "getden_path");
      ("WFK", "getwfk_path");
      ("SCR", "getscr_path");
      ("QPS", "getqps_path") ].

Record t (I J : Type) : Type := mk {
  task : AbinitTask.Task I J;
  task_id : nat;
  odata_required : list string;
}.
Arguments mk {I J}.
Arguments task {I J} self : rename.
Arguments task_id {I J} self : rename.
Arguments odata_required {I J} self : rename.

Section Methods.
Context {I J : Type}.

Definition __init__ (task : AbinitTask.Task I J) (task_id : nat)
    (odata_required : list string) : t I J :=
  mk task task_id odata_required.

Definition with_odata (self : t I J) (odata_required : list string) : t I J :=
  __init__ (task self) (task_id self) odata_required.

(** The loop of [get_varpaths]: [_ext2getvars[ext]] raises [KeyError]
    on a tag the table lacks. *)
Fixpoint get_varpaths_loop (producer : AbinitTask.Task I J)
    (exts : list string) (vars : gmap string string)
    : result (gmap string string) :=
  match exts with
  | [] => Ok vars
  | ext :: exts =>
      match _ext2getvars !! ext with
      | None => Error (KeyError ext)
      | Some varname =>
          let? path := AbinitTask.odata_path_from_ext producer ext in
          get_varpaths_loop producer exts (<[varname := path]> vars)
      end
  end.

Definition get_varpaths (self : t I J) : result (gmap string string) :=
  get_varpaths_loop (task self) (odata_required self) ∅.

End Methods.

End TaskDependencies.


(** ** Work *)
Module Work.

(** The [depends] argument of [register_input]: a sequence of dependency
    descriptors (the default is the empty tuple) or a single descriptor. *)
Inductive Depends (I J : Type) : Type :=
| Sequence (deps : list (TaskDependencies.t I J))
| Single (dep : TaskDependencies.t I J).
Arguments Sequence {I J} deps.
Arguments Single {I J} dep.

(** A work is a list of (possibly connected) tasks.  [_deps] is keyed by the
    task identifiers [1, 2, ...] in the order they were handed out. *)
Record Work (I J : Type) : Type := mkWork {
  workdir : string;
  user_options : option (gmap string string);
  _tasks : list (AbinitTask.Task I J);
  _deps : gmap nat (list (TaskDependencies.t I J));
}.
Arguments mkWork {I J}.
Arguments workdir {I J} self : rename.
Arguments user_options {I J} self : rename.
Arguments _tasks {I J} self : rename.
Arguments _deps {I J} self : rename.

(** A worker thread of the threaded [run]: in [q.get()], inside
    the call of [func] (the [run] of the task with index [k], at a
    point), before [q.task_done()], or gone because the call raised. *)
Inductive Worker : Type :=
| Getting
| Calling (k : nat) (at_ : AbinitTask.Point)
| Finishing
| Dead.

(** The queue of the threaded [run]: the runs that wait, first in first
    out (each task by its index in the work), the count of the runs that
    were put and are not yet reported done, and the workers. *)
Record Pool : Type := mkPool {
  queue : list nat;
  unfinished_tasks : nat;
  workers : list Worker;
}.

(** What a subclass may override around [run]. *)
Record Hooks (I J F : Type) : Type := mkHooks {
  setup : Work I J -> Py (World F) unit;
  teardown : Work I J -> Py (World F) unit;
}.
Arguments mkHooks {I J F}.
Arguments setup {I J F} hooks self : rename.
Arguments teardown {I J F} hooks self : rename.

Section Methods.
Context {I J : Type} {InputI : Input.API I} {JobFileJ : JobFile.API J}.

Definition __init__ (cwd : string) (workdir : string)
    (user_options : option (gmap string string)) : Work I J :=
  mkWork (posixpath.abspath cwd workdir) user_options [] ∅.

Definition __len__ (self : Work I J) : nat := length (_tasks self).

(** Both stop at [raise NotImplementedError("")]. *)
Definition to_dict (self : Work I J) : result (gmap string string) :=
  Error (Namespace.raise_named "NotImplementedError" "").

Definition from_dict (d : gmap string string) : result (Work I J) :=
  Error (Namespace.raise_named "NotImplementedError" "").

Definition path_in_workdir (self : Work I J) (filename : string) : string :=
  posixpath.join (workdir self) filename.

(** [if depends:] a non-empty sequence, or any single descriptor. *)
Definition truthy (depends : Depends I J) : bool :=
  match depends with
  | Sequence [] => false
  | Sequence (_ :: _) => true
  | Single _ => true
  end.

(** [if not isinstance(depends, collections.Iterable): depends = [depends]] *)
Definition as_sequence (depends : Depends I J) : list (TaskDependencies.t I J) :=
  match depends with
  | Sequence deps => deps
  | Single dep => [dep]
  end.

(** [for dep in depends: varpaths.update(dep.get_varpaths())]: on a name
    bound twice the later descriptor wins. *)
Fixpoint update_varpaths (depends : list (TaskDependencies.t I J))
    (varpaths : gmap string string) : result (gmap string string) :=
  match depends with
  | [] => Ok varpaths
  | dep :: depends =>
      let? vars := TaskDependencies.get_varpaths dep in
      update_varpaths depends (vars ∪ varpaths)
  end.

Definition register_input (cwd : string) (input : I) (depends : Depends I J)
    : Py (Work I J) (TaskDependencies.t I J) :=
  let* self := get in
  let task_workdir :=
    posixpath.join (workdir self) ("task_" +:+ pretty (__len__ self + 1)%nat) in
  (* Handle possible dependencies. *)
  let* varpaths :=
    if truthy depends
    then let* varpaths := observe (fun _ => update_varpaths (as_sequence depends) ∅) in
         ret (Some varpaths)
    else ret None in
  let depends := as_sequence depends in
  let new_task := AbinitTask.__init__ cwd input task_workdir varpaths in
  let tasks := _tasks self ++ [new_task] in
  let newtask_id := length tasks in
  let* _ := put (mkWork (workdir self) (user_options self) tasks
                        (<[newtask_id := depends]> (_deps self))) in
  ret (TaskDependencies.__init__ new_task newtask_id []).

Section OnDisk.
Context {F : Type} {FS : FileSystem F}.

Definition build (self : Work I J) : Py F unit :=
  (* Create top level directory. *)
  let* _ := unless_exists (workdir self) (makedirs (workdir self)) in
  (* Create task workdirs and files. *)
  fold_right (fun task rest => let* _ := AbinitTask.build task in rest)
             (ret tt) (_tasks self).

(** [[task.get_status() for task in self]], where [task.get_status()] is
    [Status(task)]. *)
Fixpoint status_list {AU : AbinitUtils F} (tasks : list (AbinitTask.Task I J)) (s : F)
    : result (list (Status.t I J)) :=
  match tasks with
  | [] => Ok []
  | task :: tasks =>
      let? status := Status.__init__ task s in
      let? statuses := status_list tasks s in
      Ok (status :: statuses)
  end.

(** Get the status of the tasks in self: the whole list, or its [max]. *)
Definition get_status {AU : AbinitUtils F} (self : Work I J) (only_highest_rank : bool)
    (s : F) : result (Status.t I J + list (Status.t I J)) :=
  let? status_list := status_list (_tasks self) s in
  if only_highest_rank
  then let? highest := py_max Status.__gt__ status_list in Ok (inl highest)
  else Ok (inr status_list).

(** The loop of [get_etotal]; the [try] block catches every exception of
    the reader and appends [np.inf] in its place. *)
Fixpoint get_etotal_loop {V} {NC : NetCDF F V} (tasks : list (AbinitTask.Task I J))
    (etotal : list V) (s : F) : result (list V) :=
  match tasks with
  | [] => Ok etotal
  | task :: tasks =>
      let? gsr_path := AbinitTask.odata_path_from_ext task "GSR" in
      let etotal :=
        match GSR_get_value gsr_path "etotal" s with
        | Ok value => etotal ++ [value]
        | Error _ => etotal ++ [np_inf]
        end in
      get_etotal_loop tasks etotal s
  end.

(** Reads the total energy from the GSR file produced by each task. *)
Definition get_etotal {V} {NC : NetCDF F V} (self : Work I J) (s : F) : result (list V) :=
  get_etotal_loop (_tasks self) [] s.

(** The state of [run] and [start]: the work with its task objects, and the
    world around them. *)
Definition in_world {A} (m : Py (World F) A) : Py (Work I J * World F) A :=
  fun '(self, w) =>
    match m w with
    | Returns a w' => Returns a (self, w')
    | Raises e w' => Raises e (self, w')
    end.

Definition set_tasks (self : Work I J) (tasks : list (AbinitTask.Task I J)) : Work I J :=
  mkWork (workdir self) (user_options self) tasks (_deps self).

(** [for task in self: task.run(...)]: the tasks before the current one have
    run, and what [run] did to the current one stays in the list whether it
    returned or raised. *)
Fixpoint run_loop {SP : Subprocess F} (task_hooks : AbinitTask.Hooks I J F)
    (verbose : bool) (before rest : list (AbinitTask.Task I J))
    : Py (Work I J * World F) unit :=
  match rest with
  | [] => ret tt
  | task :: rest =>
      fun '(self, w) =>
        match AbinitTask.run task_hooks verbose (task, w) with
        | Returns _ (task, w) =>
            run_loop task_hooks verbose (before ++ [task]) rest
                     (set_tasks self (before ++ task :: rest), w)
        | Raises e (task, w) =>
            Raises e (set_tasks self (before ++ task :: rest), w)
        end
  end.

(** The threaded version.  A worker can move unless it is gone, or waits
    in [q.get()] on an empty queue. *)
Definition can_move (pool : Pool) (worker : Worker) : bool :=
  match worker with
  | Getting => bool_decide (queue pool <> [])
  | Calling _ _ | Finishing => true
  | Dead => false
  end.

Fixpoint movable_from (pool : Pool) (i : nat) (workers : list Worker) : list nat :=
  match workers with
  | [] => []
  | worker :: workers =>
      (if can_move pool worker then [i] else []) ++ movable_from pool (S i) workers
  end.

(** The workers that can move, by their number. *)
Definition movable (pool : Pool) : list nat := movable_from pool 0 (workers pool).

Definition set_worker (pool : Pool) (i : nat) (worker : Worker) : Pool :=
  mkPool (queue pool) (unfinished_tasks pool) (<[i := worker]> (workers pool)).

(** One move of worker [i], the body of
    [while True: func, args, kwargs = q.get(); func(..); q.task_done()]:
    it takes the first run off the queue; or takes the run it is in to the
    next point, on the task object the work holds too; or reports its run
    done.  A run that raises ends the thread, and is never reported done.
    (A run on the queue is always the run of a task of the work, and a
    worker reports a run done once, so the count stays above zero until
    then.) *)
Definition move {SP : Subprocess F} (task_hooks : AbinitTask.Hooks I J F)
    (verbose : bool) (i : nat) (pool : Pool) (s : Work I J * World F)
    : Pool * (Work I J * World F) :=
  let '(self, w) := s in
  match workers pool !! i with
  | Some Getting =>
      match queue pool with
      | k :: rest =>
          (mkPool rest (unfinished_tasks pool)
                  (<[i := Calling k AbinitTask.AtAcquire]> (workers pool)), s)
      | [] => (pool, s)
      end
  | Some (Calling k at_) =>
      match _tasks self !! k with
      | Some task =>
          match AbinitTask.run_step task_hooks verbose at_ (task, w) with
          | Returns next (task, w) =>
              (set_worker pool i match next with
                                 | inl at_ => Calling k at_
                                 | inr _ => Finishing
                                 end,
               (set_tasks self (<[k := task]> (_tasks self)), w))
          | Raises _ (task, w) =>
              (set_worker pool i Dead,
               (set_tasks self (<[k := task]> (_tasks self)), w))
          end
      | None => (set_worker pool i Dead, s)
      end
  | Some Finishing =>
      (mkPool (queue pool) (pred (unfinished_tasks pool))
              (<[i := Getting]> (workers pool)), s)
  | Some Dead | None => (pool, s)
  end.

(** [q.join()]: the caller goes on once every run that was put is
    reported done, while the workers move as the scheduler picks them.
    When runs are left and no worker can move, the caller waits for ever.
    [fuel] bounds the moves; [None] is a bound that was too low. *)
Fixpoint join {SP : Subprocess F} {TH : Scheduler}
    (task_hooks : AbinitTask.Hooks I J F) (verbose : bool)
    (fuel : nat) (moves : nat) (pool : Pool) (s : Work I J * World F)
    : option (completion (Work I J * World F) unit) :=
  if (unfinished_tasks pool =? 0)%nat then Some (Completes (Returns tt s))
  else match movable pool with
       | [] => Some (Waits s)
       | (first :: _) as ready =>
           match fuel with
           | O => None
           | S fuel =>
               let i := nth (schedule moves mod length ready) ready first in
               let '(pool, s) := move task_hooks verbose i pool s in
               join task_hooks verbose fuel (S moves) pool s
           end
       end.

(** The moves the workers can still make: what is left of the runs they
    are in, and a [q.get()], a whole run and a [q.task_done()] for each run
    on the queue. *)
Definition moves_left (worker : Worker) : nat :=
  match worker with
  | Getting | Dead => 0
  | Calling _ at_ => AbinitTask.steps_left at_ + 1
  | Finishing => 1
  end.

Definition budget (pool : Pool) : nat :=
  7 * length (queue pool) + list_sum (moves_left <$> workers pool).

(** [run]: with [num_pythreads == 1], the default, the tasks one after the
    other, in the order of registration; otherwise [num_pythreads] worker
    threads are started (none for a number below 1), the run of every task
    is put on the queue, and the caller joins the queue.  The pool starts
    with every run on the queue: a worker that moves before the last
    [q.put] takes the same run off the queue as one that moves after it.
    The bound [budget] is never reached ([join_budget] below), so [join]
    always gives an answer. *)
Definition run {SP : Subprocess F} {TH : Scheduler}
    (task_hooks : AbinitTask.Hooks I J F) (num_pythreads : option KwVal)
    (verbose : bool) : Waiting (Work I J * World F) unit :=
  let+ num_pythreads :=
    lift (observe (fun _ => int (default (KInt 1) num_pythreads))) in
  let+ self := lift (gets fst) in
  if num_pythreads =? 1 then
    lift (run_loop task_hooks verbose [] (_tasks self))
  else
    (* Threaded version. *)
    let pool := mkPool (seq 0 (length (_tasks self))) (length (_tasks self))
                       (replicate (Z.to_nat num_pythreads) Getting) in
    fun s => default (Waits s) (join task_hooks verbose (budget pool) 0 pool s).

(** Start the work. Call setup first, then the tasks are executed.
    Finally, the teardown method is called. *)
Definition start {SP : Subprocess F} {TH : Scheduler} (hooks : Hooks I J F)
    (task_hooks : AbinitTask.Hooks I J F) (num_pythreads : option KwVal)
    (verbose : bool) : Waiting (Work I J * World F) unit :=
  let+ self := lift (gets fst) in
  let lock := path_in_workdir self "__lock__" in
  let+ _ := lift (in_world (FileLock.acquire lock)) in
  let+ _ := lift (in_world (setup hooks self)) in
  let+ _ := run task_hooks num_pythreads verbose in
  let+ self := lift (gets fst) in
  let+ _ := lift (in_world (teardown hooks self)) in
  lift (in_world (FileLock.release lock)).

End OnDisk.

Definition default_hooks {F : Type} : Hooks I J F :=
  mkHooks (fun _ => ret tt) (fun _ => ret tt).

End Methods.

End Work.


(** ** The works of the module

    The constructors of the subclasses of [Work] register the inputs that
    the builders of [abinit_input] give them; the inputs are parameters
    here. *)

(** [BandStructure]: a ground state, a band structure along a path that
    reads the density of the ground state and, when [dos_ngkpt] is given, a
    density of states that reads it too. *)
Module BandStructure.
Section Methods.
Context {I J : Type} {InputI : Input.API I} {JobFileJ : JobFile.API J}.

Definition __init__ (cwd workdir : string) (scf_input nscf_input : I)
    (dos_input : option I) : outcome (Work.Work I J) unit :=
  let user_options : gmap string string := ∅ in
  (let* scf_dep := Work.register_input cwd scf_input (Work.Sequence []) in
   let* _ := Work.register_input cwd nscf_input
               (Work.Single (TaskDependencies.with_odata scf_dep ["DEN"])) in
   (* Add DOS computation *)
   match dos_input with
   | Some dos_input =>
       let* _ := Work.register_input cwd dos_input
                   (Work.Single (TaskDependencies.with_odata scf_dep ["DEN"])) in
       ret tt
   | None => ret tt
   end)
    (Work.__init__ cwd workdir (Some user_options)).

End Methods.
End BandStructure.

(** [G0W0]: ground state, bands, screening and self-energy, each reading
    what the ones before it wrote. *)
Module G0W0.
Section Methods.
Context {I J : Type} {InputI : Input.API I} {JobFileJ : JobFile.API J}.

Definition __init__ (cwd workdir : string)
    (scf_input nscf_input screen_input sigma_input : I)
    : outcome (Work.Work I J) unit :=
  let user_options : gmap string string := ∅ in
  (let* scf_dep := Work.register_input cwd scf_input (Work.Sequence []) in
   let* nscf_dep := Work.register_input cwd nscf_input
                      (Work.Single (TaskDependencies.with_odata scf_dep ["DEN"])) in
   let* screen_dep := Work.register_input cwd screen_input
                        (Work.Single (TaskDependencies.with_odata nscf_dep ["WFK"])) in
   let depends := [ TaskDependencies.with_odata nscf_dep ["WFK"];
                    TaskDependencies.with_odata screen_dep ["SCR"] ] in
   let* _ := Work.register_input cwd sigma_input (Work.Sequence depends) in
   ret tt)
    (Work.__init__ cwd workdir (Some user_options)).

End Methods.
End G0W0.

(** [Relaxation]: after the constructor of [Work], the first statement
    calls [Relax], a name the module binds nowhere. *)
Module Relaxation.
Section Methods.
Context {I J : Type}.

(** Evaluating a name of the module: a global, then a builtin. *)
Definition lookup (name : string) : result unit :=
  if decide (name ∈ Namespace.module_globals) then Ok tt
  else match Namespace.builtins name with
       | Some _ => Ok tt
       | None => Error (NameError name)
       end.

Definition __init__ (cwd workdir : string) : outcome (Work.Work I J) unit :=
  let user_options : gmap string string := ∅ in
  (let* _ := observe (fun _ => lookup "Relax") in
   ret tt)
    (Work.__init__ cwd workdir (Some user_options)).

End Methods.
End Relaxation.


(** ** Test doubles

    Small stand-ins for the collaborators, on which the model runs. *)
Module Demo.

(** A store without hierarchy: what each path names. *)
#[global] Instance store : FileSystem (gmap string node) := {|
  stat path s := s !! path;
  makedirs path s :=
    match s !! path with
    | Some _ => Raises (OSError "File exists") s
    | None => Returns tt (<[path := Directory]> s)
    end;
  write_file path text s :=
    match s !! path with
    | Some Directory => Raises (IOError "Is a directory") s
    | _ => Returns tt (<[path := Regular text]> s)
    end;
  read_lines path s :=
    match s !! path with
    | Some (Regular "") => Ok []
    | Some (Regular text) => Ok [text]
    | Some Directory => Error (IOError "Is a directory")
    | None => Error (IOError "No such file or directory")
    end;
|}.

(** An output file is complete when it is the completion message; a file
    reports an error when it starts with ERROR. *)
#[global] Instance abinit_utils : AbinitUtils (gmap string node) := {|
  abinit_output_iscomplete path s :=
    Ok (bool_decide (s !! path = Some (Regular "Calculation completed.")));
  parse_ewc path nafter s :=
    match s !! path with
    | Some (Regular text) =>
        Ok (mkEWC (if String.prefix "ERROR" text then [text] else []) [] [])
    | _ => Error (IOError "No such file or directory")
    end;
|}.

(** Energies: an integer number of Hartree, or infinity. *)
Inductive energy : Type := finite (hartree : Z) | infinity.

(** A GSR file holds its energy as the length of its text; an empty or
    missing file does not parse. *)
#[global] Instance netcdf : NetCDF (gmap string node) energy := {|
  GSR_get_value path name s :=
    match s !! path with
    | Some (Regular "") => Error (ValueError "corrupt file")
    | Some (Regular text) => Ok (finite (Z.of_nat (String.length text)))
    | _ => Error (IOError "No such file or directory")
    end;
  np_inf := infinity;
|}.

(** An input is its text and the variables of its control section. *)
Record input : Type := mkInput {
  text : string;
  control : gmap string string;
}.

#[global] Instance input_api : Input.API input := {|
  Input.copy i := i;
  Input.add_vars_to_control i vars := mkInput (text i) (vars ∪ control i);
  Input.str i := text i;
  Input.pseudos i := ["/psp/14si.pspnc"];
|}.

Record jobfile : Type := mkJobfile {
  jf_name : string;
  jf_input : string;
  jf_log : string;
  jf_stderr : string;
}.

#[global] Instance jobfile_api : JobFile.API jobfile := {|
  JobFile.new := mkJobfile;
  JobFile.shell _ := "/bin/bash";
  JobFile.path j := jf_name j;
  JobFile.str j :=
    "abinit < " +:+ jf_input j +:+ " > " +:+ jf_log j +:+ " 2> " +:+ jf_stderr j;
|}.

(** A child that exits with [code] and leaves the world alone. *)
Definition exits (code : Z) : Subprocess (gmap string node) :=
  {| subprocess_call shell script cwd := ret code |}.

(** A child that cannot be launched. *)
(** A scheduler that lets the threads that can move take turns. *)
#[global] Instance in_turn : Scheduler := {| schedule n := n |}.

Definition no_such_shell : Subprocess (gmap string node) :=
  {| subprocess_call shell script cwd := raise (OSError "No such file or directory") |}.

(** A task class whose [setup] raises. *)
Definition failing_setup : AbinitTask.Hooks input jobfile (gmap string node) :=
  AbinitTask.mkHooks (fun _ => raise (Exception_ "setup failed")) (fun _ => ret tt).

(** A task class whose [teardown] raises. *)
Definition failing_teardown : AbinitTask.Hooks input jobfile (gmap string node) :=
  AbinitTask.mkHooks (fun _ => ret tt) (fun _ => raise (Exception_ "teardown failed")).

Definition silicon : input := mkInput "ecut 10" ∅.

(** The task of [/w], and a world in which nothing exists and no lock is
    held. *)
Definition task : AbinitTask.Task input jobfile :=
  AbinitTask.__init__ "/home/user" silicon "/w" None.

Definition nothing : World (gmap string node) := mkWorld ∅ ∅.

(** A task directory whose output file is complete although the log holds
    an error and the stderr file is not empty. *)
Definition finished : gmap string node :=
  list_to_map
    [ ("/w/run.output", Regular "Calculation completed.");
      ("/w/log", Regular "ERROR: scf cycle");
      ("/w/stderr", Regular "Segmentation fault") ].

(** A task directory that was built by hand with another input. *)
Definition prepared : gmap string node :=
  list_to_map
    [ ("/w", Directory);
      ("/w/run.input", Regular "ecut 99") ].

(** Registering inputs one after the other. *)
Definition empty_work : Work.Work input jobfile := Work.__init__ "/home/user" "/w" None.

Definition register (depends : Work.Depends input jobfile)
    (work : Work.Work input jobfile) : Work.Work input jobfile :=
  final_state (Work.register_input "/home/user" silicon depends work).

(** A work of four tasks without dependencies, and a store in which the
    first is completed, the second unstarted, the third running and the
    fourth in error. *)
Definition batch : Work.Work input jobfile :=
  register (Work.Sequence []) (register (Work.Sequence [])
    (register (Work.Sequence []) (register (Work.Sequence []) empty_work))).

Definition mixed : gmap string node :=
  list_to_map
    [ ("/w/task_1/run.output", Regular "Calculation completed.");
      ("/w/task_3/run.output", Regular "iteration 3");
      ("/w/task_3/log", Regular "iteration 3");
      ("/w/task_3/stderr", Regular "");
      ("/w/task_4/run.output", Regular "iteration 1");
      ("/w/task_4/log", Regular "ERROR: scf cycle");
      ("/w/task_4/stderr", Regular "") ].

(** The GSR files of the batch: the second is corrupt, the fourth is
    missing. *)
Definition energies : gmap string node :=
  list_to_map
    [ ("/w/task_1/output/out_GSR", Regular "12345");
      ("/w/task_2/output/out_GSR", Regular "");
      ("/w/task_3/output/out_GSR", Regular "1234567") ].

(** The descriptor of the first task of the batch, as its registration
    returned it. *)
Definition scf_dep : TaskDependencies.t input jobfile :=
  match Work.register_input "/home/user" silicon (Work.Sequence []) empty_work with
  | Returns dep _ => dep
  | Raises _ _ => TaskDependencies.mk task 0 []
  end.

End Demo.

(** ** Vocabulary of the properties *)


(** A computation under which a lock that is held stays held. *)
Definition keeps_lock {F A} (lock : string) (m : Py (World F) A) : Prop :=
  forall w, lock ∈ held w -> lock ∈ held (final_state (m w)).

Section Vocabulary.
Context {F : Type} {FS : FileSystem F}.

(** Everything that [s] holds, [s'] holds unchanged. *)
Definition preserved (s s' : F) : Prop :=
  forall path n, stat path s = Some n -> stat path s' = Some n.

(** A computation that only adds to the store and that has nothing left
    to do where it has been: run again after it returned, in any store
    that kept what it left, it returns at once; run again where it raised,
    it raises again without a change. *)
Record settling (m : Py F unit) : Prop := {
  settling_preserves : forall s, preserved s (final_state (m s));
  settling_returns : forall s u s1 s2,
    m s = Returns u s1 -> preserved s1 s2 -> m s2 = Returns tt s2;
  settling_raises : forall s e s1, m s = Raises e s1 -> m s1 = Raises e s1;
}.

End Vocabulary.

Section EtotalEntry.
Context {I J F V : Type} {NC : NetCDF F V}.

(** The entry of one task in the array of [get_etotal]: the energy read
    from its GSR file, or infinity. *)
Definition etotal_entry (task : AbinitTask.Task I J) (s : F) : V :=
  match GSR_get_value (posixpath.join (AbinitTask.workdir task) "output/out_GSR")
                      "etotal" s with
  | Ok value => value
  | Error _ => np_inf
  end.

End EtotalEntry.


(** A path component: no separator inside, and none of the names that
    [normpath] drops or resolves. *)
Fixpoint has_slash (p : string) : bool :=
  match p with
  | EmptyString => false
  | String c rest => Ascii.eqb c "/" || has_slash rest
  end.

Definition component (c : string) : Prop :=
  has_slash c = false /\ c <> "" /\ c <> "." /\ c <> "..".


(** What [join] puts in front of a relative name depends on the
    directory alone. *)
Definition join_stem (a : string) : string :=
  if bool_decide (a = "") || posixpath.endswith_slash a then a else a +:+ "/".

(** The extension as [odata_path_from_ext] uses it. *)
Definition with_underscore (ext : string) : string :=
  match ext with
  | String "_" _ => ext
  | _ => "_" +:+ ext
  end.

Section MoreVocabulary.
Context {F : Type} {FS : FileSystem F}.

(** A computation that returns only with [path] in the store. *)
Definition ensures (path : string) (m : Py F unit) : Prop :=
  forall s u s', m s = Returns u s' -> is_Some (stat path s').

End MoreVocabulary.

(** Two task objects that differ at most in the return code. *)
Definition same_task {I J} (task task' : AbinitTask.Task I J) : Prop :=
  exists code,
    task' = AbinitTask.mkTask (AbinitTask.workdir task) (AbinitTask.input task)
              (AbinitTask.need_files task) (AbinitTask.input_file task)
              (AbinitTask.output_file task) (AbinitTask.files_file task)
              (AbinitTask.log_file task) (AbinitTask.stderr_file task)
              (AbinitTask.jobfile task) code.


(** The data file with the given tag among the outputs of a task. *)
Definition out_data {I J} (task : AbinitTask.Task I J) (tag : string) : string :=
  posixpath.join (AbinitTask.workdir task) ("output/out_" +:+ tag).

(** Whether a worker holds a run that is not yet reported done. *)
Definition busy (worker : Work.Worker) : nat :=
  match worker with
  | Work.Getting => 0
  | _ => 1
  end.

(** The pool of the threaded [run] before the first move. *)
Definition starting_pool {I J} (n : Z) (work : Work.Work I J) : Work.Pool :=
  Work.mkPool (seq 0 (length (Work._tasks work))) (length (Work._tasks work))
              (replicate (Z.to_nat n) Work.Getting).

(** Unless a worker is gone, every task is on the queue, or in the hands
    of a worker, or has its return code. *)
Definition accounted {I J} (pool : Work.Pool) (work : Work.Work I J) : Prop :=
  forall (k : nat) task,
    Work._tasks work !! k = Some task ->
    k ∈ Work.queue pool \/
    (exists at_, Work.Calling k at_ ∈ Work.workers pool) \/
    Work.Dead ∈ Work.workers pool \/
    is_Some (AbinitTask._return_code task).

(** Whether a call waits for ever. *)
Definition waits {S A} (c : completion S A) : bool :=
  match c with
  | Waits _ => true
  | Completes _ => false
  end.

(** Whether a computation returned. *)
Definition returned {S A} (o : outcome S A) : bool :=
  match o with
  | Returns _ _ => true
  | Raises _ _ => false
  end.

(** ** More test doubles *)
Module Fixtures.

(** [s[len(prefix):]] when [s] starts with [prefix]. *)
Fixpoint strip_prefix (prefix s : string) : option string :=
  match prefix, s with
  | EmptyString, _ => Some s
  | String c prefix, String d s => if Ascii.eqb c d then strip_prefix prefix s else None
  | String _ _, EmptyString => None
  end.

(** The entries of the store directly under a directory. *)
#[global] Instance listing : DirectoryListing (gmap string node) := {|
  listdir directory s :=
    match s !! directory with
    | Some Directory =>
        Ok (omap (fun entry =>
                    match strip_prefix (directory +:+ "/") (fst entry) with
                    | Some name => if has_slash name then None else Some name
                    | None => None
                    end)
                 (map_to_list s))
    | Some (Regular _) => Error (OSError "Not a directory")
    | None => Error (OSError "No such file or directory")
    end;
|}.

(** The directory of a task after a run that wrote a density and a
    wavefunction file. *)
Definition ran : gmap string node :=
  list_to_map
    [ ("/w", Directory);
      ("/w/output", Directory);
      ("/w/output/out_DEN", Regular "density");
      ("/w/output/out_WFK", Regular "wavefunctions");
      ("/w/output/notes.txt", Regular "by hand");
      ("/w/run.output", Regular "iteration 1") ].


(** The descriptor of the second task of the batch. *)
Definition nscf_dep : TaskDependencies.t Demo.input Demo.jobfile :=
  match Work.register_input "/home/user" Demo.silicon (Work.Sequence [])
          (Demo.register (Work.Sequence []) Demo.empty_work) with
  | Returns dep _ => dep
  | Raises _ _ => Demo.scf_dep
  end.

(** A work with a single task. *)
Definition single : Work.Work Demo.input Demo.jobfile :=
  Demo.register (Work.Sequence []) Demo.empty_work.

Definition first_task : AbinitTask.Task Demo.input Demo.jobfile :=
  AbinitTask.__init__ "/home/user" Demo.silicon "/w/task_1" None.

End Fixtures.


(** * Properties *)

(** ** The model at work on small inputs *)

Example join_relative : posixpath.join "/w" "run.input" = "/w/run.input".
Proof. reflexivity. Qed.

Example join_trailing_slash : posixpath.join "/w/" "run.input" = "/w/run.input".
Proof. reflexivity. Qed.

Example join_absolute : posixpath.join "/w" "/etc" = "/etc".
Proof. reflexivity. Qed.

Example split_prefix : posixpath.split "output/out" = ("output", "out").
Proof. reflexivity. Qed.

Example split_root : posixpath.split "/out" = ("/", "out").
Proof. reflexivity. Qed.

Example split_double_slash : posixpath.split "a//b" = ("a", "b").
Proof. reflexivity. Qed.

Example abspath_relative :
  posixpath.abspath "/home/u" "Test_bands/./x/../y/" = "/home/u/Test_bands/y".
Proof. reflexivity. Qed.

Example abspath_two_slashes : posixpath.abspath "/home" "//a/b" = "//a/b".
Proof. reflexivity. Qed.

Example abspath_three_slashes : posixpath.abspath "/home" "///a//b" = "/a/b".
Proof. reflexivity. Qed.

Example abspath_above_root : posixpath.abspath "/home" "/../a" = "/a".
Proof. reflexivity. Qed.

Example normpath_leading_dotdot : posixpath.normpath "../a/../../b" = "../../b".
Proof. reflexivity. Qed.

Example prefix_odata : AbinitTask.Prefix.odata AbinitTask.prefix = "output/out".
Proof. reflexivity. Qed.

Example prefix_tdata : AbinitTask.Prefix.tdata AbinitTask.prefix = "temporary/tmp".
Proof. reflexivity. Qed.

Example demo_dirs :
  (AbinitTask.outfiles_dir Demo.task, AbinitTask.tmpfiles_dir Demo.task, AbinitTask.jobfile_path Demo.task)
  = ("/w/output", "/w/temporary", "/w/job.sh").
Proof. reflexivity. Qed.

Example demo_gsr : AbinitTask.odata_path_from_ext Demo.task "GSR" = Ok "/w/output/out_GSR".
Proof. reflexivity. Qed.

Example demo_empty_ext : AbinitTask.odata_path_from_ext Demo.task "" = Error IndexError.
Proof. reflexivity. Qed.

Example demo_unknown_tag :
  TaskDependencies.get_varpaths (TaskDependencies.with_odata Demo.scf_dep ["DDB"])
  = Error (KeyError "DDB").
Proof. reflexivity. Qed.

Example demo_runhints :
  AbinitTask.get_runhints Demo.task 4 = Error (NotImplementedError "").
Proof. reflexivity. Qed.

Example demo_statuses :
  match Work.get_status Demo.batch false Demo.mixed with
  | Ok (inr statuses) => map Status._level_str statuses
  | _ => []
  end
  = [Status.completed; Status.unstarted; Status.running; Status.error].
Proof. by vm_compute. Qed.

Example demo_locked :
  AbinitTask.run (SP:=Demo.exits 0) AbinitTask.default_hooks false
                 (Demo.task, mkWorld ∅ {["/w/__lock__"]})
  = Raises (FileLockException "/w/__lock__") (Demo.task, mkWorld ∅ {["/w/__lock__"]}).
Proof. by vm_compute. Qed.

Example demo_verbose :
  AbinitTask.run (SP:=Demo.exits 0) AbinitTask.default_hooks true (Demo.task, Demo.nothing)
  = Raises (AttributeError "input_path") (Demo.task, Demo.nothing).
Proof. reflexivity. Qed.

Example max_first_of_equals :
  py_max Z.gtb [1; 3; 2; 3]%Z = Ok 3%Z /\ py_max Z.gtb [] = Error (ValueError "max() arg is an empty sequence").
Proof. done. Qed.

(** ** Strings and paths *)

Lemma append_cons (c : ascii) (a b : string) : String c a +:+ b = String c (a +:+ b).
Proof. reflexivity. Qed.

Lemma append_assoc (a b c : string) : a +:+ b +:+ c = (a +:+ b) +:+ c.
Proof. induction a as [|x a IH]; [done|]. by rewrite !append_cons, IH. Qed.

Lemma length_append (a b : string) :
  String.length (a +:+ b) = (String.length a + String.length b)%nat.
Proof. induction a as [|x a IH]; [done|]. rewrite append_cons. simpl. by rewrite IH. Qed.

(** Two strings that end with suffixes of one length end with the same
    suffix. *)
Lemma append_suffix_inj (x y u v : string) :
  String.length u = String.length v -> x +:+ u = y +:+ v -> u = v.
Proof.
  revert y. induction x as [|c x IH]; intros [|d y] Hlen Heq.
  - done.
  - apply (f_equal String.length) in Heq.
    rewrite !length_append in Heq. simpl in Heq. lia.
  - apply (f_equal String.length) in Heq.
    rewrite !length_append in Heq. simpl in Heq. lia.
  - rewrite !append_cons in Heq. injection Heq as _ Heq. by apply (IH y).
Qed.

(** A relative name is the end of whatever it is joined to. *)
Lemma join_relative_suffix (a b : string) :
  posixpath.startswith_slash b = false ->
  exists stem, posixpath.join a b = stem +:+ b.
Proof.
  intros Hb. unfold posixpath.join. rewrite Hb.
  destruct (bool_decide (a = "") || posixpath.endswith_slash a).
  - by exists a.
  - exists (a +:+ "/"). by rewrite append_assoc.
Qed.

(** Joining two names that end differently gives two paths. *)
Lemma join_distinct_names (a a' b b' pre pre' suf suf' : string) :
  b = pre +:+ suf -> b' = pre' +:+ suf' ->
  posixpath.startswith_slash b = false ->
  posixpath.startswith_slash b' = false ->
  String.length suf = String.length suf' ->
  suf <> suf' ->
  posixpath.join a b <> posixpath.join a' b'.
Proof.
  intros Eb Eb' Hb Hb' Hlen Hne Heq.
  destruct (join_relative_suffix a _ Hb) as [x Hx].
  destruct (join_relative_suffix a' _ Hb') as [y Hy].
  rewrite Hx, Hy, Eb, Eb', !append_assoc in Heq.
  by apply append_suffix_inj in Heq.
Qed.

Section NormalPaths.
Import posixpath.

Lemma split_no_slash (p : string) :
  Forall (fun c => has_slash c = false) (str_split_slash p) /\ str_split_slash p <> [].
Proof.
  induction p as [|c p [IH Hne]]; simpl.
  - split; [by repeat constructor|done].
  - destruct (Ascii.eqb c "/") eqn:Hc.
    + split; [by constructor|done].
    + destruct (str_split_slash p) as [|h t]; [done|].
      apply Forall_cons in IH as [Hh Ht]. split; [|done].
      constructor; [|done]. simpl. by rewrite Hc.
Qed.

Lemma split_component (c : string) :
  has_slash c = false -> str_split_slash c = [c].
Proof.
  induction c as [|x c IH]; simpl; [done|].
  destruct (Ascii.eqb x "/"); [done|]. simpl. intros Hc. by rewrite IH.
Qed.

Lemma split_component_slash (c rest : string) :
  has_slash c = false ->
  str_split_slash (c +:+ "/" +:+ rest) = c :: str_split_slash rest.
Proof.
  induction c as [|x c IH]; [done|].
  simpl. change (String x c +:+ "/" +:+ rest) with (String x (c +:+ "/" +:+ rest)).
  simpl. destruct (Ascii.eqb x "/"); [done|]. simpl. intros Hc. by rewrite IH.
Qed.

Lemma split_join (comps : list string) :
  Forall (fun c => has_slash c = false) comps -> comps <> [] ->
  str_split_slash (str_join_slash comps) = comps.
Proof.
  induction 1 as [|c comps Hc Hall IH]; [done|]. intros _.
  destruct comps as [|c' comps].
  - simpl. by apply split_component.
  - change (str_join_slash (c :: c' :: comps))
      with (c +:+ "/" +:+ str_join_slash (c' :: comps)).
    rewrite split_component_slash by done. by rewrite IH.
Qed.

Lemma step_component (n : nat) (acc : list string) (c : string) :
  component c -> normpath_step n acc c = c :: acc.
Proof.
  intros (_ & H1 & H2 & H3). unfold normpath_step.
  rewrite !bool_decide_eq_false_2 by done. done.
Qed.

Lemma fold_components (n : nat) (comps acc : list string) :
  Forall component comps ->
  fold_left (normpath_step n) comps acc = rev comps ++ acc.
Proof.
  intros Hall. revert acc. induction Hall as [|c comps Hc Hall IH]; intros acc; [done|].
  simpl. rewrite step_component by done. rewrite IH. by rewrite <- app_assoc.
Qed.

Lemma fold_keeps_components (n : nat) (comps acc : list string) :
  n <> 0%nat ->
  Forall (fun c => has_slash c = false) comps ->
  Forall component acc ->
  Forall component (fold_left (normpath_step n) comps acc).
Proof.
  intros Hn Hall. revert acc. induction Hall as [|c comps Hc Hall IH]; intros acc Hacc; [done|].
  simpl. apply IH. unfold normpath_step.
  destruct (bool_decide (c = "")) eqn:E1; [done|].
  destruct (bool_decide (c = ".")) eqn:E2; [done|]. simpl.
  apply bool_decide_eq_false in E1, E2.
  destruct (bool_decide (c = "..")) eqn:E3; simpl.
  - rewrite (bool_decide_eq_false_2 (n = 0%nat)) by done. simpl.
    destruct acc as [|last acc]; [done|].
    apply Forall_cons in Hacc as [(_ & _ & _ & Hlast) Hacc].
    by rewrite bool_decide_eq_false_2.
  - apply bool_decide_eq_false in E3. by constructor.
Qed.

Lemma join_not_absolute (comps : list string) :
  Forall component comps -> startswith_slash (str_join_slash comps) = false.
Proof.
  intros [|c rest (Hc & Hne & _) _]; [done|].
  destruct c as [|x c]; [done|]. simpl in Hc.
  apply orb_false_iff in Hc as [Hx _].
  destruct rest; simpl; by rewrite ?Hx.
Qed.

Lemma initial_slashes_range (p : string) :
  startswith_slash p = true -> initial_slashes p = 1%nat \/ initial_slashes p = 2%nat.
Proof.
  unfold initial_slashes. intros ->. destruct (_ && _); auto.
Qed.

Lemma initial_slashes_normal (n : nat) (rest : string) :
  n = 1%nat \/ n = 2%nat ->
  startswith_slash rest = false ->
  initial_slashes (slashes n +:+ rest) = n.
Proof.
  intros [-> | ->] Hrest; destruct rest as [|x rest]; try done;
    simpl in Hrest; unfold initial_slashes.
  - change (slashes 1 +:+ String x rest) with (String "/" (String x rest)). simpl.
    by rewrite Hrest.
  - change (slashes 2 +:+ String x rest) with (String "/" (String "/" (String x rest))). simpl.
    by rewrite Hrest.
Qed.

(** The shape of a normalised absolute path: one or two slashes, then
    components with one slash between them. *)
Lemma normpath_absolute_shape (p : string) :
  startswith_slash p = true ->
  exists n comps,
    (n = 1%nat \/ n = 2%nat) /\ Forall component comps /\
    normpath p = slashes n +:+ str_join_slash comps.
Proof.
  intros Hp. destruct (initial_slashes_range p Hp) as [Hn|Hn];
    exists (initial_slashes p),
           (rev (fold_left (normpath_step (initial_slashes p)) (str_split_slash p) []));
    (split; [auto|]); (split;
      [apply Forall_rev, fold_keeps_components;
         [by rewrite Hn|apply split_no_slash|done]|]);
    unfold normpath; destruct p as [|c p]; try done;
    rewrite bool_decide_eq_false_2 by done; cbv zeta; rewrite Hn;
    by rewrite bool_decide_eq_false_2.
Qed.

Lemma normpath_normal (n : nat) (comps : list string) :
  n = 1%nat \/ n = 2%nat -> Forall component comps ->
  normpath (slashes n +:+ str_join_slash comps) = slashes n +:+ str_join_slash comps.
Proof.
  intros Hn Hcomps.
  assert (Hne : slashes n +:+ str_join_slash comps <> "") by by destruct Hn as [-> | ->].
  unfold normpath. rewrite bool_decide_eq_false_2 by done. cbv zeta.
  rewrite initial_slashes_normal by auto using join_not_absolute.
  assert (Hfold : rev (fold_left (normpath_step n)
                         (str_split_slash (slashes n +:+ str_join_slash comps)) [])
                  = comps).
  { assert (Hsplit : fold_left (normpath_step n)
                       (str_split_slash (str_join_slash comps)) [] = rev comps).
    { destruct comps as [|c comps]; [done|].
      rewrite split_join; [|by eapply Forall_impl; [done|intros ? []]|done].
      rewrite fold_components by done. by rewrite app_nil_r. }
    assert (Hslash : forall r acc,
              fold_left (normpath_step n) (str_split_slash (String "/" r)) acc
              = fold_left (normpath_step n) (str_split_slash r) acc) by done.
    destruct Hn as [-> | ->].
    - change (slashes 1 +:+ str_join_slash comps) with (String "/" (str_join_slash comps)).
      rewrite Hslash, Hsplit. apply rev_involutive.
    - change (slashes 2 +:+ str_join_slash comps)
        with (String "/" (String "/" (str_join_slash comps))).
      rewrite !Hslash, Hsplit. apply rev_involutive. }
  rewrite Hfold. destruct Hn as [-> | ->]; by rewrite bool_decide_eq_false_2.
Qed.

(** [abspath] returns an absolute path and fixes every path it returns. *)
Lemma abspath_absolute (cwd p : string) :
  isabs cwd = true -> isabs (abspath cwd p) = true.
Proof.
  intros Hcwd. unfold abspath.
  assert (Hq : startswith_slash (if isabs p then p else join cwd p) = true).
  { destruct (isabs p) eqn:Hp; [done|]. unfold join, isabs in *. rewrite Hp.
    destruct cwd as [|c cwd]; [done|]. simpl in Hcwd.
    destruct (_ || _); simpl; by rewrite Hcwd. }
  destruct (normpath_absolute_shape _ Hq) as (n & comps & Hn & _ & ->).
  by destruct Hn as [-> | ->].
Qed.

Lemma abspath_idempotent (cwd p : string) :
  isabs cwd = true -> abspath cwd (abspath cwd p) = abspath cwd p.
Proof.
  intros Hcwd. pose proof (abspath_absolute cwd p Hcwd) as Habs.
  unfold abspath at 1. rewrite Habs. unfold abspath in *.
  destruct (normpath_absolute_shape (if isabs p then p else join cwd p))
    as (n & comps & Hn & Hcomps & ->).
  - destruct (isabs p) eqn:Hp; [done|]. unfold join, isabs in *. rewrite Hp.
    destruct cwd as [|c cwd]; [done|]. simpl in Hcwd.
    destruct (_ || _); simpl; by rewrite Hcwd.
  - by apply normpath_normal.
Qed.

End NormalPaths.

Section TaskProperties.
Context {I J : Type} {InputI : Input.API I} {JobFileJ : JobFile.API J}.
Implicit Types (task : AbinitTask.Task I J).

(** C5, as amended: the output file of a task has the basename
    [run.output] and lies directly in the working directory: its path is
    the working directory joined with [run.output].  [output/out] is the
    prefix of the output data files, and the output file never is the path
    [workdir/output/out]. *)
Theorem output_file_layout (cwd : string) (input : I) (workdir : string)
    (varpaths : option (gmap string string)) :
  let task := AbinitTask.__init__ cwd input workdir varpaths in
  AbinitTask.workdir task = posixpath.abspath cwd workdir /\
  File.basename (AbinitTask.output_file task) = "run.output" /\
  File.dirname (AbinitTask.output_file task)
    = posixpath.abspath cwd (AbinitTask.workdir task) /\
  File.path (AbinitTask.output_file task)
    = posixpath.join (File.dirname (AbinitTask.output_file task)) "run.output" /\
  (posixpath.isabs cwd = true ->
   File.dirname (AbinitTask.output_file task) = AbinitTask.workdir task /\
   File.path (AbinitTask.output_file task)
     = posixpath.join (AbinitTask.workdir task) "run.output") /\
  AbinitTask.Prefix.odata AbinitTask.prefix = "output/out" /\
  File.path (AbinitTask.output_file task)
    <> posixpath.join (AbinitTask.workdir task) "output/out".
Proof.
  intros task. subst task. unfold AbinitTask.__init__.
  destruct varpaths; simpl; (repeat split; try reflexivity);
    try (by apply (join_distinct_names _ _ _ _ "run.ou" "output" "tput" "/out"));
    try (by apply abspath_idempotent);
    by rewrite abspath_idempotent.
Qed.

(** C7: an extension that does not start with an underscore names the
    same output data file as the extension with the underscore in front;
    both calls return a path. *)
Theorem odata_path_from_ext_underscore task (ext : string) :
  ext <> "" ->
  String.get 0 ext <> Some "_"%char ->
  AbinitTask.odata_path_from_ext task ext
    = AbinitTask.odata_path_from_ext task ("_" +:+ ext) /\
  AbinitTask.odata_path_from_ext task ext
    = Ok (posixpath.join (AbinitTask.workdir task) ("output/out_" +:+ ext)).
Proof.
  intros Hne Hfirst. destruct ext as [|c ext]; [done|].
  unfold AbinitTask.odata_path_from_ext. rewrite append_cons.
  destruct (Ascii.eqb_spec c "_") as [->|Hc]; [done|].
  by rewrite Ascii.eqb_refl.
Qed.

(** C9: [to_dict] and [from_dict] of a task do fail, but with [NameError]:
    the name they raise, [NotimplementedError], is bound nowhere.  The
    methods of [Work] spell it right. *)
Theorem task_to_dict_raises_NameError task (d : gmap string string)
    (work : Work.Work I J) :
  AbinitTask.to_dict task = Error (NameError "NotimplementedError") /\
  AbinitTask.from_dict (I:=I) (J:=J) d = Error (NameError "NotimplementedError") /\
  Work.to_dict work = Error (NotImplementedError "") /\
  Work.from_dict (I:=I) (J:=J) d = Error (NotImplementedError "").
Proof. done. Qed.

End TaskProperties.

(** ** Locks *)

Section RunProperties.
Context {I J F : Type} {InputI : Input.API I} {JobFileJ : JobFile.API J}
        {FS : FileSystem F} {SP : Subprocess F}.
Implicit Types (task : AbinitTask.Task I J) (w : World F).

(** What [run] does, step by step, once the lock is taken. *)
Lemma run_not_verbose (hooks : AbinitTask.Hooks I J F) task w :
  AbinitTask.run hooks false (task, w) =
  let lock := AbinitTask.path_in_workdir task "__lock__" in
  match FileLock.acquire lock w with
  | Raises e w1 => Raises e (task, w1)
  | Returns _ w1 =>
    match AbinitTask.setup hooks task w1 with
    | Raises e w2 => Raises e (task, w2)
    | Returns _ w2 =>
      match subprocess_call (JobFile.shell (AbinitTask.jobfile task))
                            (JobFile.path (AbinitTask.jobfile task))
                            (AbinitTask.workdir task) w2 with
      | Raises e w3 => Raises e (task, w3)
      | Returns code w3 =>
        let task' := fst (final_state (AbinitTask.set_return_code code (task, w3))) in
        if code =? 0 then
          match AbinitTask.teardown hooks task' w3 with
          | Raises e w4 => Raises e (task', w4)
          | Returns _ w4 => Returns code (task', final_state (FileLock.release lock w4))
          end
        else Returns code (task', final_state (FileLock.release lock w3))
      end
    end
  end.
Proof.
  unfold AbinitTask.run, bind, gets, when, ret, AbinitTask.in_world; simpl.
  destruct (FileLock.acquire _ w) as [[] w1|e w1]; [|done].
  destruct (AbinitTask.setup hooks task w1) as [[] w2|e w2]; [|done].
  destruct (subprocess_call _ _ _ w2) as [code w3|e w3]; [|done].
  simpl. destruct (code =? 0); [|done].
  by destruct (AbinitTask.teardown hooks _ w3) as [[] w4|e w4].
Qed.

Lemma run_verbose (hooks : AbinitTask.Hooks I J F) task w :
  AbinitTask.run hooks true (task, w) = Raises (AttributeError "input_path") (task, w).
Proof. done. Qed.

Lemma acquire_returns (lock : string) w u w1 :
  FileLock.acquire lock w = Returns u w1 ->
  (lock ∉ held w) /\ (forall other, other ∈ held w -> other ∈ held w1) /\ (lock ∈ held w1).
Proof.
  unfold FileLock.acquire. case_decide; [done|]. intros [= _ <-]. simpl.
  split; [done|]. split; [intros other ?|]; apply elem_of_union; auto.
  left. by apply elem_of_singleton.
Qed.

Lemma acquire_raises (lock : string) w e w1 :
  FileLock.acquire lock w = Raises e w1 ->
  lock ∈ held w /\ e = FileLockException lock /\ w1 = w.
Proof. unfold FileLock.acquire. case_decide; [|done]. by intros [= <- <-]. Qed.

Lemma release_held (lock other : string) w :
  other ∈ held (final_state (FileLock.release lock w)) <-> (other ∈ held w) /\ other <> lock.
Proof. simpl. by rewrite elem_of_difference, not_elem_of_singleton. Qed.

Lemma release_not_held (lock : string) w :
  lock ∉ held (final_state (FileLock.release lock w)).
Proof. rewrite release_held. by intros [_ []]. Qed.

(** [run] gives its lock back when it returns. *)
Lemma run_returns_released (hooks : AbinitTask.Hooks I J F) verbose task w code task' w' :
  AbinitTask.run hooks verbose (task, w) = Returns code (task', w') ->
  AbinitTask.path_in_workdir task "__lock__" ∉ held w'.
Proof.
  destruct verbose; [done|]. rewrite run_not_verbose. simpl.
  destruct (FileLock.acquire _ w) as [[] w1|e w1]; [|done].
  destruct (AbinitTask.setup hooks task w1) as [[] w2|e w2]; [|done].
  destruct (subprocess_call _ _ _ w2) as [c w3|e w3]; [|done].
  destruct (c =? 0).
  - destruct (AbinitTask.teardown hooks _ w3) as [[] w4|e w4]; [|done].
    intros [= _ _ <-]. apply release_not_held.
  - intros [= _ _ <-]. apply release_not_held.
Qed.

(** [run] never gives back a lock other than its own, and its own only
    by returning. *)
Lemma run_keeps_lock (hooks : AbinitTask.Hooks I J F) (lock : string) verbose task w :
  (forall t, keeps_lock lock (AbinitTask.setup hooks t)) ->
  (forall t, keeps_lock lock (AbinitTask.teardown hooks t)) ->
  (forall shell script cwd, keeps_lock lock (subprocess_call shell script cwd)) ->
  lock ∈ held w ->
  match AbinitTask.run hooks verbose (task, w) with
  | Returns _ (_, w') => lock <> AbinitTask.path_in_workdir task "__lock__" -> lock ∈ held w'
  | Raises _ (_, w') => lock ∈ held w'
  end.
Proof.
  intros Hsetup Hteardown Hcall Hheld. destruct verbose; [done|].
  rewrite run_not_verbose. simpl.
  destruct (FileLock.acquire _ w) as [[] w1|e w1] eqn:Hacq;
    [|by apply acquire_raises in Hacq as (_ & _ & ->)].
  apply acquire_returns in Hacq as (_ & Hw1 & _).
  assert (H1 : lock ∈ held w1) by auto.
  pose proof (Hsetup task w1 H1) as H2.
  destruct (AbinitTask.setup hooks task w1) as [[] w2|e w2]; [|done].
  simpl in H2.
  match goal with |- context [subprocess_call ?a ?b ?c w2] =>
    pose proof (Hcall a b c w2 H2) as H3;
    destruct (subprocess_call a b c w2) as [c' w3|e w3]; [|done]
  end.
  simpl in H3. destruct (c' =? 0).
  - match goal with |- context [AbinitTask.teardown hooks ?t w3] =>
      pose proof (Hteardown t w3 H3) as H4;
      destruct (AbinitTask.teardown hooks t w3) as [[] w4|e w4]; [|done]
    end.
    intros Hne. by apply release_held.
  - intros Hne. by apply release_held.
Qed.

(** The tasks of a work run one after the other without giving back a
    lock that none of them owns. *)
Lemma run_loop_keeps_lock (task_hooks : AbinitTask.Hooks I J F) (lock : string) verbose
    (before rest : list (AbinitTask.Task I J)) (work : Work.Work I J) w :
  (forall t, keeps_lock lock (AbinitTask.setup task_hooks t)) ->
  (forall t, keeps_lock lock (AbinitTask.teardown task_hooks t)) ->
  (forall shell script cwd, keeps_lock lock (subprocess_call shell script cwd)) ->
  Forall (fun task => lock <> AbinitTask.path_in_workdir task "__lock__") rest ->
  lock ∈ held w ->
  lock ∈ held (snd (final_state (Work.run_loop task_hooks verbose before rest (work, w)))).
Proof.
  intros Hsetup Hteardown Hcall Hrest. revert before work w.
  induction Hrest as [|task rest Hne Hrest IH]; intros before work w Hheld; [done|].
  simpl.
  pose proof (run_keeps_lock task_hooks lock verbose task w Hsetup Hteardown Hcall Hheld) as Hrun.
  destruct (AbinitTask.run task_hooks verbose (task, w)) as [c [task' w']|e [task' w']].
  - apply IH. by apply Hrun.
  - done.
Qed.

End RunProperties.

(** ** Threads *)
Section Threads.
Context {I J F : Type} {InputI : Input.API I} {JobFileJ : JobFile.API J}
        {FS : FileSystem F} {SP : Subprocess F}.
Implicit Types (task : AbinitTask.Task I J) (w : World F).

Lemma same_task_refl task : same_task task task.
Proof. exists (AbinitTask._return_code task). by destruct task. Qed.

Lemma same_task_trans task1 task2 task3 :
  same_task task1 task2 -> same_task task2 task3 -> same_task task1 task3.
Proof. intros [c ->] [c' ->]. by exists c'. Qed.

Lemma same_task_lock task task' :
  same_task task task' ->
  AbinitTask.path_in_workdir task' "__lock__" = AbinitTask.path_in_workdir task "__lock__".
Proof. by intros [c ->]. Qed.

(** What each step of [run] does. *)
Lemma run_step_cases (hooks : AbinitTask.Hooks I J F) verbose at_ task w :
  AbinitTask.run_step hooks verbose at_ (task, w) =
  let lock := AbinitTask.path_in_workdir task "__lock__" in
  match at_ with
  | AbinitTask.AtAcquire =>
      if verbose then Raises (AttributeError "input_path") (task, w)
      else match FileLock.acquire lock w with
           | Returns _ w1 => Returns (inl AbinitTask.AtSetup) (task, w1)
           | Raises e w1 => Raises e (task, w1)
           end
  | AbinitTask.AtSetup =>
      match AbinitTask.setup hooks task w with
      | Returns _ w1 => Returns (inl AbinitTask.AtCall) (task, w1)
      | Raises e w1 => Raises e (task, w1)
      end
  | AbinitTask.AtCall =>
      match subprocess_call (JobFile.shell (AbinitTask.jobfile task))
                            (JobFile.path (AbinitTask.jobfile task))
                            (AbinitTask.workdir task) w with
      | Returns code w1 =>
          Returns (inl (if code =? 0 then AbinitTask.AtTeardown else AbinitTask.AtRelease))
                  (fst (final_state (AbinitTask.set_return_code code (task, w1))), w1)
      | Raises e w1 => Raises e (task, w1)
      end
  | AbinitTask.AtTeardown =>
      match AbinitTask.teardown hooks task w with
      | Returns _ w1 => Returns (inl AbinitTask.AtRelease) (task, w1)
      | Raises e w1 => Raises e (task, w1)
      end
  | AbinitTask.AtRelease =>
      let w1 := final_state (FileLock.release lock w) in
      match AbinitTask._return_code task with
      | Some code => Returns (inr code) (task, w1)
      | None => Raises (AttributeError "_return_code") (task, w1)
      end
  end.
Proof.
  unfold AbinitTask.run_step, bind, gets, when, ret, raise, AbinitTask.in_world; simpl.
  destruct at_; simpl.
  - destruct verbose; [done|]. simpl.
    by destruct (FileLock.acquire _ w) as [[] w1|e w1].
  - by destruct (AbinitTask.setup hooks task w) as [[] w1|e w1].
  - by destruct (subprocess_call _ _ _ w) as [code w1|e w1].
  - by destruct (AbinitTask.teardown hooks task w) as [[] w1|e w1].
  - by destruct (AbinitTask._return_code task).
Qed.

(** [run] is its steps, one after the other. *)
Lemma run_in_steps (hooks : AbinitTask.Hooks I J F) verbose task w :
  AbinitTask.run_from 4 hooks verbose AbinitTask.AtAcquire (task, w)
  = AbinitTask.run hooks verbose (task, w).
Proof.
  destruct verbose; [done|]. rewrite run_not_verbose. simpl.
  unfold bind at 1. rewrite run_step_cases. simpl.
  destruct (FileLock.acquire _ w) as [[] w1|e w1]; [|done].
  unfold bind at 1. rewrite run_step_cases. simpl.
  destruct (AbinitTask.setup hooks task w1) as [[] w2|e w2]; [|done].
  unfold bind at 1. rewrite run_step_cases. simpl.
  destruct (subprocess_call _ _ _ w2) as [code w3|e w3]; [|done].
  destruct (code =? 0).
  - unfold bind at 1. rewrite run_step_cases. simpl.
    destruct (AbinitTask.teardown hooks _ w3) as [[] w4|e w4]; [|done].
    unfold bind at 1. by rewrite run_step_cases.
  - unfold bind at 1. by rewrite run_step_cases.
Qed.

Lemma run_step_same_task (hooks : AbinitTask.Hooks I J F) verbose at_ task w :
  same_task task (fst (final_state (AbinitTask.run_step hooks verbose at_ (task, w)))).
Proof.
  rewrite run_step_cases. simpl. destruct at_.
  - destruct verbose; [apply same_task_refl|].
    destruct (FileLock.acquire _ w) as [[] w1|e w1]; apply same_task_refl.
  - destruct (AbinitTask.setup hooks task w) as [[] w1|e w1]; apply same_task_refl.
  - destruct (subprocess_call _ _ _ w) as [code w1|e w1]; [simpl; by eexists|apply same_task_refl].
  - destruct (AbinitTask.teardown hooks task w) as [[] w1|e w1]; apply same_task_refl.
  - destruct (AbinitTask._return_code task); apply same_task_refl.
Qed.

(** No step takes back a return code. *)
Lemma run_step_code_kept (hooks : AbinitTask.Hooks I J F) verbose at_ task w :
  is_Some (AbinitTask._return_code task) ->
  is_Some (AbinitTask._return_code
             (fst (final_state (AbinitTask.run_step hooks verbose at_ (task, w))))).
Proof.
  intros Hcode. rewrite run_step_cases. simpl. destruct at_.
  - destruct verbose; [done|]. by destruct (FileLock.acquire _ w) as [[] w1|e w1].
  - by destruct (AbinitTask.setup hooks task w) as [[] w1|e w1].
  - destruct (subprocess_call _ _ _ w) as [code w1|e w1]; [simpl; by eexists|done].
  - by destruct (AbinitTask.teardown hooks task w) as [[] w1|e w1].
  - destruct Hcode as [c Hc]. rewrite Hc. simpl. by rewrite Hc.
Qed.

(** The step that returns from [run] returns the code on record. *)
Lemma run_step_returns (hooks : AbinitTask.Hooks I J F) verbose at_ task w code task' w' :
  AbinitTask.run_step hooks verbose at_ (task, w) = Returns (inr code) (task', w') ->
  AbinitTask._return_code task' = Some code.
Proof.
  rewrite run_step_cases. simpl. destruct at_.
  - destruct verbose; [done|]. by destruct (FileLock.acquire _ w) as [[] w1|e w1].
  - by destruct (AbinitTask.setup hooks task w) as [[] w1|e w1].
  - by destruct (subprocess_call _ _ _ w) as [c w1|e w1].
  - by destruct (AbinitTask.teardown hooks task w) as [[] w1|e w1].
  - destruct (AbinitTask._return_code task) as [c|] eqn:Hc; [|done].
    by intros [= <- <- _].
Qed.

Lemma run_step_steps_left (hooks : AbinitTask.Hooks I J F) verbose at_ task w at' s' :
  AbinitTask.run_step hooks verbose at_ (task, w) = Returns (inl at') s' ->
  (AbinitTask.steps_left at' < AbinitTask.steps_left at_)%nat.
Proof.
  rewrite run_step_cases. simpl. destruct at_.
  - destruct verbose; [done|].
    destruct (FileLock.acquire _ w) as [[] w1|e w1]; [|done]. intros [= <- _]. simpl. lia.
  - destruct (AbinitTask.setup hooks task w) as [[] w1|e w1]; [|done]. intros [= <- _]. simpl. lia.
  - destruct (subprocess_call _ _ _ w) as [c w1|e w1]; [|done]. intros [= <- _].
    destruct (c =? 0); simpl; lia.
  - destruct (AbinitTask.teardown hooks task w) as [[] w1|e w1]; [|done]. intros [= <- _]. simpl. lia.
  - by destruct (AbinitTask._return_code task).
Qed.

(** A step never gives back a lock other than the one of its task. *)
Lemma run_step_keeps_lock (hooks : AbinitTask.Hooks I J F) (lock : string)
    verbose at_ task w :
  (forall t, keeps_lock lock (AbinitTask.setup hooks t)) ->
  (forall t, keeps_lock lock (AbinitTask.teardown hooks t)) ->
  (forall shell script cwd, keeps_lock lock (subprocess_call shell script cwd)) ->
  lock <> AbinitTask.path_in_workdir task "__lock__" ->
  lock ∈ held w ->
  lock ∈ held (snd (final_state (AbinitTask.run_step hooks verbose at_ (task, w)))).
Proof.
  intros Hsetup Hteardown Hcall Hne Hheld. rewrite run_step_cases. simpl. destruct at_.
  - destruct verbose; [done|].
    destruct (FileLock.acquire _ w) as [[] w1|e w1] eqn:Hacq.
    + apply acquire_returns in Hacq as (_ & Hw1 & _). by apply Hw1.
    + by apply acquire_raises in Hacq as (_ & _ & ->).
  - pose proof (Hsetup task w Hheld) as H1.
    by destruct (AbinitTask.setup hooks task w) as [[] w1|e w1].
  - match goal with |- context [subprocess_call ?a ?b ?c w] =>
      pose proof (Hcall a b c w Hheld) as H1;
      by destruct (subprocess_call a b c w) as [c' w1|e w1]
    end.
  - pose proof (Hteardown task w Hheld) as H1.
    by destruct (AbinitTask.teardown hooks task w) as [[] w1|e w1].
  - assert (lock ∈ held (final_state (FileLock.release
              (AbinitTask.path_in_workdir task "__lock__") w))) by by apply release_held.
    by destruct (AbinitTask._return_code task).
Qed.

End Threads.

Lemma list_sum_insert {A} (f : A -> nat) (l : list A) (i : nat) (x y : A) :
  l !! i = Some x ->
  (list_sum (f <$> <[i := y]> l) + f x = list_sum (f <$> l) + f y)%nat.
Proof.
  revert i. induction l as [|a l IH]; intros [|i] Hi; simplify_eq/=; [lia|].
  specialize (IH i Hi). lia.
Qed.

Lemma elem_of_insert_other {A} (l : list A) (i : nat) (x y z : A) :
  x ∈ l -> l !! i = Some z -> x <> z -> x ∈ <[i := y]> l.
Proof.
  intros [j Hj]%list_elem_of_lookup Hi Hne.
  apply list_elem_of_lookup. exists j. rewrite list_lookup_insert_ne; [done|].
  intros ->. congruence.
Qed.

Lemma elem_of_insert_new {A} (l : list A) (i : nat) (y z : A) :
  l !! i = Some z -> y ∈ <[i := y]> l.
Proof.
  intros Hi. apply list_elem_of_lookup. exists i.
  apply list_lookup_insert_eq. by eapply lookup_lt_Some.
Qed.

Section Pool.
Context {I J F : Type} {InputI : Input.API I} {JobFileJ : JobFile.API J}
        {FS : FileSystem F} {SP : Subprocess F} {TH : Scheduler}.
Implicit Types (task : AbinitTask.Task I J) (w : World F) (work : Work.Work I J)
  (pool : Work.Pool) (worker : Work.Worker) (s : Work.Work I J * World F).

Lemma elem_of_movable_from pool (i0 : nat) (ws : list Work.Worker) (i : nat) :
  i ∈ Work.movable_from pool i0 ws <->
  exists worker, (i0 <= i)%nat /\ ws !! (i - i0)%nat = Some worker /\
                 Work.can_move pool worker = true.
Proof.
  revert i0. induction ws as [|worker ws IH]; intros i0; simpl.
  - split; [by intros ?%elem_of_nil|by intros (? & _ & ? & _)].
  - rewrite elem_of_app, IH. split.
    + intros [Hi|(worker' & Hle & Hi & Hmove)].
      * destruct (Work.can_move pool worker) eqn:Hmove; [|by apply elem_of_nil in Hi].
        apply list_elem_of_singleton in Hi as ->. exists worker.
        rewrite Nat.sub_diag. by repeat split.
      * exists worker'. split; [lia|]. split; [|done].
        by replace (i - i0)%nat with (S (i - S i0)) by lia.
    + intros (worker' & Hle & Hi & Hmove).
      destruct (decide (i = i0)) as [->|Hne].
      * rewrite Nat.sub_diag in Hi. simplify_eq/=. left. rewrite Hmove.
        by apply list_elem_of_singleton.
      * right. exists worker'. split; [lia|]. split; [|done].
        by replace (i - i0)%nat with (S (i - S i0)) in Hi by lia.
Qed.

Lemma elem_of_movable pool (i : nat) :
  i ∈ Work.movable pool <->
  exists worker, Work.workers pool !! i = Some worker /\ Work.can_move pool worker = true.
Proof.
  unfold Work.movable. rewrite elem_of_movable_from. rewrite Nat.sub_0_r.
  split; [intros (worker & _ & ? & ?)|intros (worker & ? & ?)]; exists worker;
    repeat split; auto with lia.
Qed.

Lemma movable_nil pool :
  Work.movable pool = [] ->
  Forall (fun worker => Work.can_move pool worker = false) (Work.workers pool).
Proof.
  intros Hnil. apply Forall_lookup. intros i worker Hi.
  destruct (Work.can_move pool worker) eqn:Hmove; [|done].
  assert (i ∈ Work.movable pool) as Hin by (apply elem_of_movable; eauto).
  rewrite Hnil in Hin. by apply elem_of_nil in Hin.
Qed.

Lemma picked_movable (moves first : nat) (ready : list nat) :
  nth (schedule moves mod length (first :: ready)) (first :: ready) first
  ∈ first :: ready.
Proof.
  destruct (nth_lookup_or_length (first :: ready)
              (schedule moves mod length (first :: ready)) first) as [Hnth|Hlong].
  - by eapply list_elem_of_lookup_2.
  - pose proof (Nat.mod_upper_bound (schedule moves) (length (first :: ready))) as Hlt.
    simpl in *. lia.
Qed.

Lemma join_unfold (task_hooks : AbinitTask.Hooks I J F) verbose
    (fuel moves : nat) pool s :
  Work.join task_hooks verbose fuel moves pool s =
  if (Work.unfinished_tasks pool =? 0)%nat then Some (Completes (Returns tt s))
  else match Work.movable pool with
       | [] => Some (Waits s)
       | (first :: _) as ready =>
           match fuel with
           | O => None
           | S fuel =>
               let i := nth (schedule moves mod length ready) ready first in
               Work.join task_hooks verbose fuel (S moves)
                         (Work.move task_hooks verbose i pool s).1
                         (Work.move task_hooks verbose i pool s).2
           end
       end.
Proof.
  destruct fuel; simpl; [done|].
  destruct (Work.unfinished_tasks pool =? 0)%nat; [done|].
  destruct (Work.movable pool) as [|first ready]; [done|].
  by destruct (Work.move _ _ _ pool s).
Qed.

(** What holds before [join], and is kept by every move of a worker that
    can move, holds when [join] is over: with nothing unfinished when it
    returns, with something unfinished and no worker able to move when it
    waits. *)
Lemma join_invariant (P : Work.Pool -> Work.Work I J * World F -> Prop)
    (task_hooks : AbinitTask.Hooks I J F) verbose :
  (forall i pool s,
     P pool s -> i ∈ Work.movable pool ->
     P (Work.move task_hooks verbose i pool s).1 (Work.move task_hooks verbose i pool s).2) ->
  forall fuel moves pool s c,
    P pool s ->
    Work.join task_hooks verbose fuel moves pool s = Some c ->
    exists pool' s',
      P pool' s' /\
      ((Work.unfinished_tasks pool' = 0%nat /\ c = Completes (Returns tt s')) \/
       (Work.unfinished_tasks pool' <> 0%nat /\ Work.movable pool' = [] /\ c = Waits s')).
Proof.
  intros Hmove fuel. induction fuel as [|fuel IH]; intros moves pool s c HP;
    rewrite join_unfold;
    (destruct (Nat.eqb_spec (Work.unfinished_tasks pool) 0) as [Hzero|Hleft];
     [intros [= <-]; exists pool, s; split; [done|]; by left|]);
    (destruct (Work.movable pool) as [|first ready] eqn:Hready;
     [intros [= <-]; exists pool, s; split; [done|]; by right|]); [done|].
  cbv zeta. apply IH. apply Hmove; [done|]. rewrite Hready. apply picked_movable.
Qed.

(** Every move uses up some of the budget. *)
Lemma move_budget (task_hooks : AbinitTask.Hooks I J F) verbose (i : nat) pool s :
  i ∈ Work.movable pool ->
  (Work.budget (Work.move task_hooks verbose i pool s).1 < Work.budget pool)%nat.
Proof.
  intros (worker & Hi & Hmove)%elem_of_movable. destruct s as [self w].
  unfold Work.move. rewrite Hi. unfold Work.budget.
  destruct worker as [|k at_| |]; simpl in Hmove; [| | |done].
  - destruct (Work.queue pool) as [|k rest] eqn:Hq; [by case_bool_decide|]. simpl.
    pose proof (list_sum_insert Work.moves_left (Work.workers pool) i Work.Getting
                  (Work.Calling k AbinitTask.AtAcquire) Hi) as Hsum.
    simpl in Hsum. lia.
  - destruct (Work._tasks self !! k) as [task|].
    + pose proof (run_step_steps_left task_hooks verbose at_ task w) as Hleft.
      destruct (AbinitTask.run_step _ _ _ _) as [[at'|code] [task' w']|e [task' w']]; simpl.
      * specialize (Hleft at' _ eq_refl).
        pose proof (list_sum_insert Work.moves_left (Work.workers pool) i
                      (Work.Calling k at_) (Work.Calling k at') Hi) as Hsum.
        simpl in Hsum. lia.
      * pose proof (list_sum_insert Work.moves_left (Work.workers pool) i
                      (Work.Calling k at_) Work.Finishing Hi) as Hsum.
        assert (0 < AbinitTask.steps_left at_)%nat by (destruct at_; simpl; lia).
        simpl in Hsum. lia.
      * pose proof (list_sum_insert Work.moves_left (Work.workers pool) i
                      (Work.Calling k at_) Work.Dead Hi) as Hsum.
        simpl in Hsum. lia.
    + simpl.
      pose proof (list_sum_insert Work.moves_left (Work.workers pool) i
                    (Work.Calling k at_) Work.Dead Hi) as Hsum.
      simpl in Hsum. lia.
  - simpl.
    pose proof (list_sum_insert Work.moves_left (Work.workers pool) i
                  Work.Finishing Work.Getting Hi) as Hsum.
    simpl in Hsum. lia.
Qed.

(** The budget is never used up before [join] is over. *)
Lemma join_budget (task_hooks : AbinitTask.Hooks I J F) verbose
    (fuel moves : nat) pool s :
  (Work.budget pool <= fuel)%nat ->
  is_Some (Work.join task_hooks verbose fuel moves pool s).
Proof.
  revert moves pool s. induction fuel as [|fuel IH]; intros moves pool s Hfuel;
    rewrite join_unfold;
    (destruct (Work.unfinished_tasks pool =? 0)%nat; [by eexists|]);
    (destruct (Work.movable pool) as [|first ready] eqn:Hready; [by eexists|]);
    (assert (Hin : nth (schedule moves mod length (first :: ready)) (first :: ready) first
                   ∈ Work.movable pool) by (rewrite Hready; apply picked_movable));
    pose proof (move_budget task_hooks verbose _ pool s Hin) as Hless; [lia|].
  cbv zeta. apply IH. lia.
Qed.

Lemma Forall2_same_task_insert (tasks0 tasks : list (AbinitTask.Task I J)) (k : nat)
    task task' :
  Forall2 same_task tasks0 tasks ->
  tasks !! k = Some task ->
  same_task task task' ->
  Forall2 same_task tasks0 (<[k := task']> tasks).
Proof.
  intros Hall Hk Hsame. apply Forall2_same_length_lookup.
  apply Forall2_same_length_lookup in Hall as [Hlen Hall].
  split; [by rewrite length_insert|].
  intros j x y Hx Hy. destruct (decide (k = j)) as [->|Hne].
  - rewrite list_lookup_insert_eq in Hy by by eapply lookup_lt_Some.
    simplify_eq. eapply same_task_trans; [|done]. by eapply Hall.
  - rewrite list_lookup_insert_ne in Hy by done. by eapply Hall.
Qed.

(** A move leaves the work what it was, up to the return code of
    one task. *)
Lemma move_same_tasks (task_hooks : AbinitTask.Hooks I J F) verbose (i : nat)
    pool (tasks0 : list (AbinitTask.Task I J)) work w :
  Forall2 same_task tasks0 (Work._tasks work) ->
  let work' := (Work.move task_hooks verbose i pool (work, w)).2.1 in
  Forall2 same_task tasks0 (Work._tasks work') /\
  Work.workdir work' = Work.workdir work /\
  Work.user_options work' = Work.user_options work /\
  Work._deps work' = Work._deps work.
Proof.
  intros Hall. unfold Work.move.
  destruct (Work.workers pool !! i) as [[|k at_| |]|]; simpl; [|
    |done..].
  - by destruct (Work.queue pool).
  - destruct (Work._tasks work !! k) as [task|] eqn:Hk; [|done].
    pose proof (run_step_same_task task_hooks verbose at_ task w) as Hsame.
    destruct (AbinitTask.run_step _ _ _ _) as [next [task' w']|e [task' w']];
      simpl in *; (split; [by eapply Forall2_same_task_insert|done]).
Qed.

(** The runs not yet reported done are the runs on the queue and the runs
    the workers hold. *)
Lemma move_count (task_hooks : AbinitTask.Hooks I J F) verbose (i : nat) pool s :
  i ∈ Work.movable pool ->
  Work.unfinished_tasks pool
    = (length (Work.queue pool) + list_sum (busy <$> Work.workers pool))%nat ->
  let pool' := (Work.move task_hooks verbose i pool s).1 in
  Work.unfinished_tasks pool'
    = (length (Work.queue pool') + list_sum (busy <$> Work.workers pool'))%nat.
Proof.
  intros (worker & Hi & Hmove)%elem_of_movable Hcount. destruct s as [self w].
  unfold Work.move. rewrite Hi.
  destruct worker as [|k at_| |]; simpl in Hmove; [| | |done].
  - destruct (Work.queue pool) as [|k rest] eqn:Hq; [by case_bool_decide|]. simpl.
    pose proof (list_sum_insert busy (Work.workers pool) i Work.Getting
                  (Work.Calling k AbinitTask.AtAcquire) Hi) as Hsum.
    simpl in *. lia.
  - destruct (Work._tasks self !! k) as [task|].
    + destruct (AbinitTask.run_step _ _ _ _) as [[at'|code] [task' w']|e [task' w']]; simpl.
      * pose proof (list_sum_insert busy (Work.workers pool) i
                      (Work.Calling k at_) (Work.Calling k at') Hi) as Hsum.
        simpl in Hsum. lia.
      * pose proof (list_sum_insert busy (Work.workers pool) i
                      (Work.Calling k at_) Work.Finishing Hi) as Hsum.
        simpl in Hsum. lia.
      * pose proof (list_sum_insert busy (Work.workers pool) i
                      (Work.Calling k at_) Work.Dead Hi) as Hsum.
        simpl in Hsum. lia.
    + simpl.
      pose proof (list_sum_insert busy (Work.workers pool) i
                    (Work.Calling k at_) Work.Dead Hi) as Hsum.
      simpl in Hsum. lia.
  - simpl.
    pose proof (list_sum_insert busy (Work.workers pool) i
                  Work.Finishing Work.Getting Hi) as Hsum.
    simpl in Hsum. lia.
Qed.

Lemma move_accounted (task_hooks : AbinitTask.Hooks I J F) verbose (i : nat) pool work w :
  i ∈ Work.movable pool ->
  accounted pool work ->
  accounted (Work.move task_hooks verbose i pool (work, w)).1
            (Work.move task_hooks verbose i pool (work, w)).2.1.
Proof.
  intros (worker & Hi & Hmove)%elem_of_movable Hacc.
  unfold Work.move. rewrite Hi.
  destruct worker as [|k0 at_| |]; simpl in Hmove; [| | |done].
  - destruct (Work.queue pool) as [|k0 rest] eqn:Hq; [by case_bool_decide|]. simpl.
    intros k task Hk. simpl.
    destruct (Hacc k task Hk) as [Hin|[[at_ Hin]|[Hin|Hcode]]].
    + rewrite Hq in Hin. apply elem_of_cons in Hin as [->|Hin]; [|by left].
      right; left. eexists. by eapply elem_of_insert_new.
    + right; left. exists at_. by eapply elem_of_insert_other.
    + right; right; left. by eapply elem_of_insert_other.
    + by right; right; right.
  - assert (Hothers : forall worker' k task,
              Work._tasks work !! k = Some task -> k <> k0 ->
              k ∈ Work.queue pool \/
              (exists at_, Work.Calling k at_ ∈ <[i := worker']> (Work.workers pool)) \/
              Work.Dead ∈ <[i := worker']> (Work.workers pool) \/
              is_Some (AbinitTask._return_code task)).
    { intros worker' k task Hk Hne.
      destruct (Hacc k task Hk) as [Hin|[[at' Hin]|[Hin|Hcode]]].
      - by left.
      - right; left. exists at'. eapply elem_of_insert_other; [done..|congruence].
      - right; right; left. by eapply elem_of_insert_other.
      - by right; right; right. }
    destruct (Work._tasks work !! k0) as [task0|] eqn:Hk0.
    + pose proof (run_step_returns task_hooks verbose at_ task0 w) as Hret.
      destruct (AbinitTask.run_step _ _ _ _) as [[at'|code] [task' w']|e [task' w']];
        simpl; intros k task Hk; simpl in Hk.
      * destruct (decide (k = k0)) as [->|Hne].
        -- right; left. exists at'. by eapply elem_of_insert_new.
        -- rewrite list_lookup_insert_ne in Hk by done. by apply Hothers.
      * destruct (decide (k = k0)) as [->|Hne].
        -- rewrite list_lookup_insert_eq in Hk by by eapply lookup_lt_Some.
           simplify_eq. right; right; right. erewrite Hret; [by eexists|done].
        -- rewrite list_lookup_insert_ne in Hk by done. by apply Hothers.
      * right; right; left. by eapply elem_of_insert_new.
    + simpl. intros k task Hk. right; right; left. by eapply elem_of_insert_new.
  - simpl. intros k task Hk.
    destruct (Hacc k task Hk) as [Hin|[[at' Hin]|[Hin|Hcode]]].
    + by left.
    + right; left. exists at'. by eapply elem_of_insert_other.
    + right; right; left. by eapply elem_of_insert_other.
    + by right; right; right.
Qed.

(** With nothing unfinished, every task has its return code. *)
Lemma accounted_finished pool work :
  Work.unfinished_tasks pool = 0%nat ->
  Work.unfinished_tasks pool
    = (length (Work.queue pool) + list_sum (busy <$> Work.workers pool))%nat ->
  accounted pool work ->
  Forall (fun task => is_Some (AbinitTask._return_code task)) (Work._tasks work).
Proof.
  intros Hzero Hcount Hacc.
  assert (Hq : Work.queue pool = []) by (apply length_zero_iff_nil; lia).
  assert (Hidle : forall worker, worker ∈ Work.workers pool -> busy worker = 0%nat).
  { assert (Hsum : list_sum (busy <$> Work.workers pool) = 0%nat) by lia.
    revert Hsum. generalize (Work.workers pool). intros ws.
    induction ws as [|worker ws IH]; simpl; intros Hsum worker' Hin;
      [by apply elem_of_nil in Hin|].
    apply Nat.eq_add_0 in Hsum as [Hw Hws].
      apply elem_of_cons in Hin as [->|Hin]; [done|]. by apply IH. }
  apply Forall_lookup. intros k task Hk.
  destruct (Hacc k task Hk) as [Hin|[[at_ Hin]|[Hin|Hcode]]]; [| | |done].
  - rewrite Hq in Hin. by apply elem_of_nil in Hin.
  - by apply Hidle in Hin.
  - by apply Hidle in Hin.
Qed.

(** A move never gives back a lock that no task owns. *)
Lemma move_keeps_lock (task_hooks : AbinitTask.Hooks I J F) (lock : string)
    verbose (i : nat) pool work w :
  (forall t, keeps_lock lock (AbinitTask.setup task_hooks t)) ->
  (forall t, keeps_lock lock (AbinitTask.teardown task_hooks t)) ->
  (forall shell script cwd, keeps_lock lock (subprocess_call shell script cwd)) ->
  Forall (fun task => lock <> AbinitTask.path_in_workdir task "__lock__")
         (Work._tasks work) ->
  lock ∈ held w ->
  lock ∈ held (Work.move task_hooks verbose i pool (work, w)).2.2.
Proof.
  intros Hsetup Hteardown Hcall Htasks Hheld. unfold Work.move.
  destruct (Work.workers pool !! i) as [[|k at_| |]|]; simpl; [| |done..].
  - by destruct (Work.queue pool).
  - destruct (Work._tasks work !! k) as [task|] eqn:Hk; [|done].
    pose proof (run_step_keeps_lock task_hooks lock verbose at_ task w
                  Hsetup Hteardown Hcall) as Hstep.
    rewrite Forall_lookup in Htasks. specialize (Hstep (Htasks _ _ Hk) Hheld).
    by destruct (AbinitTask.run_step _ _ _ _) as [next [task' w']|e [task' w']].
Qed.

End Pool.

Section ThreadedRun.
Context {I J F : Type} {InputI : Input.API I} {JobFileJ : JobFile.API J}
        {FS : FileSystem F} {SP : Subprocess F} {TH : Scheduler}.
Implicit Types (task : AbinitTask.Task I J) (w : World F) (work : Work.Work I J)
  (pool : Work.Pool) (worker : Work.Worker) (s : Work.Work I J * World F).

(** The pool that [run] starts with. *)
Lemma run_one_thread (task_hooks : AbinitTask.Hooks I J F) num_pythreads verbose work w :
  int (default (KInt 1) num_pythreads) = Ok 1 ->
  Work.run task_hooks num_pythreads verbose (work, w)
  = Completes (Work.run_loop task_hooks verbose [] (Work._tasks work) (work, w)).
Proof.
  intros Hint. unfold Work.run, wbind, lift, observe, gets. by rewrite Hint.
Qed.

Lemma run_no_number (task_hooks : AbinitTask.Hooks I J F) num_pythreads verbose work w e :
  int (default (KInt 1) num_pythreads) = Error e ->
  Work.run task_hooks num_pythreads verbose (work, w) = Completes (Raises e (work, w)).
Proof.
  intros Hint. unfold Work.run, wbind, lift, observe, gets. by rewrite Hint.
Qed.

Lemma run_threads (task_hooks : AbinitTask.Hooks I J F) num_pythreads verbose
    (n : Z) work w :
  int (default (KInt 1) num_pythreads) = Ok n ->
  n <> 1 ->
  exists c,
    Work.join task_hooks verbose (Work.budget (starting_pool n work)) 0
              (starting_pool n work) (work, w) = Some c /\
    Work.run task_hooks num_pythreads verbose (work, w) = c.
Proof.
  intros Hint Hn.
  destruct (join_budget task_hooks verbose (Work.budget (starting_pool n work)) 0
              (starting_pool n work) (work, w)) as [c Hc]; [done|].
  exists c. split; [done|].
  unfold Work.run, wbind, lift, observe, gets. rewrite Hint. simpl.
  destruct (Z.eqb_spec n 1) as [->|_]; [done|].
  unfold starting_pool in Hc. by rewrite Hc.
Qed.

Lemma starting_pool_count (n : Z) work :
  Work.unfinished_tasks (starting_pool n work)
  = (length (Work.queue (starting_pool n work))
     + list_sum (busy <$> Work.workers (starting_pool n work)))%nat.
Proof.
  simpl. rewrite length_seq.
  assert (list_sum (busy <$> replicate (Z.to_nat n) Work.Getting) = 0%nat) as ->; [|lia].
  induction (Z.to_nat n) as [|m IH]; [done|]. exact IH.
Qed.

Lemma starting_pool_accounted (n : Z) work : accounted (starting_pool n work) work.
Proof.
  intros k task Hk. left. simpl. apply elem_of_seq.
  apply lookup_lt_Some in Hk. lia.
Qed.

(** The threaded [run] never raises.  When it returns every task has its
    return code; when it waits, and when it returns, the work is what it
    was but for the return codes. *)
Lemma run_threads_outcome (task_hooks : AbinitTask.Hooks I J F) num_pythreads verbose
    (n : Z) work w :
  int (default (KInt 1) num_pythreads) = Ok n ->
  n <> 1 ->
  exists work' w',
    (Work.run task_hooks num_pythreads verbose (work, w) = Completes (Returns tt (work', w'))
     /\ Forall (fun task => is_Some (AbinitTask._return_code task)) (Work._tasks work')
     \/ Work.run task_hooks num_pythreads verbose (work, w) = Waits (work', w')) /\
    Forall2 same_task (Work._tasks work) (Work._tasks work') /\
    Work.workdir work' = Work.workdir work /\
    Work.user_options work' = Work.user_options work /\
    Work._deps work' = Work._deps work.
Proof.
  intros Hint Hn. destruct (run_threads task_hooks _ verbose n work w Hint Hn) as (c & Hc & ->).
  eapply (join_invariant
            (fun pool s =>
               (Forall2 same_task (Work._tasks work) (Work._tasks s.1) /\
                Work.workdir s.1 = Work.workdir work /\
                Work.user_options s.1 = Work.user_options work /\
                Work._deps s.1 = Work._deps work) /\
               Work.unfinished_tasks pool
                 = (length (Work.queue pool) + list_sum (busy <$> Work.workers pool))%nat /\
               accounted pool s.1)) in Hc.
  - destruct Hc as (pool' & [work' w'] & (Hsame & Hcount & Hacc) & Hc). exists work', w'.
    split; [|done].
    destruct Hc as [[Hzero ->]|(_ & _ & ->)]; [left|by right].
    split; [done|]. by eapply accounted_finished.
  - intros i pool [work1 w1] ((Hsame & Hwd & Huo & Hdeps) & Hcount & Hacc) Hin.
    pose proof (move_same_tasks task_hooks verbose i pool _ work1 w1 Hsame)
      as (Hsame' & Hwd' & Huo' & Hdeps').
    split; [|split].
    + simpl in *. by rewrite Hwd', Huo', Hdeps'.
    + by apply move_count.
    + by apply move_accounted.
  - split; [|split]; simpl.
    + split; [|done]. apply Forall_Forall2_diag, Forall_forall. intros. apply same_task_refl.
    + apply starting_pool_count.
    + apply starting_pool_accounted.
Qed.

(** The threaded [run] never gives back a lock that no task owns. *)
Lemma run_threads_keeps_lock (task_hooks : AbinitTask.Hooks I J F) (lock : string)
    num_pythreads verbose (n : Z) work w :
  int (default (KInt 1) num_pythreads) = Ok n ->
  n <> 1 ->
  (forall t, keeps_lock lock (AbinitTask.setup task_hooks t)) ->
  (forall t, keeps_lock lock (AbinitTask.teardown task_hooks t)) ->
  (forall shell script cwd, keeps_lock lock (subprocess_call shell script cwd)) ->
  Forall (fun task => lock <> AbinitTask.path_in_workdir task "__lock__")
         (Work._tasks work) ->
  lock ∈ held w ->
  lock ∈ held (last_state (Work.run task_hooks num_pythreads verbose (work, w))).2.
Proof.
  intros Hint Hn Hsetup Hteardown Hcall Htasks Hheld.
  destruct (run_threads task_hooks _ verbose n work w Hint Hn) as (c & Hc & ->).
  eapply (join_invariant
            (fun pool s =>
               Forall2 same_task (Work._tasks work) (Work._tasks s.1) /\
               lock ∈ held s.2)) in Hc.
  - destruct Hc as (pool' & s' & [_ Hlock] & [[_ ->]|(_ & _ & ->)]); done.
  - intros i pool [work1 w1] [Hsame Hlock] Hin.
    pose proof (move_same_tasks task_hooks verbose i pool _ work1 w1 Hsame) as (Hsame' & _).
    split; [done|]. apply move_keeps_lock; [done..| |done].
    apply Forall_lookup. intros k task' Hk.
    destruct (Forall2_lookup_r _ _ _ _ _ Hsame Hk) as (task & Hk0 & Htask).
    rewrite (same_task_lock _ _ Htask). rewrite Forall_lookup in Htasks. by eapply Htasks.
  - split; [|done]. apply Forall_Forall2_diag, Forall_forall. intros. apply same_task_refl.
Qed.

(** With [verbose] no worker gets past the first statement of a run: the
    threaded [run] of a work that has tasks waits for ever, with nothing
    changed. *)
Lemma run_threads_verbose (task_hooks : AbinitTask.Hooks I J F) num_pythreads
    (n : Z) work w :
  int (default (KInt 1) num_pythreads) = Ok n ->
  n <> 1 ->
  Work._tasks work <> [] ->
  Work.run task_hooks num_pythreads true (work, w) = Waits (work, w).
Proof.
  intros Hint Hn Htasks.
  destruct (run_threads task_hooks _ true n work w Hint Hn) as (c & Hc & ->).
  eapply (join_invariant
            (fun pool s =>
               s = (work, w) /\
               Work.unfinished_tasks pool = length (Work._tasks work) /\
               Forall (fun worker =>
                         worker <> Work.Finishing /\
                         forall k at_, worker = Work.Calling k at_ ->
                                       at_ = AbinitTask.AtAcquire)
                      (Work.workers pool))) in Hc.
  - destruct Hc as (pool' & s' & (-> & Hcount & _) & [[Hzero _]|(_ & _ & ->)]); [|done].
    rewrite Hcount in Hzero. by apply length_zero_iff_nil in Hzero.
  - intros i pool s (-> & Hcount & Hworkers) (worker & Hi & Hmove)%elem_of_movable.
    pose proof (Forall_lookup_1 _ _ _ _ Hworkers Hi) as [Hfin Hat].
    unfold Work.move. rewrite Hi.
    destruct worker as [|k at_| |]; simpl in Hmove; [| |done..].
    + destruct (Work.queue pool) as [|k rest]; [by case_bool_decide|]. simpl.
      split; [done|]. split; [done|]. apply Forall_insert; [done|].
      split; [done|]. by intros ? ? [= _ <-].
    + rewrite (Hat k at_ eq_refl).
      destruct (Work._tasks work !! k) as [task|] eqn:Hk.
      * rewrite run_step_cases. simpl. rewrite list_insert_id by done.
        split; [by destruct work|]. split; [done|]. by apply Forall_insert.
      * simpl. split; [done|]. split; [done|]. by apply Forall_insert.
  - split; [done|]. split; [done|]. simpl.
    apply Forall_forall. intros worker ->%elem_of_replicate_inv. done.
Qed.

(** What [start] does, step by step. *)
Lemma start_steps (hooks : Work.Hooks I J F) (task_hooks : AbinitTask.Hooks I J F)
    num_pythreads verbose work w :
  Work.start hooks task_hooks num_pythreads verbose (work, w) =
  let lock := Work.path_in_workdir work "__lock__" in
  match FileLock.acquire lock w with
  | Raises e w1 => Completes (Raises e (work, w1))
  | Returns _ w1 =>
    match Work.setup hooks work w1 with
    | Raises e w2 => Completes (Raises e (work, w2))
    | Returns _ w2 =>
      match Work.run task_hooks num_pythreads verbose (work, w2) with
      | Waits s3 => Waits s3
      | Completes (Raises e s3) => Completes (Raises e s3)
      | Completes (Returns _ (work3, w3)) =>
        match Work.teardown hooks work3 w3 with
        | Raises e w4 => Completes (Raises e (work3, w4))
        | Returns _ w4 =>
            Completes (Returns tt (work3, final_state (FileLock.release lock w4)))
        end
      end
    end
  end.
Proof.
  unfold Work.start, wbind, lift, gets, Work.in_world; simpl.
  destruct (FileLock.acquire _ w) as [[] w1|e w1]; [|done].
  destruct (Work.setup hooks work w1) as [[] w2|e w2]; [|done].
  destruct (Work.run _ _ _ _) as [[[] [work3 w3]|e3 s3]|s3]; [|done..].
  simpl. by destruct (Work.teardown hooks work3 w3) as [[] w4|e4 w4].
Qed.

(** [Work.run] never gives back a lock that no task owns, whatever the
    number of threads. *)
Lemma work_run_keeps_lock (task_hooks : AbinitTask.Hooks I J F) (lock : string)
    num_pythreads verbose work w :
  (forall t, keeps_lock lock (AbinitTask.setup task_hooks t)) ->
  (forall t, keeps_lock lock (AbinitTask.teardown task_hooks t)) ->
  (forall shell script cwd, keeps_lock lock (subprocess_call shell script cwd)) ->
  Forall (fun task => lock <> AbinitTask.path_in_workdir task "__lock__")
         (Work._tasks work) ->
  lock ∈ held w ->
  lock ∈ held (last_state (Work.run task_hooks num_pythreads verbose (work, w))).2.
Proof.
  intros Hsetup Hteardown Hcall Htasks Hheld.
  destruct (int (default (KInt 1) num_pythreads)) as [n|e] eqn:Hint.
  - destruct (decide (n = 1)) as [->|Hn].
    + rewrite run_one_thread by done. simpl. by apply run_loop_keeps_lock.
    + by eapply run_threads_keeps_lock.
  - by rewrite (run_no_number _ _ _ _ _ e).
Qed.

End ThreadedRun.

Section Locks.
Context {I J F : Type} {InputI : Input.API I} {JobFileJ : JobFile.API J}
        {FS : FileSystem F} {SP : Subprocess F} {TH : Scheduler}.
Implicit Types (task : AbinitTask.Task I J) (w : World F) (work : Work.Work I J)
  (pool : Work.Pool) (worker : Work.Worker) (s : Work.Work I J * World F).

(** C1 does not hold of the code.  [AbinitTask.run] and [Work.start] give
    their lock back on one path only, the one on which they return: the
    call of [lock.release()] is their last statement but one, and nothing
    guards it.  When the setup hook, the launch of the job or the teardown
    hook raises, the exception leaves [run] with the lock still held; and a
    [start] that does not return, because a hook or a task raised or because
    it waits for its worker threads for ever, still holds the lock of the
    work. *)
Theorem lock_released_on_return_held_on_raise
    (hooks : Work.Hooks I J F) (task_hooks : AbinitTask.Hooks I J F)
    (num_pythreads : option KwVal) (verbose : bool) :
  (forall task w code task' w',
     AbinitTask.run task_hooks verbose (task, w) = Returns code (task', w') ->
     AbinitTask.path_in_workdir task "__lock__" ∉ held w') /\
  (forall task w e task' w',
     let lock := AbinitTask.path_in_workdir task "__lock__" in
     lock ∉ held w ->
     (forall t, keeps_lock lock (AbinitTask.setup task_hooks t)) ->
     (forall t, keeps_lock lock (AbinitTask.teardown task_hooks t)) ->
     (forall shell script cwd, keeps_lock lock (subprocess_call shell script cwd)) ->
     AbinitTask.run task_hooks false (task, w) = Raises e (task', w') ->
     lock ∈ held w') /\
  (forall work w u work' w',
     Work.start hooks task_hooks num_pythreads verbose (work, w)
     = Completes (Returns u (work', w')) ->
     Work.path_in_workdir work "__lock__" ∉ held w') /\
  (forall work w,
     let lock := Work.path_in_workdir work "__lock__" in
     lock ∉ held w ->
     (forall t, keeps_lock lock (Work.setup hooks t)) ->
     (forall t, keeps_lock lock (Work.teardown hooks t)) ->
     (forall t, keeps_lock lock (AbinitTask.setup task_hooks t)) ->
     (forall t, keeps_lock lock (AbinitTask.teardown task_hooks t)) ->
     (forall shell script cwd, keeps_lock lock (subprocess_call shell script cwd)) ->
     Forall (fun task => lock <> AbinitTask.path_in_workdir task "__lock__")
            (Work._tasks work) ->
     match Work.start hooks task_hooks num_pythreads verbose (work, w) with
     | Completes (Returns _ _) => True
     | Completes (Raises _ (_, w')) => lock ∈ held w'
     | Waits (_, w') => lock ∈ held w'
     end).
Proof.
  split; [|split; [|split]].
  - intros task w code task' w'. apply run_returns_released.
  - intros task w e task' w' lock Hfree Hsetup Hteardown Hcall. subst lock.
    rewrite run_not_verbose. simpl.
    destruct (FileLock.acquire _ w) as [[] w1|e1 w1] eqn:Hacq;
      [|by apply acquire_raises in Hacq as (? & _ & _)].
    apply acquire_returns in Hacq as (_ & _ & H1).
    pose proof (Hsetup task w1 H1) as H2.
    destruct (AbinitTask.setup task_hooks task w1) as [[] w2|e2 w2];
      [|by intros [= _ _ <-]].
    simpl in H2.
    match goal with |- context [subprocess_call ?a ?b ?c w2] =>
      pose proof (Hcall a b c w2 H2) as H3;
      destruct (subprocess_call a b c w2) as [c' w3|e3 w3]; [|by intros [= _ _ <-]]
    end.
    simpl in H3. destruct (c' =? 0); [|done].
    match goal with |- context [AbinitTask.teardown task_hooks ?t w3] =>
      pose proof (Hteardown t w3 H3) as H4;
      destruct (AbinitTask.teardown task_hooks t w3) as [[] w4|e4 w4]; [done|]
    end.
    by intros [= _ _ <-].
  - intros work w u work' w'. rewrite start_steps. simpl.
    destruct (FileLock.acquire _ w) as [[] w1|e1 w1]; [|done].
    destruct (Work.setup hooks work w1) as [[] w2|e2 w2]; [|done].
    destruct (Work.run _ _ _ _) as [[[] [work3 w3]|e3 s3]|s3]; [|done..].
    destruct (Work.teardown hooks work3 w3) as [[] w4|e4 w4]; [|done].
    intros ?; simplify_eq. apply release_not_held.
  - intros work w lock Hfree Hsetup Hteardown Htsetup Htteardown Hcall Htasks.
    subst lock. rewrite start_steps. simpl.
    destruct (FileLock.acquire _ w) as [[] w1|e1 w1] eqn:Hacq;
      [|by apply acquire_raises in Hacq as (? & _ & _)].
    apply acquire_returns in Hacq as (_ & _ & H1).
    pose proof (Hsetup work w1 H1) as H2.
    destruct (Work.setup hooks work w1) as [[] w2|e2 w2]; [|done].
    simpl in H2.
    pose proof (work_run_keeps_lock task_hooks _ num_pythreads verbose work w2
                  Htsetup Htteardown Hcall Htasks H2) as H3.
    destruct (Work.run _ _ _ _) as [[[] [work3 w3]|e3 [work3 w3]]|[work3 w3]]; [|done..].
    simpl in H3. pose proof (Hteardown work3 w3 H3) as H4.
    by destruct (Work.teardown hooks work3 w3) as [[] w4|e4 w4].
Qed.

End Locks.

(** ** Return codes and status *)

Section TaskRun.
Context {I J F : Type} {InputI : Input.API I} {JobFileJ : JobFile.API J}
        {FS : FileSystem F} {SP : Subprocess F}.
Implicit Types (task : AbinitTask.Task I J) (w : World F).

(** C10: a task that was just constructed reports the return code 666,
    which is not the code of success, and reading it never raises; once
    [run] has returned, the task reports the exit code of the child, which
    is also what [run] returned. *)
Theorem return_code_before_and_after_run :
  (forall cwd (input : I) workdir varpaths,
     AbinitTask.return_code (AbinitTask.__init__ cwd input workdir varpaths) = 666) /\
  666 <> 0 /\
  (forall (hooks : AbinitTask.Hooks I J F) verbose task w code task' w',
     AbinitTask.run hooks verbose (task, w) = Returns code (task', w') ->
     AbinitTask.return_code task' = code /\
     AbinitTask._return_code task' = Some code /\
     exists w1 w2,
       subprocess_call (JobFile.shell (AbinitTask.jobfile task))
                       (JobFile.path (AbinitTask.jobfile task))
                       (AbinitTask.workdir task) w1 = Returns code w2).
Proof.
  split; [|split; [done|]].
  - intros cwd input workdir varpaths. unfold AbinitTask.__init__.
    by destruct varpaths.
  - intros hooks [] task w code task' w'; [done|].
    rewrite run_not_verbose. simpl.
    destruct (FileLock.acquire _ w) as [[] w1|e w1]; [|done].
    destruct (AbinitTask.setup hooks task w1) as [[] w2|e w2]; [|done].
    destruct (subprocess_call _ _ _ w2) as [c w3|e w3] eqn:Hcall; [|done].
    destruct (c =? 0).
    + destruct (AbinitTask.teardown hooks _ w3) as [[] w4|e w4]; [|done].
      intros [= <- <- <-]. eauto.
    + intros [= <- <- <-]. eauto.
Qed.

End TaskRun.

Section StatusProperties.
Context {I J F : Type} {FS : FileSystem F} {AU : AbinitUtils F}.
Implicit Types (task : AbinitTask.Task I J) (s : F).

(** C2: when the output file passes the completeness check, the status of
    the task is "completed", whatever the log file and the stderr file
    hold. *)
Theorem completed_output_dominates task s :
  AbinitTask.iscomplete task s = Ok true ->
  Status.__init__ task s = Ok (Status.mk task Status.completed).
Proof. intros Hc. unfold Status.__init__. by rewrite Hc. Qed.

End StatusProperties.


Section WorkStatus.
Context {I J F : Type} {InputI : Input.API I} {JobFileJ : JobFile.API J}
        {FS : FileSystem F} {AU : AbinitUtils F}.
Implicit Types (work : Work.Work I J) (s : F).


End WorkStatus.

(** ** Aggregation and dependencies *)

Section Aggregation.
Context {I J F V : Type} {InputI : Input.API I} {JobFileJ : JobFile.API J}
        {FS : FileSystem F} {NC : NetCDF F V}.
Implicit Types (work : Work.Work I J) (task : AbinitTask.Task I J) (s : F).

Lemma get_etotal_loop_spec (tasks : list (AbinitTask.Task I J)) (etotal : list V) s :
  Work.get_etotal_loop tasks etotal s
  = Ok (etotal ++ ((fun task => etotal_entry task s) <$> tasks)).
Proof.
  revert etotal. induction tasks as [|task tasks IH]; intros etotal; simpl.
  - by rewrite app_nil_r.
  - change (AbinitTask.odata_path_from_ext task "GSR")
      with (Ok (A:=string) (posixpath.join (AbinitTask.workdir task) "output/out_GSR")).
    simpl. rewrite IH. unfold etotal_entry.
    by destruct (GSR_get_value _ _ s); rewrite <- app_assoc.
Qed.

(** C6: [get_etotal] always returns, with one entry per task in the order
    of registration: the energy read from the GSR file of the task, and
    infinity where reading it raised. *)
Theorem get_etotal_aligned work s :
  exists etotal : list V,
    Work.get_etotal work s = Ok etotal /\
    length etotal = length (Work._tasks work) /\
    forall (k : nat) task,
      Work._tasks work !! k = Some task ->
      exists gsr_path,
        AbinitTask.odata_path_from_ext task "GSR" = Ok gsr_path /\
        etotal !! k = Some (match GSR_get_value gsr_path "etotal" s with
                            | Ok value => value
                            | Error _ => np_inf
                            end).
Proof.
  unfold Work.get_etotal. rewrite get_etotal_loop_spec. simpl.
  eexists. split; [done|]. split; [by rewrite length_fmap|].
  intros k task Hk. eexists. split; [done|].
  by rewrite list_lookup_fmap, Hk.
Qed.

End Aggregation.

Section Dependencies.
Context {I J : Type} {InputI : Input.API I} {JobFileJ : JobFile.API J}.
Implicit Types (work : Work.Work I J) (dep : TaskDependencies.t I J).

Lemma get_varpaths_loop_DEN (producer : AbinitTask.Task I J) (tags : list string)
    (vars : gmap string string) :
  Forall (fun tag => tag = "DEN") tags ->
  tags <> [] ->
  TaskDependencies.get_varpaths_loop producer tags vars
  = Ok (<["getden_path" :=
            posixpath.join (AbinitTask.workdir producer) "output/out_DEN"]> vars).
Proof.
  intros Hall. revert vars. induction Hall as [|tag tags -> Hall IH]; intros vars Hne; [done|].
  simpl. change (TaskDependencies._ext2getvars !! "DEN") with (Some "getden_path").
  change (AbinitTask.odata_path_from_ext producer "DEN")
    with (Ok (A:=string) (posixpath.join (AbinitTask.workdir producer) "output/out_DEN")).
  simpl. destruct tags as [|tag' tags]; [done|].
  rewrite IH by done. by rewrite insert_insert_eq.
Qed.

(** C8: a task registered with one dependency descriptor that asks the
    producer for "DEN", and for nothing else, is built with exactly one
    variable: [getden_path], the name the table gives for "DEN", bound to
    the DEN path of the producer.  The descriptor may be passed alone or in
    a list. *)
Theorem register_input_with_DEN (cwd : string) work (input : I) dep
    (tags : list string) (depends : Work.Depends I J) :
  tags <> [] ->
  Forall (fun tag => tag = "DEN") tags ->
  depends = Work.Single (TaskDependencies.with_odata dep tags)
  \/ depends = Work.Sequence [TaskDependencies.with_odata dep tags] ->
  exists den_path : string,
    TaskDependencies._ext2getvars !! "DEN" = Some "getden_path" /\
    AbinitTask.odata_path_from_ext (TaskDependencies.task dep) "DEN" = Ok den_path /\
    TaskDependencies.get_varpaths (TaskDependencies.with_odata dep tags)
      = Ok {["getden_path" := den_path]} /\
    let task_workdir :=
      posixpath.join (Work.workdir work)
                     ("task_" +:+ pretty (length (Work._tasks work) + 1)%nat) in
    let new_task :=
      AbinitTask.__init__ cwd input task_workdir (Some {["getden_path" := den_path]}) in
    Work.register_input cwd input depends work
    = Returns (TaskDependencies.mk new_task (S (length (Work._tasks work))) [])
              (Work.mkWork (Work.workdir work) (Work.user_options work)
                           (Work._tasks work ++ [new_task])
                           (<[S (length (Work._tasks work)) :=
                                [TaskDependencies.with_odata dep tags]]>
                              (Work._deps work))).
Proof.
  intros Hne Hall Hdepends. eexists. split; [done|]. split; [done|].
  assert (Hvars : TaskDependencies.get_varpaths (TaskDependencies.with_odata dep tags)
                  = Ok {["getden_path" :=
                           posixpath.join (AbinitTask.workdir (TaskDependencies.task dep))
                                          "output/out_DEN"]}).
  { unfold TaskDependencies.get_varpaths. simpl.
    by rewrite get_varpaths_loop_DEN. }
  split; [done|]. intros task_workdir new_task.
  unfold Work.register_input, bind, get, observe, ret, put.
  destruct Hdepends as [-> | ->]; simpl; rewrite Hvars; simpl;
    rewrite (right_id_L ∅ (∪)), length_app; simpl;
    by replace (length (Work._tasks work) + 1)%nat
         with (S (length (Work._tasks work))) by lia.
Qed.

End Dependencies.

(** ** Building the files *)

Section Build.
Context {I J F : Type} {InputI : Input.API I} {JobFileJ : JobFile.API J}
        {FS : FileSystem F} {LAWS : FileSystemLaws F}.
Implicit Types (task : AbinitTask.Task I J) (s : F) (m : Py F unit).

Lemma preserved_refl s : preserved s s.
Proof. by intros path n. Qed.

Lemma preserved_trans s1 s2 s3 : preserved s1 s2 -> preserved s2 s3 -> preserved s1 s3.
Proof. intros H12 H23 path n Hn. by apply H23, H12. Qed.

(** Creating what is missing settles, when the creation makes the path
    exist, touches nothing else and fails without a change. *)
Lemma unless_exists_settling (path : string) m :
  (forall s, stat path s = None ->
     match m s with
     | Returns _ s' => is_Some (stat path s') /\ preserved s s'
     | Raises _ s' => s' = s
     end) ->
  settling (unless_exists path m).
Proof.
  intros Hm.
  assert (Hskip : forall s, is_Some (stat path s) -> unless_exists path m s = Returns tt s).
  { intros s Hs. unfold unless_exists, bind, gets, os_path_exists.
    by rewrite bool_decide_eq_true_2. }
  assert (Hdo : forall s, stat path s = None -> unless_exists path m s = m s).
  { intros s Hs. unfold unless_exists, bind, gets, os_path_exists.
    rewrite bool_decide_eq_false_2; [done|]. rewrite Hs. by intros [? ?]. }
  split.
  - intros s. destruct (stat path s) as [n|] eqn:Hs.
    + rewrite Hskip by eauto. apply preserved_refl.
    + rewrite Hdo by done. specialize (Hm s Hs).
      destruct (m s) as [u s'|e s']; simpl; [apply Hm|]. subst s'. apply preserved_refl.
  - intros s u s1 s2 Hret Hkeep. apply Hskip.
    destruct (stat path s) as [n|] eqn:Hs.
    + rewrite Hskip in Hret by eauto. injection Hret as _ <-. eauto.
    + rewrite Hdo in Hret by done. specialize (Hm s Hs). rewrite Hret in Hm.
      destruct Hm as [[n Hn] _]. eauto.
  - intros s e s1 Hraise.
    destruct (stat path s) as [n|] eqn:Hs.
    + by rewrite Hskip in Hraise by eauto.
    + rewrite Hdo in Hraise by done. specialize (Hm s Hs). rewrite Hraise in Hm.
      subst s1. by rewrite Hdo.
Qed.

(** Two settling steps in a row settle. *)
Lemma bind_settling m1 m2 :
  settling m1 -> settling m2 -> settling (let* _ := m1 in m2).
Proof.
  intros [P1 R1 E1] [P2 R2 E2]. split.
  - intros s. unfold bind. specialize (P1 s).
    destruct (m1 s) as [u s'|e s']; simpl in *; [|done].
    eapply preserved_trans; [done|apply P2].
  - intros s u s1 s2. unfold bind.
    destruct (m1 s) as [u' s'|e s'] eqn:H1; [|done]. intros H2 Hkeep.
    rewrite (R1 s u' s' s2 H1).
    + by apply (R2 s' u s1 s2).
    + eapply preserved_trans; [|done]. specialize (P2 s'). by rewrite H2 in P2.
  - intros s e s1. unfold bind.
    destruct (m1 s) as [u' s'|e' s'] eqn:H1.
    + intros H2. rewrite (R1 s u' s' s1 H1).
      * by apply (E2 s').
      * specialize (P2 s'). by rewrite H2 in P2.
    + intros [= -> ->]. by rewrite (E1 s e s1 H1).
Qed.

Lemma makedirs_settling (path : string) : settling (unless_exists path (makedirs path)).
Proof.
  apply unless_exists_settling. intros s _.
  destruct (makedirs path s) as [u s'|e s'] eqn:Hm.
  - split.
    + erewrite makedirs_creates by done. eauto.
    + intros q n. by eapply makedirs_frame.
  - by eapply makedirs_raises.
Qed.

Lemma write_file_settling (path text : string) :
  settling (unless_exists path (write_file path text)).
Proof.
  apply unless_exists_settling. intros s Hs.
  destruct (write_file path text s) as [u s'|e s'] eqn:Hm.
  - split.
    + erewrite write_file_creates by done. eauto.
    + intros q n Hq. erewrite write_file_frame; [done..|]. congruence.
  - by eapply write_file_raises.
Qed.

Lemma build_settling task : settling (AbinitTask.build task).
Proof.
  unfold AbinitTask.build, File.write.
  repeat apply bind_settling;
    first [apply makedirs_settling | apply write_file_settling].
Qed.

(** C4: a second [build] ends as the first did and leaves the store as the
    first left it; and whatever existed before the first (the input file,
    the files-list file and the job script among the rest) is still what it
    was. *)
Theorem build_idempotent task s :
  AbinitTask.build task (final_state (AbinitTask.build task s)) = AbinitTask.build task s /\
  forall path n,
    stat path s = Some n ->
    stat path (final_state (AbinitTask.build task s)) = Some n.
Proof.
  destruct (build_settling task) as [P R E]. split; [|apply P].
  destruct (AbinitTask.build task s) as [[] s1|e s1] eqn:Hb; simpl.
  - apply (R s () s1 s1 Hb), preserved_refl.
  - by apply (E s).
Qed.

End Build.

(** ** The test doubles at work *)

(** The store of the test doubles keeps the promises of a file system. *)
Lemma demo_store_laws : FileSystemLaws (gmap string node).
Proof.
  split; simpl.
  - intros p s u s' Hm. destruct (s !! p); simplify_eq. apply lookup_insert_eq.
  - intros p s u s' q n Hm Hq. destruct (s !! p) eqn:Hp; simplify_eq.
    rewrite lookup_insert_ne; [done|]. congruence.
  - intros p s e s' Hm. by destruct (s !! p); simplify_eq.
  - intros p text s u s' Hm.
    destruct (s !! p) as [[]|]; simplify_eq; apply lookup_insert_eq.
  - intros p text s u s' q Hm Hne.
    destruct (s !! p) as [[]|]; simplify_eq; by rewrite lookup_insert_ne.
  - intros p text s e s' Hm. by destruct (s !! p) as [[]|]; simplify_eq.
Qed.

(** The failing paths on the test doubles: in a world where no lock is
    held, a task whose setup hook raises, a task whose job cannot be
    launched and a task whose teardown hook raises all leave [run] with the
    lock [/w/__lock__] held. *)
Lemma run_leaves_lock_held_on_failure :
  let lock := AbinitTask.path_in_workdir Demo.task "__lock__" in
  let held_after (o : outcome (AbinitTask.Task Demo.input Demo.jobfile
                               * World (gmap string node)) Z) :=
    match o with
    | Returns _ _ => False
    | Raises _ (_, w) => lock ∈ held w
    end in
  (lock ∉ held Demo.nothing) /\
  held_after (AbinitTask.run (SP:=Demo.exits 0) Demo.failing_setup false
                             (Demo.task, Demo.nothing)) /\
  held_after (AbinitTask.run (SP:=Demo.no_such_shell) AbinitTask.default_hooks false
                             (Demo.task, Demo.nothing)) /\
  held_after (AbinitTask.run (SP:=Demo.exits 0) Demo.failing_teardown false
                             (Demo.task, Demo.nothing)).
Proof.
  repeat split; by vm_compute.
Qed.

(** C1 on the test doubles: a run and a start that return have given the
    lock back; a run whose job cannot be launched, a start whose first
    task fails in its setup hook, and a start with two threads that waits
    for ever after the same failure, still hold it. *)
Lemma lock_released_on_return_held_on_raise_witness :
  (AbinitTask.path_in_workdir Demo.task "__lock__"
   ∉ held (snd (final_state (AbinitTask.run (SP:=Demo.exits 3) AbinitTask.default_hooks
                                            false (Demo.task, Demo.nothing))))) /\
  (AbinitTask.path_in_workdir Demo.task "__lock__"
   ∈ held (snd (final_state (AbinitTask.run (SP:=Demo.no_such_shell)
                                            AbinitTask.default_hooks
                                            false (Demo.task, Demo.nothing))))) /\
  (Work.path_in_workdir Demo.batch "__lock__"
   ∉ held (snd (last_state (Work.start (SP:=Demo.exits 0) Work.default_hooks
                                       AbinitTask.default_hooks None false
                                       (Demo.batch, Demo.nothing))))) /\
  (Work.path_in_workdir Demo.batch "__lock__"
   ∈ held (snd (last_state (Work.start (SP:=Demo.exits 0) Work.default_hooks
                                       Demo.failing_setup None false
                                       (Demo.batch, Demo.nothing))))) /\
  (Work.path_in_workdir Demo.batch "__lock__"
   ∈ held (snd (last_state (Work.start (SP:=Demo.exits 0) Work.default_hooks
                                       Demo.failing_setup (Some (KInt 2)) false
                                       (Demo.batch, Demo.nothing))))).
Proof.
  split; [|split; [|split; [|split]]].
  - destruct (lock_released_on_return_held_on_raise (I:=Demo.input) (J:=Demo.jobfile)
                (SP:=Demo.exits 3) Work.default_hooks AbinitTask.default_hooks None false)
      as (T1 & _).
    destruct (AbinitTask.run _ _ _) as [code [task' w']|e [task' w']] eqn:Hrun.
    + eapply T1. exact Hrun.
    + vm_compute in Hrun. discriminate Hrun.
  - destruct (lock_released_on_return_held_on_raise (I:=Demo.input) (J:=Demo.jobfile)
                (SP:=Demo.no_such_shell) Work.default_hooks AbinitTask.default_hooks
                None false)
      as (_ & T2 & _).
    destruct (AbinitTask.run _ _ _) as [code [task' w']|e [task' w']] eqn:Hrun.
    + vm_compute in Hrun. discriminate Hrun.
    + eapply T2; [|intros t w Hw; exact Hw|intros t w Hw; exact Hw
                  |intros a b c w Hw; exact Hw|exact Hrun].
      vm_compute. discriminate.
  - destruct (lock_released_on_return_held_on_raise (I:=Demo.input) (J:=Demo.jobfile)
                (SP:=Demo.exits 0) Work.default_hooks AbinitTask.default_hooks None false)
      as (_ & _ & W1 & _).
    destruct (Work.start _ _ _ _ _) as [[u [work' w']|e [work' w']]|[work' w']] eqn:Hstart.
    + eapply W1. exact Hstart.
    + vm_compute in Hstart. discriminate Hstart.
    + vm_compute in Hstart. discriminate Hstart.
  - destruct (lock_released_on_return_held_on_raise (I:=Demo.input) (J:=Demo.jobfile)
                (SP:=Demo.exits 0) Work.default_hooks Demo.failing_setup None false)
      as (_ & _ & _ & W2).
    assert (Hheld := W2 Demo.batch Demo.nothing). simpl in Hheld.
    destruct (Work.start _ _ _ _ _) as [[u [work' w']|e [work' w']]|[work' w']] eqn:Hstart.
    + vm_compute in Hstart. discriminate Hstart.
    + apply Hheld; [|intros t w Hw; exact Hw|intros t w Hw; exact Hw
                    |intros t w Hw; exact Hw|intros t w Hw; exact Hw
                    |intros a b c w Hw; exact Hw|].
      * vm_compute. discriminate.
      * vm_compute. repeat constructor; discriminate.
    + vm_compute in Hstart. discriminate Hstart.
  - destruct (lock_released_on_return_held_on_raise (I:=Demo.input) (J:=Demo.jobfile)
                (SP:=Demo.exits 0) Work.default_hooks Demo.failing_setup
                (Some (KInt 2)) false)
      as (_ & _ & _ & W2).
    assert (Hheld := W2 Demo.batch Demo.nothing). simpl in Hheld.
    destruct (Work.start _ _ _ _ _) as [[u [work' w']|e [work' w']]|[work' w']] eqn:Hstart.
    + vm_compute in Hstart. discriminate Hstart.
    + vm_compute in Hstart. discriminate Hstart.
    + apply Hheld; [|intros t w Hw; exact Hw|intros t w Hw; exact Hw
                    |intros t w Hw; exact Hw|intros t w Hw; exact Hw
                    |intros a b c w Hw; exact Hw|].
      * vm_compute. discriminate.
      * vm_compute. repeat constructor; discriminate.
Defined.

(** C2 on the test doubles: the output file is complete, the log holds an
    error and stderr is not empty; the status is "completed". *)
Lemma completed_output_dominates_witness :
  Status.__init__ Demo.task Demo.finished = Ok (Status.mk Demo.task Status.completed).
Proof. apply completed_output_dominates. by vm_compute. Defined.


(** C4 on the test doubles: the input file that was there before [build]
    is not rewritten, and a second [build] changes nothing. *)
Lemma build_idempotent_witness :
  let built := final_state (AbinitTask.build Demo.task Demo.prepared) in
  AbinitTask.build Demo.task built = AbinitTask.build Demo.task Demo.prepared /\
  stat "/w/run.input" built = Some (Regular "ecut 99").
Proof.
  destruct (build_idempotent (LAWS:=demo_store_laws) Demo.task Demo.prepared) as [Hsame Hkept].
  split; [exact Hsame|]. apply Hkept. by vm_compute.
Defined.

(** C6 on the test doubles: four tasks, the GSR file of the second corrupt
    and that of the fourth missing. *)
Lemma get_etotal_aligned_witness :
  exists etotal,
    Work.get_etotal Demo.batch Demo.energies = Ok etotal /\
    length etotal = 4%nat /\
    etotal !! 0%nat = Some (Demo.finite 5) /\
    etotal !! 1%nat = Some Demo.infinity /\
    etotal !! 2%nat = Some (Demo.finite 7) /\
    etotal !! 3%nat = Some Demo.infinity.
Proof.
  destruct (get_etotal_aligned Demo.batch Demo.energies) as (etotal & Hget & Hlen & Hentry).
  exists etotal. split; [done|]. split; [by rewrite Hlen|].
  repeat split.
  - destruct (Hentry 0%nat _ eq_refl) as (p & Hp & ->). vm_compute in Hp. by injection Hp as <-.
  - destruct (Hentry 1%nat _ eq_refl) as (p & Hp & ->). vm_compute in Hp. by injection Hp as <-.
  - destruct (Hentry 2%nat _ eq_refl) as (p & Hp & ->). vm_compute in Hp. by injection Hp as <-.
  - destruct (Hentry 3%nat _ eq_refl) as (p & Hp & ->). vm_compute in Hp. by injection Hp as <-.
Defined.

(** C7 on the test doubles: "GSR" and "_GSR" name one path. *)
Lemma odata_path_from_ext_underscore_witness :
  AbinitTask.odata_path_from_ext Demo.task "GSR"
  = AbinitTask.odata_path_from_ext Demo.task "_GSR".
Proof. by apply (odata_path_from_ext_underscore Demo.task "GSR"). Defined.

(** C8 on the test doubles: the second task of a band-structure work reads
    the density of the first. *)
Lemma register_input_with_DEN_witness :
  let nscf :=
    Work.register_input "/home/user" Demo.silicon
      (Work.Single (TaskDependencies.with_odata Demo.scf_dep ["DEN"]))
      (Demo.register (Work.Sequence []) Demo.empty_work) in
  exists dep work,
    nscf = Returns dep work /\
    Demo.control (AbinitTask.input (TaskDependencies.task dep))
    = {["getden_path" := "/w/task_1/output/out_DEN"]} /\
    AbinitTask.workdir (TaskDependencies.task dep) = "/w/task_2".
Proof.
  destruct (register_input_with_DEN "/home/user"
              (Demo.register (Work.Sequence []) Demo.empty_work) Demo.silicon
              Demo.scf_dep ["DEN"]
              (Work.Single (TaskDependencies.with_odata Demo.scf_dep ["DEN"])))
    as (den_path & _ & Hpath & _ & Hreg); [done|by repeat constructor|by left|].
  eexists _, _. split; [exact Hreg|]. vm_compute in Hpath. injection Hpath as <-.
  split; by vm_compute.
Defined.

(** C10 on the test doubles: a job that exits with 3. *)
Lemma return_code_before_and_after_run_witness :
  AbinitTask.return_code Demo.task = 666 /\
  AbinitTask.return_code
    (fst (final_state (AbinitTask.run (SP:=Demo.exits 3) AbinitTask.default_hooks false
                                      (Demo.task, Demo.nothing)))) = 3.
Proof.
  destruct (return_code_before_and_after_run (SP:=Demo.exits 3)
              (I:=Demo.input) (J:=Demo.jobfile)) as (Hfresh & _ & Hafter).
  split; [apply Hfresh|].
  destruct (AbinitTask.run _ _ _) as [code [task' w']|e [task' w']] eqn:Hrun.
  - destruct (Hafter _ _ _ _ _ _ _ Hrun) as (Hcode & _). simpl. rewrite Hcode.
    vm_compute in Hrun. by injection Hrun as ->.
  - vm_compute in Hrun. discriminate Hrun.
Defined.

(** C5, as stated, fails: the output file of the task of [/w] is
    [/w/run.output], not [/w/output/out]. *)
Lemma output_file_is_not_output_out :
  File.path (AbinitTask.output_file Demo.task) = "/w/run.output" /\
  File.path (AbinitTask.output_file Demo.task)
  <> posixpath.join (AbinitTask.workdir Demo.task) "output/out".
Proof. split; by vm_compute. Qed.

(** C5 on the test doubles: the output file of the task of [/w]. *)
Lemma output_file_layout_witness :
  File.path (AbinitTask.output_file Demo.task)
  = posixpath.join (AbinitTask.workdir Demo.task) "run.output".
Proof.
  destruct (output_file_layout "/home/user" Demo.silicon "/w" None)
    as (_ & _ & _ & _ & Habs & _).
  by apply Habs.
Defined.

(** * Further properties *)

(** ** More about paths *)

Lemma join_relative_stem (a b : string) :
  posixpath.startswith_slash b = false -> posixpath.join a b = join_stem a +:+ b.
Proof.
  intros Hb. unfold posixpath.join, join_stem. rewrite Hb.
  destruct (_ || _); [done|]. by rewrite append_assoc.
Qed.

Lemma join_relative_inj (a b b' : string) :
  posixpath.startswith_slash b = false ->
  posixpath.startswith_slash b' = false ->
  posixpath.join a b = posixpath.join a b' -> b = b'.
Proof.
  intros Hb Hb'. rewrite !join_relative_stem by done. apply (inj _).
Qed.

Section MoreTaskProperties.
Context {I J : Type} {InputI : Input.API I} {JobFileJ : JobFile.API J}.
Implicit Types (task : AbinitTask.Task I J).

Lemma odata_path_from_ext_normal task (ext : string) :
  ext <> "" ->
  AbinitTask.odata_path_from_ext task ext
  = Ok (posixpath.join (AbinitTask.workdir task) ("output/out" +:+ with_underscore ext)).
Proof.
  destruct ext as [|c ext]; [done|]. intros _. unfold AbinitTask.odata_path_from_ext.
  destruct (Ascii.eqb_spec c "_") as [->|Hc]; simpl; [done|].
  do 3 f_equal. unfold with_underscore.
  destruct c as [[] [] [] [] [] [] [] []]; try done.
Qed.

(** X1: two extensions name the same output data file of a task only if
    they are the same up to the leading underscore; the empty extension
    names none. *)
Theorem odata_path_from_ext_inj task (ext ext' path : string) :
  AbinitTask.odata_path_from_ext task ext = Ok path ->
  AbinitTask.odata_path_from_ext task ext' = Ok path ->
  with_underscore ext = with_underscore ext' /\ ext <> "" /\ ext' <> "".
Proof.
  intros H1 H2.
  assert (ext <> "") by (by intros ->). assert (ext' <> "") by (by intros ->).
  rewrite odata_path_from_ext_normal in H1, H2 by done.
  split; [|done]. rewrite <- H2 in H1. injection H1 as H1.
  apply join_relative_inj in H1; [|done..]. by apply (inj _) in H1.
Qed.

End MoreTaskProperties.

(** ** The table of dependencies *)

Lemma ext2getvars_entries (tag name : string) :
  TaskDependencies._ext2getvars !! tag = Some name <->
  (tag, name) ∈ [ ("DEN", "getden_path"); ("WFK", "getwfk_path");
                  ("SCR", "getscr_path"); ("QPS", "getqps_path") ].
Proof.
  unfold TaskDependencies._ext2getvars. symmetry. apply elem_of_list_to_map.
  by apply (bool_decide_unpack _).
Qed.

Lemma ext2getvars_inj (tag tag' name : string) :
  TaskDependencies._ext2getvars !! tag = Some name ->
  TaskDependencies._ext2getvars !! tag' = Some name ->
  tag = tag'.
Proof.
  rewrite !ext2getvars_entries, !elem_of_cons, !elem_of_nil.
  intros H1 H2. destruct_or!; by simplify_eq.
Qed.

Lemma ext2getvars_nonempty (tag name : string) :
  TaskDependencies._ext2getvars !! tag = Some name -> tag <> "".
Proof. by intros H ->. Qed.

Section MoreDependencies.
Context {I J : Type} {InputI : Input.API I} {JobFileJ : JobFile.API J}.
Implicit Types (task producer : AbinitTask.Task I J) (dep : TaskDependencies.t I J).

Lemma get_varpaths_loop_known producer (tags : list string) (vars : gmap string string) :
  Forall (fun tag => is_Some (TaskDependencies._ext2getvars !! tag)) tags ->
  exists result,
    TaskDependencies.get_varpaths_loop producer tags vars = Ok result /\
    forall name path,
      result !! name = Some path <->
      (exists tag, tag ∈ tags /\ TaskDependencies._ext2getvars !! tag = Some name /\
                   AbinitTask.odata_path_from_ext producer tag = Ok path)
      \/ (vars !! name = Some path /\
          forall tag, tag ∈ tags -> TaskDependencies._ext2getvars !! tag <> Some name).
Proof.
  intros Hknown. revert vars.
  induction Hknown as [|tag tags [name Hname] Hknown IH]; intros vars.
  - exists vars. split; [done|]. intros n p. split.
    + intros Hn. right. split; [done|]. by intros tag ?%elem_of_nil.
    + by intros [(tag & ?%elem_of_nil & _)|[Hn _]].
  - simpl. rewrite Hname.
    pose proof (ext2getvars_nonempty _ _ Hname) as Hne.
    rewrite (odata_path_from_ext_normal producer tag Hne). simpl.
    destruct (IH (<[name := posixpath.join (AbinitTask.workdir producer)
                              ("output/out" +:+ with_underscore tag)]> vars))
      as (result & -> & Hresult).
    exists result. split; [done|]. intros n p. rewrite Hresult. clear Hresult. split.
    + intros [(tag' & Hin & Hn & Hp)|[Hn Hnone]].
      * left. exists tag'. split; [by right|done].
      * destruct (decide (name = n)) as [->|Hneq].
        -- rewrite lookup_insert_eq in Hn. injection Hn as <-.
           left. exists tag. split; [by left|]. split; [done|].
           by rewrite odata_path_from_ext_normal.
        -- rewrite lookup_insert_ne in Hn by done. right. split; [done|].
           intros tag' [->|Hin]%elem_of_cons; [congruence|by apply Hnone].
    + intros [(tag' & [->|Hin]%elem_of_cons & Hn & Hp)|[Hn Hnone]].
      * assert (name = n) as -> by congruence.
        rewrite odata_path_from_ext_normal in Hp by done. injection Hp as <-.
        destruct (decide (Exists (fun t => TaskDependencies._ext2getvars !! t = Some n) tags))
          as [Hex|Hnex].
        -- apply Exists_exists in Hex as (tag' & Hin & Hn').
           left. exists tag'. split; [done|]. split; [done|].
           rewrite (ext2getvars_inj tag' tag n Hn' Hname).
           by rewrite odata_path_from_ext_normal.
        -- right. split; [by rewrite lookup_insert_eq|].
           intros tag' Hin Hn'. apply Hnex, Exists_exists. eauto.
      * left. eauto.
      * right. split.
        -- rewrite lookup_insert_ne; [done|]. intros ->. by apply (Hnone tag); [left|].
        -- intros tag' Hin. apply Hnone. by right.
Qed.

Lemma get_varpaths_loop_unknown producer (known : list string) (bad : string)
    (rest : list string) (vars : gmap string string) :
  Forall (fun tag => is_Some (TaskDependencies._ext2getvars !! tag)) known ->
  TaskDependencies._ext2getvars !! bad = None ->
  TaskDependencies.get_varpaths_loop producer (known ++ bad :: rest) vars
  = Error (KeyError bad).
Proof.
  intros Hknown Hbad. revert vars.
  induction Hknown as [|tag tags [name Hname] Hknown IH]; intros vars; simpl.
  - by rewrite Hbad.
  - rewrite Hname, (odata_path_from_ext_normal producer tag) by by intros ->.
    simpl. apply IH.
Qed.

(** X2: [get_varpaths] resolves the requested tags when the table knows
    them all: the result binds exactly the variables of the requested tags,
    each to the output data path of the producer for its tag.  The first
    tag the table lacks makes it raise [KeyError] with that tag. *)
Theorem get_varpaths_resolves dep :
  (Forall (fun tag => is_Some (TaskDependencies._ext2getvars !! tag))
          (TaskDependencies.odata_required dep) ->
   exists vars,
     TaskDependencies.get_varpaths dep = Ok vars /\
     forall name path,
       vars !! name = Some path <->
       exists tag, tag ∈ TaskDependencies.odata_required dep /\
                   TaskDependencies._ext2getvars !! tag = Some name /\
                   AbinitTask.odata_path_from_ext (TaskDependencies.task dep) tag = Ok path) /\
  (forall known bad rest,
     TaskDependencies.odata_required dep = known ++ bad :: rest ->
     Forall (fun tag => is_Some (TaskDependencies._ext2getvars !! tag)) known ->
     TaskDependencies._ext2getvars !! bad = None ->
     TaskDependencies.get_varpaths dep = Error (KeyError bad)).
Proof.
  split.
  - intros Hknown.
    destruct (get_varpaths_loop_known (TaskDependencies.task dep) _ ∅ Hknown)
      as (vars & Hvars & Hlookup).
    exists vars. split; [done|]. intros name path. rewrite Hlookup. split.
    + by intros [?|[?%lookup_empty_Some _]].
    + by left.
  - intros known bad rest Htags Hknown Hbad. unfold TaskDependencies.get_varpaths.
    rewrite Htags. by apply get_varpaths_loop_unknown.
Qed.

End MoreDependencies.

Section Registration.
Context {I J : Type} {InputI : Input.API I} {JobFileJ : JobFile.API J}.
Implicit Types (work : Work.Work I J) (dep : TaskDependencies.t I J).

Lemma get_varpaths_loop_error (producer : AbinitTask.Task I J) (tags : list string)
    (vars : gmap string string) (e : PyExc) :
  TaskDependencies.get_varpaths_loop producer tags vars = Error e ->
  exists tag, tag ∈ tags /\ TaskDependencies._ext2getvars !! tag = None /\ e = KeyError tag.
Proof.
  revert vars. induction tags as [|tag tags IH]; intros vars; simpl; [done|].
  destruct (TaskDependencies._ext2getvars !! tag) as [name|] eqn:Hname.
  - rewrite (odata_path_from_ext_normal producer tag) by by intros ->.
    simpl. intros (tag' & Hin & Hnone & ->)%IH. exists tag'. split; [by right|done].
  - intros [= <-]. exists tag. split; [by left|done].
Qed.

Lemma update_varpaths_snoc (deps : list (TaskDependencies.t I J)) dep
    (varpaths : gmap string string) :
  Work.update_varpaths (deps ++ [dep]) varpaths
  = let? merged := Work.update_varpaths deps varpaths in
    let? vars := TaskDependencies.get_varpaths dep in
    Ok (vars ∪ merged).
Proof.
  revert varpaths. induction deps as [|d deps IH]; intros varpaths; simpl.
  - by destruct (TaskDependencies.get_varpaths dep).
  - destruct (TaskDependencies.get_varpaths d); [apply IH|done].
Qed.

Lemma update_varpaths_error (deps : list (TaskDependencies.t I J))
    (varpaths : gmap string string) (e : PyExc) :
  Work.update_varpaths deps varpaths = Error e ->
  exists dep tag,
    dep ∈ deps /\ tag ∈ TaskDependencies.odata_required dep /\
    TaskDependencies._ext2getvars !! tag = None /\ e = KeyError tag.
Proof.
  revert varpaths. induction deps as [|d deps IH]; intros varpaths; simpl; [done|].
  destruct (TaskDependencies.get_varpaths d) as [vars|e'] eqn:Hd; simpl.
  - intros (dep & tag & Hin & H)%IH. exists dep, tag. split; [by right|done].
  - intros [= <-]. apply get_varpaths_loop_error in Hd as (tag & Hin & Hnone & ->).
    exists d, tag. split; [by left|done].
Qed.

(** X3: when a task depends on several producers, the variables of a later
    descriptor take the place of the same variables of the earlier ones:
    the bindings of the last descriptor all reach the new task, and a name
    it does not bind keeps what the descriptors before it gave. *)
Theorem update_varpaths_last_wins (deps : list (TaskDependencies.t I J)) dep
    (merged vars : gmap string string) :
  Work.update_varpaths deps ∅ = Ok merged ->
  TaskDependencies.get_varpaths dep = Ok vars ->
  exists varpaths,
    Work.update_varpaths (deps ++ [dep]) ∅ = Ok varpaths /\
    forall name,
      varpaths !! name = match vars !! name with
                         | Some path => Some path
                         | None => merged !! name
                         end.
Proof.
  intros Hdeps Hdep. rewrite update_varpaths_snoc, Hdeps, Hdep. simpl.
  eexists. split; [done|]. intros name. rewrite lookup_union.
  by destruct (vars !! name), (merged !! name).
Qed.

(** X4: [register_input] only ever appends.  When it returns, the work has
    one more task, at the end, in the directory [task_N] of the work for
    the new length [N]; the task has no return code yet; the descriptor
    returned names that task and [N] and requests nothing; the dependencies
    are filed under [N].  When it raises, a descriptor asked for a tag the
    table lacks, the exception is the [KeyError] of that tag, and the work
    is as it was. *)
Theorem register_input_appends (cwd : string) (input : I)
    (depends : Work.Depends I J) work :
  match Work.register_input cwd input depends work with
  | Returns dep work' =>
      Work._tasks work' = Work._tasks work ++ [TaskDependencies.task dep] /\
      TaskDependencies.task_id dep = length (Work._tasks work') /\
      TaskDependencies.odata_required dep = [] /\
      AbinitTask.workdir (TaskDependencies.task dep)
        = posixpath.abspath cwd
            (posixpath.join (Work.workdir work)
                            ("task_" +:+ pretty (length (Work._tasks work'))))  /\
      AbinitTask._return_code (TaskDependencies.task dep) = None /\
      Work.workdir work' = Work.workdir work /\
      Work.user_options work' = Work.user_options work /\
      Work._deps work'
        = <[length (Work._tasks work') := Work.as_sequence depends]> (Work._deps work)
  | Raises e work' =>
      work' = work /\
      exists dep tag,
        dep ∈ Work.as_sequence depends /\
        tag ∈ TaskDependencies.odata_required dep /\
        TaskDependencies._ext2getvars !! tag = None /\
        e = KeyError tag
  end.
Proof.
  unfold Work.register_input, bind, get, observe, ret, put. simpl.
  destruct (Work.truthy depends).
  - destruct (Work.update_varpaths (Work.as_sequence depends) ∅) as [vars|e] eqn:Hvars;
      simpl.
    + rewrite length_app. simpl. by repeat split.
    + split; [done|]. by apply update_varpaths_error in Hvars.
  - simpl. rewrite length_app. simpl. by repeat split.
Qed.

End Registration.

Section Layout.
Context {I J : Type} {InputI : Input.API I} {JobFileJ : JobFile.API J}.
Implicit Types (task : AbinitTask.Task I J).

Lemma join_NoDup (directory : string) (names : list string) :
  Forall (fun name => posixpath.startswith_slash name = false) names ->
  NoDup names ->
  NoDup (posixpath.join directory <$> names).
Proof.
  intros Hrel Hnodup. induction Hnodup as [|name names Hnotin Hnodup IH]; simpl.
  - constructor.
  - apply Forall_cons in Hrel as [Hname Hrel]. constructor; [|by apply IH].
    intros (name' & Heq & Hin)%list_elem_of_fmap.
    apply join_relative_inj in Heq; [by subst|done|].
    by eapply Forall_forall in Hrel.
Qed.

(** X5: the files of a task.  A task constructed in a process with an
    absolute current directory keeps its input file, output file,
    files-list file, log file and stderr file directly in its working
    directory, under their fixed basenames, and hands the job script the
    paths of the files-list file, the log and stderr.  These five paths,
    the job script, the lock file, the two data directories and the prefix
    of the input data are ten different paths. *)
Theorem task_file_layout (cwd : string) (input : I) (workdir : string)
    (varpaths : option (gmap string string)) :
  posixpath.isabs cwd = true ->
  let task := AbinitTask.__init__ cwd input workdir varpaths in
  let here := posixpath.join (AbinitTask.workdir task) in
  AbinitTask.input_file task = File.mk "run.input" (AbinitTask.workdir task) (here "run.input") /\
  AbinitTask.output_file task = File.mk "run.output" (AbinitTask.workdir task) (here "run.output") /\
  AbinitTask.files_file task = File.mk "run.files" (AbinitTask.workdir task) (here "run.files") /\
  AbinitTask.log_file task = File.mk "log" (AbinitTask.workdir task) (here "log") /\
  AbinitTask.stderr_file task = File.mk "stderr" (AbinitTask.workdir task) (here "stderr") /\
  AbinitTask.jobfile task
    = JobFile.new (here "job.sh") (here "run.files") (here "log") (here "stderr") /\
  NoDup [ File.path (AbinitTask.input_file task);
          File.path (AbinitTask.output_file task);
          File.path (AbinitTask.files_file task);
          File.path (AbinitTask.log_file task);
          File.path (AbinitTask.stderr_file task);
          AbinitTask.jobfile_path task;
          AbinitTask.path_in_workdir task "__lock__";
          AbinitTask.outfiles_dir task;
          AbinitTask.tmpfiles_dir task;
          here "in" ].
Proof.
  intros Hcwd task here.
  assert (Hdir : posixpath.abspath cwd (AbinitTask.workdir task) = AbinitTask.workdir task).
  { subst task. unfold AbinitTask.__init__. destruct varpaths; simpl;
      by apply abspath_idempotent. }
  assert (Hfiles :
    AbinitTask.input_file task = File.mk "run.input" (AbinitTask.workdir task) (here "run.input") /\
    AbinitTask.output_file task = File.mk "run.output" (AbinitTask.workdir task) (here "run.output") /\
    AbinitTask.files_file task = File.mk "run.files" (AbinitTask.workdir task) (here "run.files") /\
    AbinitTask.log_file task = File.mk "log" (AbinitTask.workdir task) (here "log") /\
    AbinitTask.stderr_file task = File.mk "stderr" (AbinitTask.workdir task) (here "stderr")).
  { subst task here. unfold AbinitTask.__init__, File.__init__ in *.
    destruct varpaths; simpl in *; by rewrite Hdir. }
  destruct Hfiles as (Hin & Hout & Hff & Hlog & Herr).
  repeat (split; [done|]). split.
  - subst task here. unfold AbinitTask.__init__, File.__init__ in *.
    destruct varpaths; simpl in *; by rewrite Hdir.
  - rewrite Hin, Hout, Hff, Hlog, Herr. simpl.
    apply (join_NoDup (AbinitTask.workdir task)
             ["run.input"; "run.output"; "run.files"; "log"; "stderr"; "job.sh";
              "__lock__"; "output"; "temporary"; "in"]).
    + by repeat constructor.
    + by apply (bool_decide_unpack _).
Qed.

End Layout.

Section Comparisons.
Context {I J : Type}.
Implicit Types (a b c : Status.t I J).

(** X6: the comparisons of [Status] order the statuses by level alone:
    two statuses are equal exactly when they have the same level, whatever
    their tasks; of [<], [==] and [>] exactly one holds; [<=], [>=] and
    [!=] are the negations of [>], [<] and [==]; and [<] is transitive. *)
Theorem status_comparisons_total_order a b c :
  (Status.__eq__ a b = true <-> Status._level_str a = Status._level_str b) /\
  (Status.__lt__ a b = true /\ Status.__eq__ a b = false /\ Status.__gt__ a b = false
   \/ Status.__lt__ a b = false /\ Status.__eq__ a b = true /\ Status.__gt__ a b = false
   \/ Status.__lt__ a b = false /\ Status.__eq__ a b = false /\ Status.__gt__ a b = true) /\
  Status.__le__ a b = negb (Status.__gt__ a b) /\
  Status.__ge__ a b = negb (Status.__lt__ a b) /\
  Status.__ne__ a b = negb (Status.__eq__ a b) /\
  Status.__gt__ a b = Status.__lt__ b a /\
  (Status.__lt__ a b = true -> Status.__lt__ b c = true -> Status.__lt__ a c = true).
Proof.
  unfold Status.__eq__, Status.__lt__, Status.__gt__, Status.__le__, Status.__ge__,
    Status.__ne__, Status.rank.
  destruct a as [ta la], b as [tb lb], c as [tc lc]; simpl.
  split; [|split; [|split; [|split; [|split; [|split]]]]].
  - destruct la, lb; by vm_compute.
  - destruct la, lb; vm_compute; tauto.
  - destruct la, lb; by vm_compute.
  - destruct la, lb; by vm_compute.
  - done.
  - destruct la, lb; by vm_compute.
  - destruct la, lb, lc; by vm_compute.
Qed.

End Comparisons.

Section StatusTable.
Context {I J F : Type} {InputI : Input.API I} {JobFileJ : JobFile.API J}
        {FS : FileSystem F} {AU : AbinitUtils F}.
Implicit Types (task : AbinitTask.Task I J) (work : Work.Work I J) (s : F).

(** A status keeps the task it was built for. *)
Lemma status_init_task task s (status : Status.t I J) :
  Status.__init__ task s = Ok status -> Status._task status = task.
Proof.
  unfold Status.__init__.
  destruct (AbinitTask.iscomplete task s) as [[]|e]; simpl; [by intros [= <-]| |done].
  destruct (_ && _); [|by intros [= <-]].
  destruct (AbinitTask.read_mainlog_ewc task 5 s); simpl; [|done].
  destruct (read_lines _ s); simpl; [|done]. by intros [= <-].
Qed.

(** X7: how a status is decided.  Whenever [Status(task)] is built, its
    task is [task]; it is "completed" exactly when the output file passes
    the completeness check; "unstarted" exactly when the check fails and the
    output file or the log file is missing; and otherwise "error" exactly
    when the main output or the log reports an error or the stderr file has
    a line, "running" when none of the three does. *)
Theorem status_decision_table task s (status : Status.t I J) :
  Status.__init__ task s = Ok status ->
  let both := File.exists_ (AbinitTask.output_file task) s
              && File.exists_ (AbinitTask.log_file task) s in
  Status._task status = task /\
  (Status._level_str status = Status.completed <-> AbinitTask.iscomplete task s = Ok true) /\
  (Status._level_str status = Status.unstarted <->
   AbinitTask.iscomplete task s = Ok false /\ both = false) /\
  (Status._level_str status = Status.error \/ Status._level_str status = Status.running ->
   AbinitTask.iscomplete task s = Ok false /\ both = true /\
   exists main log lines,
     parse_ewc (File.path (AbinitTask.output_file task)) 5 s = Ok main /\
     parse_ewc (File.path (AbinitTask.log_file task)) 5 s = Ok log /\
     read_lines (File.path (AbinitTask.stderr_file task)) s = Ok lines /\
     (Status._level_str status = Status.running <->
      errors main = [] /\ errors log = [] /\ lines = [])).
Proof.
  intros Hinit both. subst both. unfold Status.__init__, AbinitTask.read_mainlog_ewc in Hinit.
  destruct (AbinitTask.iscomplete task s) as [[]|e]; simpl in Hinit; [| |done].
  { injection Hinit as <-. simpl.
    repeat split; try done; try (by intros [? ?]); try (by intros [?|?]);
      by destruct_or!. }
  destruct (File.exists_ (AbinitTask.output_file task) s
            && File.exists_ (AbinitTask.log_file task) s); simpl in *.
  2:{ injection Hinit as <-. simpl.
      repeat split; try done; try (by intros [? ?]); try (by intros [?|?]);
        by destruct_or!. }
  destruct (parse_ewc (File.path (AbinitTask.output_file task)) 5 s) as [main|e];
    simpl in Hinit; [|done].
  destruct (parse_ewc (File.path (AbinitTask.log_file task)) 5 s) as [log|e];
    simpl in Hinit; [|done].
  destruct (read_lines (File.path (AbinitTask.stderr_file task)) s) as [lines|e];
    simpl in Hinit; [|done].
  injection Hinit as <-. simpl.
  split; [done|]. split; [|split].
  - repeat case_bool_decide; simpl; split; done.
  - repeat case_bool_decide; simpl; split; try done; by intros [? ?].
  - intros _. split; [done|]. split; [done|]. exists main, log, lines.
    repeat split; try done;
      repeat case_bool_decide; simpl in *; try done; try tauto;
      by intros (? & ? & ?).
Qed.

(** The statuses of the tasks, one by one. *)
Lemma status_list_Forall2 (tasks : list (AbinitTask.Task I J)) s :
  match Work.status_list tasks s with
  | Ok statuses =>
      Forall2 (fun task status => Status.__init__ task s = Ok status) tasks statuses
  | Error e =>
      exists before task after,
        tasks = before ++ task :: after /\
        Forall (fun task => exists status, Status.__init__ task s = Ok status) before /\
        Status.__init__ task s = Error e
  end.
Proof.
  induction tasks as [|task tasks IH]; simpl; [constructor|].
  destruct (Status.__init__ task s) as [status|e] eqn:Hstatus; simpl.
  - destruct (Work.status_list tasks s) as [statuses|e]; simpl.
    + by constructor.
    + destruct IH as (before & task' & after & -> & Hbefore & Htask).
      exists (task :: before), task', after. split; [done|].
      split; [constructor; eauto|done].
  - exists [], task, tasks. by repeat split.
Qed.

(** X8: [get_status()] without [only_highest_rank] returns the statuses of
    the tasks in the order of registration, one for each task and each the
    status of its own task; it raises when the status of a task cannot be
    built, with the exception of the first such task. *)
Theorem get_status_in_order work s :
  match Work.get_status work false s with
  | Ok (inr statuses) =>
      Forall2 (fun task status =>
                 Status.__init__ task s = Ok status /\ Status._task status = task)
              (Work._tasks work) statuses
  | Ok (inl _) => False
  | Error e =>
      exists before task after,
        Work._tasks work = before ++ task :: after /\
        Forall (fun task => exists status, Status.__init__ task s = Ok status) before /\
        Status.__init__ task s = Error e
  end.
Proof.
  unfold Work.get_status. pose proof (status_list_Forall2 (Work._tasks work) s) as Hlist.
  destruct (Work.status_list (Work._tasks work) s) as [statuses|e]; simpl; [|done].
  eapply Forall2_impl; [done|]. intros task status Hinit. split; [done|].
  by apply (status_init_task task s status Hinit).
Qed.

End StatusTable.


Section HighestRank.
Context {I J F : Type} {InputI : Input.API I} {JobFileJ : JobFile.API J}
        {FS : FileSystem F} {AU : AbinitUtils F}.
Implicit Types (work : Work.Work I J) (s : F).


End HighestRank.

(** ** Building, running and showing *)

Section BuildMore.
Context {I J F : Type} {InputI : Input.API I} {JobFileJ : JobFile.API J}
        {FS : FileSystem F} {LAWS : FileSystemLaws F}.
Implicit Types (task : AbinitTask.Task I J) (work : Work.Work I J) (s : F) (m : Py F unit).

Lemma ret_settling : settling (ret (S:=F) tt).
Proof.
  split.
  - intros s. apply preserved_refl.
  - by intros s u s1 s2 _ _.
  - by intros s e s1.
Qed.

Lemma build_all_settling (tasks : list (AbinitTask.Task I J)) :
  settling (fold_right (fun task rest => let* _ := AbinitTask.build task in rest)
                       (ret tt) tasks).
Proof.
  induction tasks as [|task tasks IH]; simpl.
  - apply ret_settling.
  - apply bind_settling; [apply build_settling|done].
Qed.

Lemma work_build_settling work : settling (Work.build work).
Proof.
  unfold Work.build. apply bind_settling; [apply makedirs_settling|apply build_all_settling].
Qed.

(** X10: [Work.build] can be repeated like the [build] of a task: a second
    call ends as the first did and leaves the store as the first left it,
    and whatever existed before the first call is still what it was. *)
Theorem work_build_idempotent work s :
  Work.build work (final_state (Work.build work s)) = Work.build work s /\
  forall path n,
    stat path s = Some n ->
    stat path (final_state (Work.build work s)) = Some n.
Proof.
  destruct (work_build_settling work) as [P R E]. split; [|apply P].
  destruct (Work.build work s) as [[] s1|e s1] eqn:Hb; simpl.
  - apply (R s () s1 s1 Hb), preserved_refl.
  - by apply (E s).
Qed.

Lemma ensures_unless_exists (path : string) m :
  (forall s u s', m s = Returns u s' -> is_Some (stat path s')) ->
  ensures path (unless_exists path m).
Proof.
  intros Hm s u s'. unfold unless_exists, bind, gets, when, ret, os_path_exists.
  case_bool_decide as Hthere; simpl.
  - by intros [= _ <-].
  - apply Hm.
Qed.

Lemma ensures_makedirs (path : string) : ensures path (unless_exists path (makedirs path)).
Proof.
  apply ensures_unless_exists. intros s u s' Hm.
  erewrite makedirs_creates by done. eauto.
Qed.

Lemma ensures_write_file (path text : string) :
  ensures path (unless_exists path (write_file path text)).
Proof.
  apply ensures_unless_exists. intros s u s' Hm.
  erewrite write_file_creates by done. eauto.
Qed.

Lemma ensures_bind_l (path : string) m1 m2 :
  ensures path m1 -> settling m2 -> ensures path (let* _ := m1 in m2).
Proof.
  intros H1 [P2 _ _] s u s'. unfold bind.
  destruct (m1 s) as [u1 s1|e s1] eqn:Hm1; [|done]. intros Hm2.
  destruct (H1 s u1 s1 Hm1) as [n Hn].
  specialize (P2 s1). rewrite Hm2 in P2. exists n. by apply P2.
Qed.

Lemma ensures_bind_r (path : string) m1 m2 :
  ensures path m2 -> ensures path (let* _ := m1 in m2).
Proof.
  intros H2 s u s'. unfold bind. destruct (m1 s) as [u1 s1|e s1]; [|done]. apply H2.
Qed.

Lemma build_ensures task (path : string) :
  path ∈ [ AbinitTask.workdir task; AbinitTask.outfiles_dir task;
           AbinitTask.tmpfiles_dir task; File.path (AbinitTask.input_file task);
           File.path (AbinitTask.files_file task); AbinitTask.jobfile_path task ] ->
  ensures path (AbinitTask.build task).
Proof.
  intros Hpath. unfold AbinitTask.build, File.write.
  repeat (apply elem_of_cons in Hpath as [->|Hpath];
          [ first [ apply ensures_makedirs | apply ensures_write_file
                  | apply ensures_bind_l;
                    [first [apply ensures_makedirs | apply ensures_write_file]
                    |repeat apply bind_settling;
                       first [apply makedirs_settling | apply write_file_settling]] ]
          | first [apply ensures_bind_r | by apply elem_of_nil in Hpath] ]).
Qed.

Lemma build_all_ensures (tasks : list (AbinitTask.Task I J)) task (path : string) :
  task ∈ tasks ->
  ensures path (AbinitTask.build task) ->
  ensures path (fold_right (fun task rest => let* _ := AbinitTask.build task in rest)
                           (ret tt) tasks).
Proof.
  intros Hin Hpath. induction tasks as [|task' tasks IH]; [by apply elem_of_nil in Hin|].
  simpl. apply elem_of_cons in Hin as [->|Hin].
  - apply ensures_bind_l; [done|apply build_all_settling].
  - by apply ensures_bind_r, IH.
Qed.

(** X11: what a build that returns has made sure of.  After [build] of a
    task the working directory, the two data directories, the input file,
    the files-list file and the job script all exist; after [build] of a
    work the directory of the work exists and so do these six paths of
    every task. *)
Theorem build_returns_with_everything_there :
  (forall task s u s' path,
     AbinitTask.build task s = Returns u s' ->
     path ∈ [ AbinitTask.workdir task; AbinitTask.outfiles_dir task;
              AbinitTask.tmpfiles_dir task; File.path (AbinitTask.input_file task);
              File.path (AbinitTask.files_file task); AbinitTask.jobfile_path task ] ->
     is_Some (stat path s')) /\
  (forall work s u s',
     Work.build work s = Returns u s' ->
     is_Some (stat (Work.workdir work) s') /\
     forall task path,
       task ∈ Work._tasks work ->
       path ∈ [ AbinitTask.workdir task; AbinitTask.outfiles_dir task;
                AbinitTask.tmpfiles_dir task; File.path (AbinitTask.input_file task);
                File.path (AbinitTask.files_file task); AbinitTask.jobfile_path task ] ->
       is_Some (stat path s')).
Proof.
  split.
  - intros task s u s' path Hbuild Hpath. by eapply build_ensures.
  - intros work s u s' Hbuild. split.
    + eapply (ensures_bind_l (Work.workdir work)); [apply ensures_makedirs| |exact Hbuild].
      apply build_all_settling.
    + intros task path Htask Hpath.
      eapply (ensures_bind_r path); [|exact Hbuild].
      eapply build_all_ensures; [done|by apply build_ensures].
Qed.

End BuildMore.

Section RunMore.
Context {I J F : Type} {InputI : Input.API I} {JobFileJ : JobFile.API J}
        {FS : FileSystem F} {SP : Subprocess F} {TH : Scheduler}.
Implicit Types (task : AbinitTask.Task I J) (work : Work.Work I J) (w : World F).

(** What [run] leaves of the task object. *)
Lemma run_same_task (hooks : AbinitTask.Hooks I J F) verbose task w :
  same_task task (fst (final_state (AbinitTask.run hooks verbose (task, w)))).
Proof.
  destruct verbose; [apply same_task_refl|]. rewrite run_not_verbose. simpl.
  destruct (FileLock.acquire _ w) as [[] w1|e w1]; [|apply same_task_refl].
  destruct (AbinitTask.setup hooks task w1) as [[] w2|e w2]; [|apply same_task_refl].
  destruct (subprocess_call _ _ _ w2) as [c w3|e w3]; [|apply same_task_refl].
  destruct (c =? 0).
  - destruct (AbinitTask.teardown hooks _ w3) as [[] w4|e w4]; by eexists.
  - by eexists.
Qed.

Lemma run_returns_recorded (hooks : AbinitTask.Hooks I J F) verbose task w code task' w' :
  AbinitTask.run hooks verbose (task, w) = Returns code (task', w') ->
  AbinitTask._return_code task' = Some code.
Proof.
  destruct verbose; [done|]. rewrite run_not_verbose. simpl.
  destruct (FileLock.acquire _ w) as [[] w1|e w1]; [|done].
  destruct (AbinitTask.setup hooks task w1) as [[] w2|e w2]; [|done].
  destruct (subprocess_call _ _ _ w2) as [c w3|e w3]; [|done].
  destruct (c =? 0).
  - destruct (AbinitTask.teardown hooks _ w3) as [[] w4|e w4]; [|done].
    by intros [= <- <- <-].
  - by intros [= <- <- <-].
Qed.


(** X12: [run] changes nothing of the task object but its return code
    (the hooks are given the task and act on the world; those of the class
    do nothing).  When it returns, the code it returns is on record.  When
    it raises, the return code is what it was before, with one exception:
    the lock was free, the setup hook returned, the job exited with 0 and
    it is the teardown hook that raised; then 0 is on record. *)
Theorem run_only_sets_return_code (hooks : AbinitTask.Hooks I J F) verbose task w :
  match AbinitTask.run hooks verbose (task, w) with
  | Returns code (task', _) =>
      same_task task task' /\ AbinitTask._return_code task' = Some code
  | Raises e (task', w') =>
      same_task task task' /\
      (AbinitTask._return_code task' = AbinitTask._return_code task
       \/ exists w1 w2 w3,
            verbose = false /\
            FileLock.acquire (AbinitTask.path_in_workdir task "__lock__") w
              = Returns tt w1 /\
            AbinitTask.setup hooks task w1 = Returns tt w2 /\
            subprocess_call (JobFile.shell (AbinitTask.jobfile task))
                            (JobFile.path (AbinitTask.jobfile task))
                            (AbinitTask.workdir task) w2 = Returns 0 w3 /\
            AbinitTask.teardown hooks task' w3 = Raises e w' /\
            AbinitTask._return_code task' = Some 0)
  end.
Proof.
  pose proof (run_same_task hooks verbose task w) as Hsame.
  pose proof (run_returns_recorded hooks verbose task w) as Hcode.
  destruct (AbinitTask.run hooks verbose (task, w)) as [c [task' w']|e [task' w']] eqn:Hrun;
    simpl in Hsame; (split; [done|]); [by eapply Hcode|].
  destruct verbose; [injection Hrun as _ <- _; by left|].
  rewrite run_not_verbose in Hrun. simpl in Hrun.
  destruct (FileLock.acquire _ w) as [[] w1|e1 w1] eqn:Hacq;
    [|injection Hrun as _ <- _; by left].
  destruct (AbinitTask.setup hooks task w1) as [[] w2|e2 w2] eqn:Hsetup;
    [|injection Hrun as _ <- _; by left].
  destruct (subprocess_call _ _ _ w2) as [c w3|e3 w3] eqn:Hcall;
    [|injection Hrun as _ <- _; by left].
  destruct (Z.eqb_spec c 0) as [->|Hc]; [|done].
  destruct (AbinitTask.teardown hooks _ w3) as [[] w4|e4 w4] eqn:Hteardown; [done|].
  injection Hrun as <- <- <-. right. by exists w1, w2, w3.
Qed.



(** X14: an exit code other than 0 is returned, not raised, and keeps the
    teardown hook from running: once the lock is taken and the setup hook
    has returned, a job that exits with such a code makes [run] return it,
    and a [run] that returns such a code returns the same, in the same
    state, whatever the teardown hook is. *)
Theorem run_nonzero_exit_skips_teardown
    (setup : AbinitTask.Task I J -> Py (World F) unit)
    (teardown teardown' : AbinitTask.Task I J -> Py (World F) unit) task w :
  (forall u1 w1 u2 w2 code w3,
     FileLock.acquire (AbinitTask.path_in_workdir task "__lock__") w = Returns u1 w1 ->
     setup task w1 = Returns u2 w2 ->
     subprocess_call (JobFile.shell (AbinitTask.jobfile task))
                     (JobFile.path (AbinitTask.jobfile task))
                     (AbinitTask.workdir task) w2 = Returns code w3 ->
     code <> 0 ->
     exists state,
       AbinitTask.run (AbinitTask.mkHooks setup teardown) false (task, w)
       = Returns code state) /\
  (forall code state,
     AbinitTask.run (AbinitTask.mkHooks setup teardown) false (task, w)
     = Returns code state ->
     code <> 0 ->
     AbinitTask.run (AbinitTask.mkHooks setup teardown') false (task, w)
     = Returns code state).
Proof.
  rewrite !run_not_verbose. simpl. split.
  - intros u1 w1 u2 w2 code w3 -> -> -> Hcode.
    apply Z.eqb_neq in Hcode as ->. destruct u1, u2. eauto.
  - intros code state.
    destruct (FileLock.acquire _ w) as [[] w1|e1 w1]; [|done].
    destruct (setup task w1) as [[] w2|e2 w2]; [|done].
    destruct (subprocess_call _ _ _ w2) as [c w3|e3 w3]; [|done].
    destruct (Z.eqb_spec c 0) as [->|Hc]; [|done].
    destruct (teardown _ w3) as [[] w4|e4 w4]; [|done].
    by intros [= <- _].
Qed.

(** X15: lock contention.  When the lock file of a task is held, [run]
    raises the exception of the lock and nothing else happens: no hook
    runs, no job is launched, the task and the world are as they were.
    [Work.start] does the same on the lock file of the work, whatever the
    number of threads. *)
Theorem held_lock_stops_run_and_start
    (hooks : Work.Hooks I J F) (task_hooks : AbinitTask.Hooks I J F)
    num_pythreads verbose :
  (forall task w,
     AbinitTask.path_in_workdir task "__lock__" ∈ held w ->
     AbinitTask.run task_hooks false (task, w)
     = Raises (FileLockException (AbinitTask.path_in_workdir task "__lock__")) (task, w)) /\
  (forall work w,
     Work.path_in_workdir work "__lock__" ∈ held w ->
     Work.start hooks task_hooks num_pythreads verbose (work, w)
     = Completes (Raises (FileLockException (Work.path_in_workdir work "__lock__"))
                         (work, w))).
Proof.
  split.
  - intros task w Hheld. rewrite run_not_verbose. simpl.
    unfold FileLock.acquire. by rewrite decide_True.
  - intros work w Hheld. rewrite start_steps. simpl.
    unfold FileLock.acquire. by rewrite decide_True.
Qed.

(** X16: [run] with [verbose] never gets to the job: its first statement
    reads [self.input_path], which no task has, so it raises
    [AttributeError] with the task and the world untouched and the lock not
    taken.  [Work.start] passes [verbose] on to the tasks.  For a work that
    has tasks, once the lock of the work is taken and the setup hook has
    returned: with one thread [start] raises the same exception; with any
    other number of threads the exception ends the worker threads and
    [start] waits for ever.  In both cases the lock of the work stays
    held. *)
Theorem verbose_run_raises_AttributeError
    (hooks : Work.Hooks I J F) (task_hooks : AbinitTask.Hooks I J F) num_pythreads :
  (forall task w,
     AbinitTask.run task_hooks true (task, w)
     = Raises (AttributeError "input_path") (task, w)) /\
  (forall work w u w' (n : Z),
     Work._tasks work <> [] ->
     Work.path_in_workdir work "__lock__" ∉ held w ->
     Work.setup hooks work
       (mkWorld (fs w) ({[Work.path_in_workdir work "__lock__"]} ∪ held w))
     = Returns u w' ->
     int (default (KInt 1) num_pythreads) = Ok n ->
     Work.start hooks task_hooks num_pythreads true (work, w)
     = if n =? 1 then Completes (Raises (AttributeError "input_path") (work, w'))
       else Waits (work, w')).
Proof.
  split; [done|].
  intros work w u w' n Htasks Hfree Hsetup Hint. rewrite start_steps. simpl.
  unfold FileLock.acquire. rewrite decide_False by done. rewrite Hsetup.
  destruct (Z.eqb_spec n 1) as [->|Hn].
  - rewrite run_one_thread by done.
    destruct (Work._tasks work) as [|task tasks] eqn:Ht; [done|]. simpl.
    unfold Work.set_tasks. rewrite <- Ht. by destruct work.
  - by rewrite (run_threads_verbose _ _ n).
Qed.

(** X24: the threaded [Work.run] ([num_pythreads] other than 1), under any
    scheduler.  It never raises: it returns, and then every task has a
    return code, or it waits for ever.  In both cases the work has the same
    tasks, in the same order, up to their return codes, and the same
    directory, options and dependencies.  A work without tasks returns at
    once; a work with tasks waits for ever, with nothing changed, when the
    number of threads is below 1 (no worker is started) and when [verbose]
    is set (no worker gets past the first statement of a run). *)
Theorem threaded_run_returns_or_waits (task_hooks : AbinitTask.Hooks I J F)
    num_pythreads verbose (n : Z) work w :
  int (default (KInt 1) num_pythreads) = Ok n ->
  n <> 1 ->
  (exists work' w',
     (Work.run task_hooks num_pythreads verbose (work, w)
        = Completes (Returns tt (work', w')) /\
      Forall (fun task => is_Some (AbinitTask._return_code task)) (Work._tasks work')
      \/ Work.run task_hooks num_pythreads verbose (work, w) = Waits (work', w')) /\
     Forall2 same_task (Work._tasks work) (Work._tasks work') /\
     Work.workdir work' = Work.workdir work /\
     Work.user_options work' = Work.user_options work /\
     Work._deps work' = Work._deps work) /\
  (Work._tasks work = [] ->
   Work.run task_hooks num_pythreads verbose (work, w) = Completes (Returns tt (work, w))) /\
  (Work._tasks work <> [] -> n < 1 \/ verbose = true ->
   Work.run task_hooks num_pythreads verbose (work, w) = Waits (work, w)).
Proof.
  intros Hint Hn. split; [by eapply run_threads_outcome|].
  destruct (run_threads task_hooks _ verbose n work w Hint Hn) as (c & Hc & Hrun).
  rewrite join_unfold in Hc. unfold starting_pool, Work.movable in Hc. simpl in Hc. split.
  - intros Hnil. rewrite Hnil in Hc. simpl in Hc. injection Hc as <-. exact Hrun.
  - intros Htasks [Hnone| ->]; [|by eapply run_threads_verbose].
    destruct (Work._tasks work) as [|t ts] eqn:Ht; [done|].
    replace (Z.to_nat n) with 0%nat in Hc by lia. simpl in Hc.
    injection Hc as <-. exact Hrun.
Qed.

End RunMore.

Section SingleTask.
Context {I J F : Type} {InputI : Input.API I} {JobFileJ : JobFile.API J}
        {FS : FileSystem F} {SP : Subprocess F} {TH : Scheduler}.
Implicit Types (task : AbinitTask.Task I J) (w : World F) (work : Work.Work I J)
  (pool : Work.Pool) (worker : Work.Worker) (s : Work.Work I J * World F).

(** More steps than [run] has left change nothing. *)
Lemma run_from_more (hooks : AbinitTask.Hooks I J F) verbose (n : nat) at_ task w :
  (AbinitTask.steps_left at_ <= S n)%nat ->
  AbinitTask.run_from (S n) hooks verbose at_ (task, w)
  = AbinitTask.run_from n hooks verbose at_ (task, w).
Proof.
  revert at_ task w. induction n as [|n IH]; intros at_ task w Hleft.
  - simpl. unfold bind.
    pose proof (run_step_steps_left hooks verbose at_ task w) as Hless.
    destruct (AbinitTask.run_step _ _ _ _) as [[at'|code] [task' w']|e s']; [|done..].
    specialize (Hless at' _ eq_refl). destruct at'; simpl in *; lia.
  - change (AbinitTask.run_from (S (S n)) hooks verbose at_ (task, w))
      with (bind (AbinitTask.run_step hooks verbose at_)
                 (fun next => match next with
                              | inr code => ret code
                              | inl at_ => AbinitTask.run_from (S n) hooks verbose at_
                              end) (task, w)).
    change (AbinitTask.run_from (S n) hooks verbose at_ (task, w))
      with (bind (AbinitTask.run_step hooks verbose at_)
                 (fun next => match next with
                              | inr code => ret code
                              | inl at_ => AbinitTask.run_from n hooks verbose at_
                              end) (task, w)).
    unfold bind.
    pose proof (run_step_steps_left hooks verbose at_ task w) as Hless.
    destruct (AbinitTask.run_step _ _ _ _) as [[at'|code] [task' w']|e s']; [|done..].
    specialize (Hless at' _ eq_refl). apply IH. lia.
Qed.

(** [run] from a point: the next step, then [run] from the point reached. *)
Lemma run_from_step (hooks : AbinitTask.Hooks I J F) verbose at_ task w :
  AbinitTask.run_from 4 hooks verbose at_ (task, w) =
  match AbinitTask.run_step hooks verbose at_ (task, w) with
  | Returns (inl at') s' => AbinitTask.run_from 4 hooks verbose at' s'
  | Returns (inr code) s' => Returns code s'
  | Raises e s' => Raises e s'
  end.
Proof.
  change (AbinitTask.run_from 4 hooks verbose at_ (task, w))
    with (bind (AbinitTask.run_step hooks verbose at_)
               (fun next => match next with
                            | inr code => ret code
                            | inl at_ => AbinitTask.run_from 3 hooks verbose at_
                            end) (task, w)).
  unfold bind.
  pose proof (run_step_steps_left hooks verbose at_ task w) as Hless.
  destruct (AbinitTask.run_step _ _ _ _) as [[at'|code] [task' w']|e s']; [|done..].
  specialize (Hless at' _ eq_refl). symmetry. apply run_from_more.
  destruct at_, at'; simpl in *; lia.
Qed.

(** The threaded [run] of a work with a single task, followed through the
    run of that task. *)
Lemma single_task_pool (task_hooks : AbinitTask.Hooks I J F) verbose
    (m : nat) work task w (fuel moves : nat) pool s c :
  let R := AbinitTask.run task_hooks verbose (task, w) in
  let P pool s :=
    exists task_cur w_cur,
      s = (Work.set_tasks work [task_cur], w_cur) /\
      ((Work.queue pool = [0%nat] /\ Work.unfinished_tasks pool = 1%nat /\
        Work.workers pool = replicate (S m) Work.Getting /\
        task_cur = task /\ w_cur = w)
       \/ (Work.queue pool = [] /\ Work.unfinished_tasks pool = 1%nat /\
           exists (i : nat) at_,
             (i < S m)%nat /\
             Work.workers pool
               = <[i := Work.Calling 0 at_]> (replicate (S m) Work.Getting) /\
             AbinitTask.run_from 4 task_hooks verbose at_ (task_cur, w_cur) = R)
       \/ (Work.queue pool = [] /\ Work.unfinished_tasks pool = 1%nat /\
           exists (i : nat) code,
             (i < S m)%nat /\
             Work.workers pool = <[i := Work.Finishing]> (replicate (S m) Work.Getting) /\
             R = Returns code (task_cur, w_cur))
       \/ (Work.queue pool = [] /\ Work.unfinished_tasks pool = 1%nat /\
           exists (i : nat) e,
             (i < S m)%nat /\
             Work.workers pool = <[i := Work.Dead]> (replicate (S m) Work.Getting) /\
             R = Raises e (task_cur, w_cur))
       \/ (Work.queue pool = [] /\ Work.unfinished_tasks pool = 0%nat /\
           Work.workers pool = replicate (S m) Work.Getting /\
           exists code, R = Returns code (task_cur, w_cur))) in
  P pool s ->
  Work.join task_hooks verbose fuel moves pool s = Some c ->
  match R with
  | Returns _ (task', w') => c = Completes (Returns tt (Work.set_tasks work [task'], w'))
  | Raises _ (task', w') => c = Waits (Work.set_tasks work [task'], w')
  end.
Proof.
  intros R P HP Hjoin.
  eapply (join_invariant P) in Hjoin; [|clear pool s HP Hjoin|exact HP].
  - destruct Hjoin as (pool' & s' & (task_cur & w_cur & -> & Hcases) & Hend).
    destruct Hcases as [(Hq & Hun & Hws & _)|[(Hq & Hun & i & at_ & Hi & Hws & _)
      |[(Hq & Hun & i & code & Hi & Hws & _)|[(Hq & Hun & i & e & Hi & Hws & HR)
      |(Hq & Hun & Hws & code & HR)]]]];
      destruct Hend as [[Hzero ->]|(Hleft & Hstuck & ->)]; try lia.
    + apply movable_nil in Hstuck. rewrite Hws in Hstuck.
      apply Forall_cons_1 in Hstuck as [Hstuck _]. simpl in Hstuck.
      rewrite Hq in Hstuck. by case_bool_decide.
    + apply movable_nil in Hstuck. rewrite Hws in Hstuck.
      rewrite Forall_lookup in Hstuck.
      by specialize (Hstuck i (Work.Calling 0 at_)
                       (list_lookup_insert_eq _ _ _ ltac:(by rewrite length_replicate))).
    + apply movable_nil in Hstuck. rewrite Hws in Hstuck.
      rewrite Forall_lookup in Hstuck.
      by specialize (Hstuck i Work.Finishing
                       (list_lookup_insert_eq _ _ _ ltac:(by rewrite length_replicate))).
    + by rewrite HR.
    + by rewrite HR.
  - intros i pool s (task_cur & w_cur & -> & Hcases) (worker & Hi & Hmove)%elem_of_movable.
    unfold Work.move. rewrite Hi.
    destruct Hcases as [(Hq & Hun & Hws & -> & ->)|[(Hq & Hun & i' & at_ & Hi' & Hws & HR)
      |[(Hq & Hun & i' & code & Hi' & Hws & HR)|[(Hq & Hun & i' & e & Hi' & Hws & HR)
      |(Hq & Hun & Hws & code & HR)]]]].
    + rewrite Hws in Hi. apply lookup_replicate in Hi as [-> Hi]. rewrite Hq. simpl.
      exists task, w. split; [done|]. right; left. split; [done|]. split; [done|].
      exists i, AbinitTask.AtAcquire. split; [done|]. split; [by rewrite Hws|].
      apply run_in_steps.
    + rewrite Hws in Hi.
      destruct (decide (i' = i)) as [->|Hne];
        [|rewrite list_lookup_insert_ne in Hi by done;
          apply lookup_replicate in Hi as [-> _]; simpl in Hmove; rewrite Hq in Hmove;
          by case_bool_decide].
      rewrite list_lookup_insert_eq in Hi by by rewrite length_replicate.
      injection Hi as <-. simpl. rewrite run_from_step in HR.
      destruct (AbinitTask.run_step _ _ _ _) as [[at'|code] [task' w']|e [task' w']]; simpl.
      * exists task', w'. split; [done|]. right; left. split; [done|]. split; [done|].
        exists i, at'. split; [done|]. split; [|done].
        simpl. by rewrite Hws, list_insert_insert_eq.
      * exists task', w'. split; [done|]. right; right; left.
        split; [done|]. split; [done|].
        exists i, code. split; [done|]. split; [|done].
        simpl. by rewrite Hws, list_insert_insert_eq.
      * exists task', w'. split; [done|]. right; right; right; left.
        split; [done|]. split; [done|].
        exists i, e. split; [done|]. split; [|done].
        simpl. by rewrite Hws, list_insert_insert_eq.
    + rewrite Hws in Hi.
      destruct (decide (i' = i)) as [->|Hne];
        [|rewrite list_lookup_insert_ne in Hi by done;
          apply lookup_replicate in Hi as [-> _]; simpl in Hmove; rewrite Hq in Hmove;
          by case_bool_decide].
      rewrite list_lookup_insert_eq in Hi by by rewrite length_replicate.
      injection Hi as <-. simpl.
      exists task_cur, w_cur. split; [done|]. right; right; right; right.
      split; [done|]. split; [by rewrite Hun|]. split; [|by exists code].
      rewrite Hws, list_insert_insert_eq. apply list_insert_id.
      by apply lookup_replicate.
    + rewrite Hws in Hi.
      destruct (decide (i' = i)) as [->|Hne].
      * rewrite list_lookup_insert_eq in Hi by by rewrite length_replicate.
        by injection Hi as <-.
      * rewrite list_lookup_insert_ne in Hi by done.
        apply lookup_replicate in Hi as [-> _]. simpl in Hmove. rewrite Hq in Hmove.
        by case_bool_decide.
    + rewrite Hws in Hi. apply lookup_replicate in Hi as [-> _]. simpl in Hmove. rewrite Hq in Hmove.
      by case_bool_decide.
Qed.

(** X25: the threaded [Work.run] of a work with a single task and two or
    more threads, under any scheduler, ends as the run of the task ends:
    when [AbinitTask.run] returns, [Work.run] returns, with the task and
    the world as that run left them; when it raises, the exception is lost
    with the worker thread, and [Work.run] waits for ever in the state the
    failed run left. *)
Theorem threaded_run_loses_exception (task_hooks : AbinitTask.Hooks I J F) num_pythreads verbose
    (n : Z) work task w :
  int (default (KInt 1) num_pythreads) = Ok n ->
  1 < n ->
  Work._tasks work = [task] ->
  Work.run task_hooks num_pythreads verbose (work, w) =
  match AbinitTask.run task_hooks verbose (task, w) with
  | Returns _ (task', w') => Completes (Returns tt (Work.set_tasks work [task'], w'))
  | Raises _ (task', w') => Waits (Work.set_tasks work [task'], w')
  end.
Proof.
  intros Hint Hn Htasks.
  destruct (run_threads task_hooks _ verbose n work w Hint ltac:(lia)) as (c & Hc & ->).
  destruct (Z.to_nat n) as [|m] eqn:Hm; [lia|].
  eapply (single_task_pool task_hooks verbose m work task w) in Hc.
  - by destruct (AbinitTask.run _ _ _) as [code [task' w']|e [task' w']].
  - exists task, w. split.
    + unfold Work.set_tasks. rewrite <- Htasks. by destruct work.
    + left. unfold starting_pool. rewrite Htasks, Hm. by repeat split.
Qed.

End SingleTask.

Section FileMore.
Context {F : Type} {FS : FileSystem F} {LAWS : FileSystemLaws F}.

(** X17: [File.writelines] never writes its lines.  It opens the file for
    writing and calls [f.writelines()] without the lines, so it raises
    whatever the lines are: either the exception of an [open] that failed,
    with the store untouched, or [TypeError], with the file left empty and
    everything else in the store as it was. *)
Theorem file_writelines_raises (file : File.t) (lines : list string) (s : F) :
  File.writelines file lines s = File.writelines file [] s /\
  exists e s',
    File.writelines file lines s = Raises e s' /\
    (write_file (File.path file) "" s = Raises e s /\ s' = s
     \/ e = TypeError "writelines() takes exactly one argument (0 given)" /\
        stat (File.path file) s' = Some (Regular "") /\
        forall path, path <> File.path file -> stat path s' = stat path s).
Proof.
  split; [done|]. unfold File.writelines, bind, raise.
  destruct (write_file (File.path file) "" s) as [u s'|e s'] eqn:Hwrite.
  - exists (TypeError "writelines() takes exactly one argument (0 given)"), s'.
    split; [done|]. right. split; [done|]. split.
    + by eapply write_file_creates.
    + intros path Hpath. by eapply write_file_frame.
  - exists e, s'. split; [done|]. left.
    apply write_file_raises in Hwrite as Hs. by subst.
Qed.

End FileMore.

Section Show.
Context {I J : Type}.

(** X18: [Status.show] works on a stream with colours only.  There it writes
    one line, the name of the task, a colon and the coloured level; on a
    stream without colours the level is replaced by the builtin [str]
    itself, and adding it to the text raises [TypeError] before anything is
    written. *)
Theorem status_show_needs_colours (str_colorizer : string -> string -> string)
    (status : Status.t I J) :
  Status.show false str_colorizer status
  = Error (TypeError "cannot concatenate 'str' and 'type' objects") /\
  Status.show true str_colorizer status
  = Ok (AbinitTask.name (Status._task status) +:+ ": "
        +:+ str_colorizer (Status.level_name (Status._level_str status))
                          (Status._status2txtcolor (Status._level_str status))
        +:+ String "010" "").
Proof.
  split; [done|]. unfold Status.show. simpl. by rewrite <- !append_assoc.
Qed.

End Show.

Lemma endswith_slash_append (a b : string) :
  b <> "" -> posixpath.endswith_slash (a +:+ b) = posixpath.endswith_slash b.
Proof.
  intros Hb. induction a as [|c a IH]; [done|].
  rewrite append_cons. simpl. rewrite IH.
  destruct (a +:+ b) eqn:Hab; [|done].
  destruct a; [by subst|done].
Qed.

(** A name in a subdirectory: joining twice is joining once. *)
Lemma join_join (a dir name : string) :
  dir <> "" ->
  posixpath.startswith_slash dir = false ->
  posixpath.endswith_slash dir = false ->
  posixpath.startswith_slash name = false ->
  posixpath.join (posixpath.join a dir) name = posixpath.join a (dir +:+ "/" +:+ name).
Proof.
  intros Hne Hdir Hend Hname.
  assert (Hrel : posixpath.startswith_slash (dir +:+ "/" +:+ name) = false).
  { destruct dir; [done|]. by rewrite append_cons. }
  unfold posixpath.join at 1. rewrite Hname.
  assert (Hjoin : exists stem, posixpath.join a dir = stem +:+ dir).
  { by apply join_relative_suffix. }
  destruct Hjoin as [stem Hjoin].
  rewrite bool_decide_eq_false_2.
  2:{ rewrite Hjoin. intros Heq. apply (f_equal String.length) in Heq.
      rewrite length_append in Heq. destruct dir; [done|]. simpl in Heq. lia. }
  rewrite Hjoin at 1. rewrite endswith_slash_append, Hend by done. simpl.
  unfold posixpath.join. rewrite Hdir, Hrel.
  destruct (bool_decide (a = "") || posixpath.endswith_slash a);
    by rewrite <- ?append_assoc.
Qed.

(** ** Scanning the output directory *)

Lemma scan_elem (directory prefix : string) (names : list string) (path : string) :
  path ∈ AbinitTask.scan directory prefix names <->
  exists name,
    name ∈ names /\
    posixpath.startswith name (posixpath.basename prefix) = true /\
    path = posixpath.join directory name.
Proof.
  unfold AbinitTask.scan.
  assert (Hgen : forall files,
    path ∈ foldl (fun files file =>
                    if posixpath.startswith file (posixpath.basename prefix)
                    then files ++ [posixpath.join directory file] else files)
                 files names <->
    path ∈ files \/
    exists name, name ∈ names /\
      posixpath.startswith name (posixpath.basename prefix) = true /\
      path = posixpath.join directory name).
  { induction names as [|file names IH]; intros files; simpl.
    - split; [by left|]. intros [?|(name & ?%elem_of_nil & _)]; done.
    - rewrite IH. clear IH. split.
      + intros [Hin|(name & Hin & Hstart & ->)].
        * destruct (posixpath.startswith file _) eqn:Hfile; [|by left].
          apply elem_of_app in Hin as [Hin| ->%list_elem_of_singleton]; [by left|].
          right. exists file. split; [by left|done].
        * right. exists name. split; [by right|done].
      + intros [Hin|(name & [-> |Hin]%elem_of_cons & Hstart & ->)].
        * left. destruct (posixpath.startswith file _); [|done].
          apply elem_of_app. by left.
        * left. rewrite Hstart. apply elem_of_app. right. by apply list_elem_of_singleton.
        * right. exists name. by split. }
  rewrite Hgen. split; [|by right]. by intros [?%elem_of_nil|?].
Qed.

Lemma startswith_out_relative (name : string) :
  posixpath.startswith name "out" = true -> posixpath.startswith_slash name = false.
Proof.
  destruct name as [|c name]; [done|]. simpl.
  destruct (Ascii.eqb_spec c "o") as [->|]; done.
Qed.

Section Scan.
Context {I J F : Type} {InputI : Input.API I} {JobFileJ : JobFile.API J}
        {FS : FileSystem F} {DL : DirectoryListing F}.
Implicit Types (task : AbinitTask.Task I J) (s : F).

(** X19: [outfiles] is a scan of the [output] directory of the task: it
    raises when the directory cannot be listed, and otherwise returns, for
    the names in the directory that start with [out], the name joined to
    the directory, and nothing else.  So the output data file of an
    extension is among [outfiles] exactly when its name, [out] followed by
    the extension with its underscore, is in the directory. *)
Theorem outfiles_scans_output_directory task s :
  match listdir (posixpath.join (AbinitTask.workdir task) "output") s with
  | Error e => AbinitTask.outfiles task s = Error e
  | Ok names =>
      exists files,
        AbinitTask.outfiles task s = Ok files /\
        (forall path,
           path ∈ files <->
           exists name,
             name ∈ names /\ posixpath.startswith name "out" = true /\
             path = posixpath.join (posixpath.join (AbinitTask.workdir task) "output") name) /\
        (forall ext path,
           AbinitTask.odata_path_from_ext task ext = Ok path ->
           path ∈ files <-> ("out" +:+ with_underscore ext) ∈ names)
  end.
Proof.
  unfold AbinitTask.outfiles.
  change (AbinitTask.outfiles_dir task)
    with (posixpath.join (AbinitTask.workdir task) "output").
  destruct (listdir _ s) as [names|e]; simpl; [|done].
  eexists. split; [done|]. split; [intros path; apply scan_elem|].
  intros ext path Hpath.
  assert (Hext : ext <> "") by (by intros ->).
  rewrite odata_path_from_ext_normal in Hpath by done. injection Hpath as <-.
  assert (Hstart : posixpath.startswith ("out" +:+ with_underscore ext) "out" = true).
  { rewrite !append_cons. simpl. by destruct (with_underscore ext). }
  assert (Hjoin : forall name,
            posixpath.startswith name "out" = true ->
            posixpath.join (posixpath.join (AbinitTask.workdir task) "output") name
            = posixpath.join (AbinitTask.workdir task) ("output/" +:+ name)).
  { intros name Hname. rewrite join_join; try done. by apply startswith_out_relative. }
  rewrite scan_elem. split.
  - intros (name & Hin & Hname & Heq). rewrite Hjoin in Heq by done.
    apply join_relative_inj in Heq; [|done|by destruct name].
    change ("output/out" +:+ with_underscore ext)
      with ("output/" +:+ "out" +:+ with_underscore ext) in Heq.
    apply (inj _) in Heq. by rewrite Heq.
  - intros Hin. exists ("out" +:+ with_underscore ext).
    split; [done|]. split; [done|]. by rewrite Hjoin.
Qed.

End Scan.

(** ** Starting a work, and the works of the module *)
Section Works.
Context {I J : Type} {InputI : Input.API I} {JobFileJ : JobFile.API J}.
Implicit Types (work : Work.Work I J) (dep : TaskDependencies.t I J)
  (task : AbinitTask.Task I J).

Section Start.
Context {F : Type} {FS : FileSystem F} {SP : Subprocess F} {TH : Scheduler}.


End Start.

Lemma bind_returns {S A B : Type} (m : Py S A) (k : A -> Py S B) (s s' : S) (a : A) :
  m s = Returns a s' -> bind m k s = k a s'.
Proof. unfold bind. by intros ->. Qed.

Lemma get_varpaths_one dep (tag name : string) :
  TaskDependencies._ext2getvars !! tag = Some name ->
  TaskDependencies.get_varpaths (TaskDependencies.with_odata dep [tag])
  = Ok {[name := posixpath.join (AbinitTask.workdir (TaskDependencies.task dep))
                                ("output/out" +:+ with_underscore tag)]}.
Proof.
  intros Hname. unfold TaskDependencies.get_varpaths. simpl. rewrite Hname.
  by rewrite odata_path_from_ext_normal by by intros ->.
Qed.

Lemma register_input_alone (cwd : string) (input : I) work :
  let new_task :=
    AbinitTask.__init__ cwd input
      (posixpath.join (Work.workdir work)
                      ("task_" +:+ pretty (S (length (Work._tasks work))))) None in
  Work.register_input cwd input (Work.Sequence []) work
  = Returns (TaskDependencies.mk new_task (S (length (Work._tasks work))) [])
            (Work.mkWork (Work.workdir work) (Work.user_options work)
                         (Work._tasks work ++ [new_task])
                         (<[S (length (Work._tasks work)) := []]> (Work._deps work))).
Proof.
  intros new_task. unfold Work.register_input, bind, get, observe, ret, put. simpl.
  rewrite length_app. simpl. unfold Work.__len__.
  by replace (length (Work._tasks work) + 1)%nat
       with (S (length (Work._tasks work))) by lia.
Qed.

Lemma register_input_resolved (cwd : string) (input : I)
    (depends : Work.Depends I J) (vars : gmap string string) work :
  Work.truthy depends = true ->
  Work.update_varpaths (Work.as_sequence depends) ∅ = Ok vars ->
  let new_task :=
    AbinitTask.__init__ cwd input
      (posixpath.join (Work.workdir work)
                      ("task_" +:+ pretty (S (length (Work._tasks work))))) (Some vars) in
  Work.register_input cwd input depends work
  = Returns (TaskDependencies.mk new_task (S (length (Work._tasks work))) [])
            (Work.mkWork (Work.workdir work) (Work.user_options work)
                         (Work._tasks work ++ [new_task])
                         (<[S (length (Work._tasks work)) := Work.as_sequence depends]>
                            (Work._deps work))).
Proof.
  intros Htruthy Hvars new_task.
  unfold Work.register_input, bind, get, observe, ret, put. simpl.
  rewrite Htruthy, Hvars. simpl. rewrite length_app. simpl. unfold Work.__len__.
  by replace (length (Work._tasks work) + 1)%nat
       with (S (length (Work._tasks work))) by lia.
Qed.

Ltac register_with_one tag name :=
  erewrite bind_returns;
  [|apply register_input_resolved; [done|]; simpl;
    rewrite (get_varpaths_one _ tag name) by done; simpl;
    by rewrite (right_id_L ∅ (∪))].

(** X21: whatever the inputs, the constructor of [BandStructure] returns,
    with two tasks, or three when an input for the density of states is
    given, in the directories [task_1], [task_2], [task_3] of the work.
    The ground state gets a copy of its input and needs no file; the band
    structure and the density of states each get a copy of their input
    with [getden_path] set to the DEN file of the ground state, and need
    that file. *)
Theorem band_structure_wiring (cwd workdir : string) (scf_input nscf_input : I)
    (dos_input : option I) :
  exists work scf nscf (dos : option (AbinitTask.Task I J)),
    BandStructure.__init__ cwd workdir scf_input nscf_input dos_input
      = Returns tt work /\
    Work.workdir work = posixpath.abspath cwd workdir /\
    Work._tasks work = [scf; nscf] ++ option_list dos /\
    (forall (k : nat) task,
       Work._tasks work !! k = Some task ->
       AbinitTask.workdir task
       = posixpath.abspath cwd
           (posixpath.join (Work.workdir work) ("task_" +:+ pretty (S k)))) /\
    AbinitTask.input scf = Input.copy scf_input /\
    AbinitTask.need_files scf = [] /\
    AbinitTask.input nscf
      = Input.add_vars_to_control (Input.copy nscf_input)
          {["getden_path" := out_data scf "DEN"]} /\
    AbinitTask.need_files nscf = [out_data scf "DEN"] /\
    match dos_input, dos with
    | Some dos_input, Some dos =>
        AbinitTask.input dos
          = Input.add_vars_to_control (Input.copy dos_input)
              {["getden_path" := out_data scf "DEN"]} /\
        AbinitTask.need_files dos = [out_data scf "DEN"]
    | None, None => True
    | _, _ => False
    end.
Proof.
  unfold BandStructure.__init__.
  erewrite bind_returns by apply register_input_alone.
  register_with_one "DEN" "getden_path".
  destruct dos_input as [dos_input|].
  - register_with_one "DEN" "getden_path".
    unfold ret. simpl.
    eexists _, _, _, (Some _). split; [reflexivity|]. split; [done|]. split; [done|].
    split. { intros [|[|[|k]]] task; simpl; intros; by simplify_eq. }
    split; [done|]. split; [done|]. split; [done|].
    split. { simpl. by rewrite map_to_list_singleton. }
    split; [done|]. simpl. by rewrite map_to_list_singleton.
  - unfold ret. simpl.
    eexists _, _, _, None. split; [reflexivity|]. split; [done|]. split; [done|].
    split. { intros [|[|k]] task; simpl; intros; by simplify_eq. }
    split; [done|]. split; [done|]. split; [done|].
    split; [|done]. simpl. by rewrite map_to_list_singleton.
Qed.

(** X22: whatever the inputs, the constructor of [G0W0] returns, with four
    tasks in the directories [task_1] to [task_4] of the work, chained
    through their files: the bands read the DEN file of the ground state,
    the screening reads the WFK file of the bands, and the self-energy
    reads the WFK file of the bands and the SCR file of the screening.
    Each task gets a copy of its input with these variables, and needs the
    files they name. *)
Theorem g0w0_wiring (cwd workdir : string)
    (scf_input nscf_input screen_input sigma_input : I) :
  exists work scf nscf screen sigma,
    G0W0.__init__ cwd workdir scf_input nscf_input screen_input sigma_input
      = Returns tt work /\
    Work.workdir work = posixpath.abspath cwd workdir /\
    Work._tasks work = [scf; nscf; screen; sigma] /\
    (forall (k : nat) task,
       Work._tasks work !! k = Some task ->
       AbinitTask.workdir task
       = posixpath.abspath cwd
           (posixpath.join (Work.workdir work) ("task_" +:+ pretty (S k)))) /\
    AbinitTask.input scf = Input.copy scf_input /\
    AbinitTask.need_files scf = [] /\
    AbinitTask.input nscf
      = Input.add_vars_to_control (Input.copy nscf_input)
          {["getden_path" := out_data scf "DEN"]} /\
    AbinitTask.need_files nscf = [out_data scf "DEN"] /\
    AbinitTask.input screen
      = Input.add_vars_to_control (Input.copy screen_input)
          {["getwfk_path" := out_data nscf "WFK"]} /\
    AbinitTask.need_files screen = [out_data nscf "WFK"] /\
    AbinitTask.input sigma
      = Input.add_vars_to_control (Input.copy sigma_input)
          {["getwfk_path" := out_data nscf "WFK";
            "getscr_path" := out_data screen "SCR"]} /\
    AbinitTask.need_files sigma ≡ₚ [out_data nscf "WFK"; out_data screen "SCR"].
Proof.
  unfold G0W0.__init__.
  erewrite bind_returns by apply register_input_alone.
  register_with_one "DEN" "getden_path".
  register_with_one "WFK" "getwfk_path".
  erewrite bind_returns.
  2:{ apply register_input_resolved; [done|]. simpl.
      rewrite (get_varpaths_one _ "WFK" "getwfk_path") by done. simpl.
      rewrite (get_varpaths_one _ "SCR" "getscr_path") by done. simpl.
      by rewrite (right_id_L ∅ (∪)). }
  unfold ret. simpl.
  eexists _, _, _, _, _. split; [reflexivity|]. split; [done|]. split; [done|].
  split. { intros [|[|[|[|k]]]] task; simpl; intros; by simplify_eq. }
  split; [done|]. split; [done|]. split; [done|].
  split. { simpl. by rewrite map_to_list_singleton. }
  split; [done|].
  split. { simpl. by rewrite map_to_list_singleton. }
  split. { simpl. by f_equal. }
  simpl.
  change (({["getscr_path" := ?a]} : gmap string string) ∪ {["getwfk_path" := ?b]})
    with (<["getwfk_path" := b]> ({["getscr_path" := a]} : gmap string string)).
  rewrite map_to_list_insert by done. by rewrite map_to_list_singleton.
Qed.

(** X23: [Relaxation] cannot be constructed.  Once the constructor of
    [Work] has set the directory and the options, the constructor calls
    [Relax], which is neither a name of the module nor a builtin, and ends
    with [NameError] before any input is registered. *)
Theorem relaxation_raises_NameError (cwd workdir : string) :
  ("Relax" ∉ Namespace.module_globals) /\
  Namespace.builtins "Relax" = None /\
  Relaxation.__init__ (I:=I) (J:=J) cwd workdir
  = Raises (NameError "Relax") (Work.__init__ cwd workdir (Some ∅)).
Proof.
  split; [|done]. by apply (bool_decide_unpack _).
Qed.

End Works.

(** ** The further properties on the test doubles *)

(** "DEN" and "_DEN" name one file, and are one extension up to the
    underscore. *)
Lemma odata_path_from_ext_inj_witness :
  with_underscore "DEN" = with_underscore "_DEN".
Proof.
  by apply (odata_path_from_ext_inj Demo.task "DEN" "_DEN" "/w/output/out_DEN").
Defined.

(** The density and the wavefunctions of the first task; a tag the table
    lacks. *)
Lemma get_varpaths_resolves_witness :
  (exists vars,
     TaskDependencies.get_varpaths (TaskDependencies.with_odata Demo.scf_dep ["DEN"; "WFK"])
     = Ok vars /\
     vars !! "getwfk_path" = Some "/w/task_1/output/out_WFK") /\
  TaskDependencies.get_varpaths (TaskDependencies.with_odata Demo.scf_dep ["DEN"; "DDB"; "WFK"])
  = Error (KeyError "DDB").
Proof.
  split.
  - destruct (get_varpaths_resolves (TaskDependencies.with_odata Demo.scf_dep ["DEN"; "WFK"]))
      as [Hknown _].
    destruct Hknown as (vars & Hvars & Hlookup).
    { repeat constructor; by eexists. }
    exists vars. split; [done|]. apply Hlookup. exists "WFK".
    split; [by right; left|]. by split.
  - destruct (get_varpaths_resolves
                (TaskDependencies.with_odata Demo.scf_dep ["DEN"; "DDB"; "WFK"]))
      as [_ Hunknown].
    apply (Hunknown ["DEN"] "DDB" ["WFK"]); [done| |done].
    repeat constructor; by eexists.
Defined.

(** Two descriptors that both give the density: the second wins. *)
Lemma update_varpaths_last_wins_witness :
  exists varpaths,
    Work.update_varpaths
      [TaskDependencies.with_odata Demo.scf_dep ["DEN"; "WFK"];
       TaskDependencies.with_odata Fixtures.nscf_dep ["DEN"]] ∅ = Ok varpaths /\
    varpaths !! "getden_path" = Some "/w/task_2/output/out_DEN" /\
    varpaths !! "getwfk_path" = Some "/w/task_1/output/out_WFK".
Proof.
  destruct (update_varpaths_last_wins
              [TaskDependencies.with_odata Demo.scf_dep ["DEN"; "WFK"]]
              (TaskDependencies.with_odata Fixtures.nscf_dep ["DEN"])
              (list_to_map [("getden_path", "/w/task_1/output/out_DEN");
                            ("getwfk_path", "/w/task_1/output/out_WFK")])
              (list_to_map [("getden_path", "/w/task_2/output/out_DEN")]))
    as (varpaths & Hupdate & Hlookup).
  - vm_compute. reflexivity.
  - vm_compute. reflexivity.
  - exists varpaths. split; [exact Hupdate|]. rewrite !Hlookup.
    split; vm_compute; reflexivity.
Defined.

(** The task of [/w], constructed in [/home/user]. *)
Lemma task_file_layout_witness :
  AbinitTask.log_file Demo.task = File.mk "log" "/w" "/w/log" /\
  File.path (AbinitTask.stderr_file Demo.task) <> AbinitTask.path_in_workdir Demo.task "__lock__".
Proof.
  destruct (task_file_layout "/home/user" Demo.silicon "/w" None eq_refl)
    as (_ & _ & _ & Hlog & _ & _ & Hnodup).
  split; [exact Hlog|].
  apply NoDup_cons in Hnodup as [_ Hnodup]. apply NoDup_cons in Hnodup as [_ Hnodup].
  apply NoDup_cons in Hnodup as [_ Hnodup]. apply NoDup_cons in Hnodup as [_ Hnodup].
  apply NoDup_cons in Hnodup as [Hnotin _].
  intros Heq. apply Hnotin. apply elem_of_cons. right. apply elem_of_cons. left.
  exact Heq.
Defined.

(** The statuses of the first and of the fourth task of the batch. *)
Lemma status_comparisons_total_order_witness :
  Status.__lt__ (Status.mk Demo.task Status.completed)
                (Status.mk Demo.task Status.error) = true.
Proof.
  destruct (status_comparisons_total_order
              (Status.mk Demo.task Status.completed)
              (Status.mk Demo.task Status.unstarted)
              (Status.mk Demo.task Status.error)) as (_ & _ & _ & _ & _ & _ & Htrans).
  by apply Htrans.
Defined.

(** The third task of the batch is running: output and log without an
    error, an empty stderr. *)
Lemma status_decision_table_witness :
  exists task status,
    Work._tasks Demo.batch !! 2%nat = Some task /\
    Status.__init__ task Demo.mixed = Ok status /\
    Status._level_str status = Status.running /\
    AbinitTask.iscomplete task Demo.mixed = Ok false.
Proof.
  destruct (Work._tasks Demo.batch !! 2%nat) as [task|] eqn:Htask;
    [|by vm_compute in Htask].
  destruct (Status.__init__ task Demo.mixed) as [status|e] eqn:Hinit.
  - exists task, status. split; [done|]. split; [done|].
    destruct (status_decision_table task Demo.mixed status Hinit) as (_ & _ & _ & Hrun).
    vm_compute in Htask. injection Htask as <-.
    assert (Hlevel : Status._level_str status = Status.running).
    { vm_compute in Hinit. by injection Hinit as <-. }
    split; [done|]. by apply Hrun; right.
  - vm_compute in Htask. injection Htask as <-. by vm_compute in Hinit.
Defined.


(** Building the batch twice. *)
Lemma work_build_idempotent_witness :
  let built := final_state (Work.build Demo.batch Demo.prepared) in
  Work.build Demo.batch built = Work.build Demo.batch Demo.prepared /\
  stat "/w/run.input" built = Some (Regular "ecut 99").
Proof.
  destruct (work_build_idempotent (LAWS:=demo_store_laws) Demo.batch Demo.prepared)
    as [Hsame Hkept].
  split; [exact Hsame|]. apply Hkept. by vm_compute.
Defined.

(** After the batch is built from nothing, the job script of its third
    task exists. *)
Lemma build_returns_with_everything_there_witness :
  returned (Work.build Demo.batch ∅) = true /\
  is_Some (stat "/w/task_3/job.sh" (final_state (Work.build Demo.batch ∅))).
Proof.
  assert (Hreturned : returned (Work.build Demo.batch ∅) = true)
    by (vm_compute; reflexivity).
  split; [exact Hreturned|].
  destruct (build_returns_with_everything_there (LAWS:=demo_store_laws)
              (I:=Demo.input) (J:=Demo.jobfile)) as [_ Hwork].
  destruct (Work.build Demo.batch ∅) as [u built|e built] eqn:Hbuild;
    [|discriminate Hreturned].
  destruct (Hwork Demo.batch ∅ u built Hbuild) as [_ Htasks]. simpl.
  destruct (Work._tasks Demo.batch !! 2%nat) as [task|] eqn:Htask;
    [|by vm_compute in Htask].
  assert (Hpath : AbinitTask.jobfile_path task = "/w/task_3/job.sh").
  { vm_compute in Htask. by injection Htask as <-. }
  rewrite <- Hpath. apply (Htasks task).
  - by eapply list_elem_of_lookup_2.
  - do 5 (apply elem_of_cons; right). apply elem_of_cons. by left.
Defined.

(** A job that exits with 3: the code is returned, whatever the teardown
    hook. *)
Lemma run_nonzero_exit_skips_teardown_witness :
  exists state,
    AbinitTask.run (SP:=Demo.exits 3) AbinitTask.default_hooks false
                   (Demo.task, Demo.nothing) = Returns 3 state /\
    AbinitTask.run (SP:=Demo.exits 3) Demo.failing_teardown false
                   (Demo.task, Demo.nothing) = Returns 3 state.
Proof.
  destruct (run_nonzero_exit_skips_teardown (SP:=Demo.exits 3)
              (fun _ : AbinitTask.Task Demo.input Demo.jobfile => ret tt)
              (fun _ => ret tt) (fun _ => raise (Exception_ "teardown failed"))
              Demo.task Demo.nothing) as [Hreturns Hsame].
  edestruct Hreturns as [state Hrun]; [reflexivity|reflexivity|reflexivity|done|].
  exists state. split; [exact Hrun|]. by apply Hsame.
Defined.

(** A second run, and a second start with four threads, while the lock is
    held. *)
Lemma held_lock_stops_run_and_start_witness :
  AbinitTask.run (SP:=Demo.exits 0) AbinitTask.default_hooks false
                 (Demo.task, mkWorld ∅ {["/w/__lock__"]})
  = Raises (FileLockException "/w/__lock__") (Demo.task, mkWorld ∅ {["/w/__lock__"]}) /\
  Work.start (SP:=Demo.exits 0) Work.default_hooks AbinitTask.default_hooks
             (Some (KInt 4)) false (Demo.batch, mkWorld ∅ {["/w/__lock__"]})
  = Completes (Raises (FileLockException "/w/__lock__")
                      (Demo.batch, mkWorld ∅ {["/w/__lock__"]})).
Proof.
  destruct (held_lock_stops_run_and_start (SP:=Demo.exits 0)
              (Work.default_hooks (I:=Demo.input) (J:=Demo.jobfile))
              AbinitTask.default_hooks (Some (KInt 4)) false) as [Hrun Hstart].
  split.
  - apply (Hrun Demo.task). by vm_compute.
  - apply (Hstart Demo.batch). by vm_compute.
Defined.

(** Starting the batch with [verbose]: with one thread the exception
    reaches the caller, with three the caller waits; the lock of the work
    stays behind. *)
Lemma verbose_run_raises_AttributeError_witness :
  Work.start (SP:=Demo.exits 0) Work.default_hooks AbinitTask.default_hooks None true
             (Demo.batch, Demo.nothing)
  = Completes (Raises (AttributeError "input_path")
                      (Demo.batch, mkWorld ∅ ({["/w/__lock__"]} ∪ ∅))) /\
  Work.start (SP:=Demo.exits 0) Work.default_hooks AbinitTask.default_hooks
             (Some (KInt 3)) true (Demo.batch, Demo.nothing)
  = Waits (Demo.batch, mkWorld ∅ ({["/w/__lock__"]} ∪ ∅)).
Proof.
  split.
  - destruct (verbose_run_raises_AttributeError (SP:=Demo.exits 0)
                (Work.default_hooks (I:=Demo.input) (J:=Demo.jobfile))
                AbinitTask.default_hooks None) as [_ Hstart].
    apply (Hstart Demo.batch Demo.nothing tt _ 1).
    + by vm_compute.
    + by vm_compute.
    + reflexivity.
    + reflexivity.
  - destruct (verbose_run_raises_AttributeError (SP:=Demo.exits 0)
                (Work.default_hooks (I:=Demo.input) (J:=Demo.jobfile))
                AbinitTask.default_hooks (Some (KInt 3))) as [_ Hstart].
    apply (Hstart Demo.batch Demo.nothing tt _ 3).
    + by vm_compute.
    + by vm_compute.
    + reflexivity.
    + reflexivity.
Defined.

(** [writelines] on the input file of a built task empties it. *)
Lemma file_writelines_raises_witness :
  exists e s',
    File.writelines (AbinitTask.input_file Demo.task) ["ecut 20"] Demo.prepared
    = Raises e s' /\
    stat "/w/run.input" s' = Some (Regular "").
Proof.
  destruct (file_writelines_raises (LAWS:=demo_store_laws)
              (AbinitTask.input_file Demo.task) ["ecut 20"] Demo.prepared)
    as (_ & e & s' & Hraises & [[Hopen _]|(_ & Hempty & _)]).
  - assert (Hreturned : returned (write_file (File.path (AbinitTask.input_file Demo.task))
                                             "" Demo.prepared) = true)
      by (vm_compute; reflexivity).
    rewrite Hopen in Hreturned. discriminate Hreturned.
  - exists e, s'. split; [exact Hraises|exact Hempty].
Defined.

(** The output directory after a run: the density file is listed, the
    file written by hand is not, and no screening file was produced. *)
Lemma outfiles_scans_output_directory_witness :
  exists files,
    AbinitTask.outfiles Demo.task Fixtures.ran = Ok files /\
    "/w/output/out_DEN" ∈ files /\
    "/w/output/out_SCR" ∉ files.
Proof.
  pose proof (outfiles_scans_output_directory Demo.task Fixtures.ran) as Hscan.
  destruct (listdir (posixpath.join (AbinitTask.workdir Demo.task) "output") Fixtures.ran)
    as [names|e] eqn:Hnames; [|by vm_compute in Hnames].
  destruct Hscan as (files & Hfiles & _ & Hodata).
  exists files. split; [exact Hfiles|].
  vm_compute in Hnames. injection Hnames as <-. split.
  - apply (Hodata "DEN" "/w/output/out_DEN"); [done|]. by apply (bool_decide_unpack _).
  - rewrite (Hodata "SCR" "/w/output/out_SCR"); [|done]. by apply (bool_decide_unpack _).
Defined.



(** Running the batch without a worker: the caller waits, and nothing has
    happened. *)
Lemma threaded_run_returns_or_waits_witness :
  Work.run (SP:=Demo.exits 0) AbinitTask.default_hooks (Some (KInt 0)) false
           (Demo.batch, Demo.nothing)
  = Waits (Demo.batch, Demo.nothing).
Proof.
  destruct (threaded_run_returns_or_waits (SP:=Demo.exits 0) AbinitTask.default_hooks
              (Some (KInt 0)) false 0 Demo.batch Demo.nothing eq_refl)
    as (_ & _ & Hwaits); [lia|].
  apply Hwaits; [by vm_compute|]. left. lia.
Defined.

(** A single task whose job cannot be launched, with two threads: the
    caller waits. *)
Lemma threaded_run_loses_exception_witness :
  waits (Work.run (SP:=Demo.no_such_shell) AbinitTask.default_hooks (Some (KInt 2)) false
                  (Fixtures.single, Demo.nothing)) = true.
Proof.
  rewrite (threaded_run_loses_exception (SP:=Demo.no_such_shell) AbinitTask.default_hooks
             (Some (KInt 2)) false 2 Fixtures.single Fixtures.first_task Demo.nothing
             eq_refl);
    [|lia|by vm_compute].
  destruct (AbinitTask.run _ _ _) as [code [task' w']|e [task' w']] eqn:Hrun.
  - vm_compute in Hrun. discriminate Hrun.
  - reflexivity.
Defined.
